(** * specfit.specdata: spectroscopic line lists from the JPL and CDMS catalogs

    A shallow embedding of [src/specfit/specdata.py]:
    - the unit conversions [wavenumber_to_Kelvin] and [logint_to_EinsteinA],
    - the class [PartitionFunction],
    - the class [SpectroscopicData] with its two format normalisers
      [format_JPL] and [format_CDMS], the two query entry points and
      [parse_datafile].

    Numbers are IEEE binary64 values ([PrimFloat.float]), as Python's [float]
    and numpy's [float64] are; integers are [Z].  What the module imports from
    numpy, scipy, astropy and astroquery is not part of the repository: the
    pieces that are pure numerics (the constants, [np.exp], float power, the
    spline fit) and the two catalogue services are gathered in the class
    [Externals]; the table container of astropy is modelled below as far as the
    module uses it. *)

From Stdlib Require Import ZArith Floats Uint63 Bool Lia Ascii String.
From stdpp Require Import base option list strings gmap.

Set Default Proof Using "Type".
#[local] Set Warnings "-inexact-float".

(** ** Exceptions and the result of a call *)

Inductive exn : Type :=
| KeyError (what : string)
| IndexError (what : string)
| ValueError (what : string)
| TypeError (what : string)
| OverflowError (what : string)
| AttributeError (what : string).

Inductive result (A : Type) : Type :=
| Ok (a : A)
| Raise (e : exn).
Arguments Ok {A} a.
Arguments Raise {A} e.

#[global] Instance result_ret : MRet result := fun A a => Ok a.
#[global] Instance result_bind : MBind result := fun A B k r =>
  match r with
  | Ok a => k a
  | Raise e => Raise e
  end.
#[global] Instance result_fmap : FMap result := fun A B f r =>
  match r with
  | Ok a => Ok (f a)
  | Raise e => Raise e
  end.

Definition is_Ok {A} (r : result A) : bool :=
  match r with Ok _ => true | Raise _ => false end.

Definition is_KeyError {A} (r : result A) : bool :=
  match r with Raise (KeyError _) => true | _ => false end.

(** ** What the module takes from its libraries *)

Class Externals : Type := {
  (** [astropy.constants] in cgs units *)
  h : float;
  c : float;
  k_B : float;
  (** [np.exp] on a binary64 value *)
  np_exp : float -> float;
  (** [x ** y] on binary64 values *)
  float_pow : float -> float -> float;
  (** the cubic spline scipy fits through at least four samples, with
      extrapolation; it may still reject the samples *)
  make_interp_spline : list float -> list float -> result (float -> float);
  (** [float(s)] of a string *)
  float_of_string : string -> result float;
}.

(** ** Arithmetic that works on a scalar and on an array alike

    The conversion functions are written once in the source and called both
    with Python floats and with table columns.  [Arith] is the interface they
    use; its two instances are the scalar one and numpy's broadcasting one. *)

Class Arith (A : Type) : Type := {
  lit : float -> A;
  aadd : A -> A -> A;
  asub : A -> A -> A;
  amul : A -> A -> A;
  adiv : A -> A -> A;
  aneg : A -> A;
  aexp : A -> A;
  apow : A -> A -> A;
}.

Declare Scope arith_scope.
Delimit Scope arith_scope with arith.
Infix "+" := aadd : arith_scope.
Infix "-" := asub : arith_scope.
Infix "*" := amul : arith_scope.
Infix "/" := adiv : arith_scope.
Notation "- x" := (aneg x) : arith_scope.
Infix "**" := apow (at level 30, right associativity) : arith_scope.

#[global] Instance float_Arith `{Externals} : Arith float := {
  lit x := x;
  aadd := PrimFloat.add;
  asub := PrimFloat.sub;
  amul := PrimFloat.mul;
  adiv := PrimFloat.div;
  aneg := PrimFloat.opp;
  aexp := np_exp;
  apow := float_pow;
}.

(** A numpy operand: a scalar, or a one-dimensional array of binary64 cells.
    A cell of a masked array that is masked is [None]. *)
Inductive operand : Type :=
| Scalar (x : float)
| Array (a : list (option float)).

Definition cell1 (f : float -> float) (x : option float) : option float :=
  f <$> x.

Definition cell2 (f : float -> float -> float) (x y : option float)
  : option float :=
  match x, y with
  | Some a, Some b => Some (f a b)
  | _, _ => None
  end.

Definition broadcast1 (f : float -> float) (x : operand) : operand :=
  match x with
  | Scalar a => Scalar (f a)
  | Array a => Array (cell1 f <$> a)
  end.

Definition broadcast2 (f : float -> float -> float) (x y : operand)
  : operand :=
  match x, y with
  | Scalar a, Scalar b => Scalar (f a b)
  | Scalar a, Array b => Array (cell1 (f a) <$> b)
  | Array a, Scalar b => Array (cell1 (fun u => f u b) <$> a)
  | Array a, Array b => Array (zip_with (cell2 f) a b)
  end.

#[global] Instance operand_Arith `{Externals} : Arith operand := {
  lit := Scalar;
  aadd := broadcast2 PrimFloat.add;
  asub := broadcast2 PrimFloat.sub;
  amul := broadcast2 PrimFloat.mul;
  adiv := broadcast2 PrimFloat.div;
  aneg := broadcast1 PrimFloat.opp;
  aexp := broadcast1 np_exp;
  apow := broadcast2 float_pow;
}.

(** ** Unit conversions *)

Section Conversions.
Context `{Externals} {A : Type} `{!Arith A}.
Local Open Scope arith_scope.

Definition wavenumber_to_Kelvin (wavenumber : A) : A :=
  wavenumber * lit h * lit c / lit k_B.

(** CDMS intensity at 300 K (nm2 MHz, log10) to the Einstein A
    coefficient (1/s). *)
Definition logint_to_EinsteinA (logint_300 nu0 gup Elow Q_300 : A) : A :=
  let Elow := wavenumber_to_Kelvin Elow in
  let Eup := Elow + lit h * nu0 * lit 1e6 / lit k_B in
  let Smu2 :=
    lit 2.40251e4
    * lit 10 ** logint_300
    * Q_300
    / nu0
    / (aexp (- Elow / lit 300) - aexp (- Eup / lit 300)) in
  let A_ := lit 1.16395e-20 * nu0 ** lit 3 * Smu2 / gup in
  A_.

End Conversions.

(** ** Python and numpy scalars *)

(** [float(n)] of an integer, and numpy's cast of an int64 cell to float64:
    the nearest binary64 value. *)
Definition float_of_Z (z : Z) : float :=
  SF2Prim (binary_normalize prec emax z 0 false).

(** [int(x)] of a float: truncation towards zero. *)
Definition int_of_float (x : float) : result Z :=
  match Prim2SF x with
  | S754_nan => Raise (ValueError "cannot convert float NaN to integer")
  | S754_infinity _ =>
      Raise (OverflowError "cannot convert float infinity to integer")
  | S754_zero _ => Ok 0%Z
  | S754_finite s m e =>
      let a := if (0 <=? e)%Z then Z.shiftl (Z.pos m) e
               else Z.shiftr (Z.pos m) (- e) in
      Ok (if s then (- a)%Z else a)
  end.

(** The integer a float is equal to, if any (Python compares an [int] and a
    [float] by value). *)
Definition float_as_Z (x : float) : option Z :=
  match Prim2SF x with
  | S754_zero _ => Some 0%Z
  | S754_finite s m e =>
      if (0 <=? e)%Z then
        let a := Z.shiftl (Z.pos m) e in Some (if s then (- a)%Z else a)
      else
        let a := Z.shiftr (Z.pos m) (- e) in
        if (Z.shiftl a (- e) =? Z.pos m)%Z
        then Some (if s then (- a)%Z else a) else None
  | _ => None
  end.

(** An element taken out of a column, or a Python scalar. *)
Inductive value : Type :=
| VFloat (x : float)
| VInt (z : Z)
| VStr (s : string)
| VMasked.

(** [a == b] on two scalars. *)
Definition value_eqb (a b : value) : bool :=
  match a, b with
  | VInt x, VInt y => (x =? y)%Z
  | VFloat x, VFloat y => PrimFloat.eqb x y
  | VInt x, VFloat y | VFloat y, VInt x =>
      match float_as_Z y with Some z => (x =? z)%Z | None => false end
  | VStr x, VStr y => String.eqb x y
  | _, _ => false
  end.

Fixpoint digits_value (s : string) (acc : Z) : option Z :=
  match s with
  | EmptyString => Some acc
  | String a s' =>
      let n := Ascii.nat_of_ascii a in
      if (48 <=? n)%nat && (n <=? 57)%nat
      then digits_value s' (10 * acc + Z.of_nat (n - 48))%Z
      else None
  end.

(** [int(s)] of a string holding an optional sign and decimal digits. *)
Definition int_of_string (s : string) : result Z :=
  let bad := Raise (ValueError "invalid literal for int() with base 10") in
  match s with
  | EmptyString => bad
  | String "-"%char (String _ _ as d) =>
      match digits_value d 0 with Some z => Ok (- z)%Z | None => bad end
  | String "+"%char (String _ _ as d) =>
      match digits_value d 0 with Some z => Ok z | None => bad end
  | d => match digits_value d 0 with Some z => Ok z | None => bad end
  end.

(** [int(v)] *)
Definition py_int (v : value) : result Z :=
  match v with
  | VInt z => Ok z
  | VFloat x => int_of_float x
  | VStr s => int_of_string s
  | VMasked => Raise (TypeError "Cannot convert masked element to a Python int.")
  end.

(** ** Columns

    A column is a typed one-dimensional array.  A cell that the reader marked
    as missing (a masked cell of a [MaskedColumn]) is [None]; the value numpy
    keeps under a mask is not observable and is not modelled.  Display
    attributes of a column (unit, format string) are not modelled. *)

Inductive cells : Type :=
| FloatCells (a : list (option float))
| IntCells (a : list (option Z))
| StrCells (a : list (option string)).

Record Column : Type := {
  data : cells;
  (** the column is a [MaskedColumn] (it may still have no masked cell) *)
  is_masked_column : bool;
}.

Definition cell_mask {A} (a : list (option A)) : list bool :=
  (fun x => match x with None => true | Some _ => false end) <$> a.

(** [col.mask], all [False] for a plain column *)
Definition column_mask (col : Column) : list bool :=
  match data col with
  | FloatCells a => cell_mask a
  | IntCells a => cell_mask a
  | StrCells a => cell_mask a
  end.

(** [len(col)] *)
Definition column_len (col : Column) : nat := length (column_mask col).

(** [np.all(a)] and [np.any(a)] on booleans *)
Definition np_all (a : list bool) : bool := forallb id a.
Definition np_any (a : list bool) : bool := existsb id a.

(** [col.tolist()] *)
Definition tolist (col : Column) : list value :=
  match data col with
  | FloatCells a => (fun x => from_option VFloat VMasked x) <$> a
  | IntCells a => (fun x => from_option VInt VMasked x) <$> a
  | StrCells a => (fun x => from_option VStr VMasked x) <$> a
  end.

(** [col[i]] *)
Definition column_item (col : Column) (i : nat) : result value :=
  match tolist col !! i with
  | Some v => Ok v
  | None => Raise (IndexError "index out of bounds")
  end.

(** [lst.index(x)] *)
Fixpoint list_index (x : value) (lst : list value) : option nat :=
  match lst with
  | [] => None
  | y :: lst' => if value_eqb y x then Some 0 else S <$> list_index x lst'
  end.

(** The column as a numpy operand of float arithmetic: integer cells are
    cast to binary64, text has no arithmetic. *)
Definition as_operand (col : Column) : result operand :=
  match data col with
  | FloatCells a => Ok (Array a)
  | IntCells a => Ok (Array ((fun x : option Z => float_of_Z <$> x) <$> a))
  | StrCells _ =>
      Raise (TypeError "ufunc did not contain a loop with matching types")
  end.

(** The column that holds the result of float arithmetic. *)
Definition of_operand (n : nat) (masked_col : bool) (x : operand) : Column :=
  match x with
  | Scalar v => {| data := FloatCells (replicate n (Some v));
                   is_masked_column := masked_col |}
  | Array a => {| data := FloatCells a; is_masked_column := masked_col |}
  end.

(** [col *= k] for a Python float [k]: allowed on a float column only;
    numpy refuses to cast the float64 product back into integer or text
    cells.  Masked cells stay masked. *)
Definition column_imul (col : Column) (k : float) : result Column :=
  match data col with
  | FloatCells a =>
      Ok {| data := FloatCells (cell1 (fun x => x * k)%float <$> a);
            is_masked_column := is_masked_column col |}
  | IntCells _ =>
      Raise (TypeError "Cannot cast ufunc 'multiply' output from float64 to int64")
  | StrCells _ =>
      Raise (TypeError "ufunc 'multiply' did not contain a loop with matching types")
  end.

(** The least element of a non-empty list for a strict order. *)
Definition list_min {A} (lt : A -> A -> bool) (x : A) (l : list A) : A :=
  foldr (fun y m => if lt y m then y else m) x l.

Definition float_lt_nan_last (x y : float) : bool :=
  if PrimFloat.is_nan y then negb (PrimFloat.is_nan x) else PrimFloat.ltb x y.

(** [np.unique(col)[0]]: the least cell of the column ([nan] counts as the
    greatest float and masked cells come last). *)
Definition np_unique_first (col : Column) : result value :=
  let first {A} (inj : A -> value) (lt : A -> A -> bool)
            (a : list (option A)) : result value :=
    match a with
    | [] => Raise (IndexError "index 0 is out of bounds for axis 0 with size 0")
    | _ => match omap id a with
           | [] => Ok VMasked
           | x :: l => Ok (inj (list_min lt x l))
           end
    end in
  match data col with
  | FloatCells a => first VFloat float_lt_nan_last a
  | IntCells a => first VInt Z.ltb a
  | StrCells a => first VStr String.ltb a
  end.

(** [[v] * n] turned into a column by [add_column]. *)
Definition column_of_repeat (v : value) (n : nat) : Column :=
  {| data := match v with
             | VFloat x => FloatCells (replicate n (Some x))
             | VInt z => IntCells (replicate n (Some z))
             | VStr s => StrCells (replicate n (Some s))
             | VMasked => FloatCells (replicate n None)
             end;
     is_masked_column := match v with VMasked => true | _ => false end |}.

(** [col[m]] for a boolean array [m] of the column's length *)
Definition column_select (m : list bool) (col : Column) : Column :=
  let keep {A} (a : list A) : list A :=
    fst <$> List.filter snd (zip a m) in
  {| data := match data col with
             | FloatCells a => FloatCells (keep a)
             | IntCells a => IntCells (keep a)
             | StrCells a => StrCells (keep a)
             end;
     is_masked_column := is_masked_column col |}.

(** [float(col)]: defined for a column of exactly one cell. *)
Definition column_float `{Externals} (col : Column) : result float :=
  match tolist col with
  | [VFloat x] => Ok x
  | [VInt z] => Ok (float_of_Z z)
  | [VStr s] => float_of_string s
  | [VMasked] => Ok PrimFloat.nan
  | _ => Raise (TypeError "only length-1 arrays can be converted to Python scalars")
  end.

(** ** numpy and scipy functions on float arrays *)

(** [a[m]] for a boolean array [m]: the lengths must agree. *)
Definition bool_index {A} (a : list A) (m : list bool) : result (list A) :=
  if (length a =? length m)%nat
  then Ok (fst <$> List.filter snd (zip a m))
  else Raise (IndexError "boolean index did not match indexed array")%string.

(** [np.nanmin] and [np.nanmax]: the extreme value with [nan] ignored,
    [nan] when nothing else is there, an error on an empty array. *)
Definition nan_fold (better : float -> float -> bool) (a : list float)
  : float :=
  foldr (fun x m => if PrimFloat.is_nan x then m
                    else if PrimFloat.is_nan m then x
                    else if better x m then x else m) PrimFloat.nan a.

Definition np_nanmin (a : list float) : result float :=
  match a with
  | [] => Raise (ValueError "zero-size array to reduction operation fmin")%string
  | _ => Ok (nan_fold PrimFloat.ltb a)
  end.

Definition np_nanmax (a : list float) : result float :=
  match a with
  | [] => Raise (ValueError "zero-size array to reduction operation fmax")%string
  | _ => Ok (nan_fold (fun x m => PrimFloat.ltb m x) a)
  end.

(** [interp1d(x, y, kind="cubic", fill_value="extrapolate")]: scipy wants
    arrays of one length with at least order + 1 = 4 entries and then fits
    the spline. *)
Definition interp1d_cubic `{Externals} (x y : list float)
  : result (float -> float) :=
  if negb (length x =? length y)%nat then
    Raise (ValueError "x and y arrays must be equal in length along interpolation axis.")%string
  else if (length x <? 4)%nat then
    Raise (ValueError "x and y arrays must have at least 4 entries")%string
  else make_interp_spline x y.

(** ** class PartitionFunction *)

Module PartitionFunction.

Record t : Type := {
  species : value;
  T : list float;
  Q : list float;
  database : option string;
  ntrans : option Column;
  function : float -> float;
}.

Definition warning : string :=
  "Warning: Input temperature is smaller or larger than the original partition function data. Will be evaluated by extrapolation.".

Section Methods.
Context `{Externals}.

Definition _get_function (T Q : list float) : result (float -> float) :=
  let keep := (fun q => negb (PrimFloat.is_nan q)) <$> Q in
  T' ← bool_index T keep;
  Q' ← bool_index Q keep;
  interp1d_cubic T' Q'.

Definition __init__ (species : value) (T Q : list float)
  (database : option string) (ntrans : option Column) : result t :=
  f ← _get_function T Q;
  Ok {| species := species; T := T; Q := Q; database := database;
        ntrans := ntrans; function := f |}.

(** [self(T, verbose)] for a scalar temperature [T]: what is printed, and
    the value returned. *)
Definition __call__ (self : t) (T_ : float) (verbose : bool)
  : list string * result float :=
  let outside : result bool :=
    if verbose then
      lo ← np_nanmin (T self);
      if PrimFloat.ltb T_ lo then Ok true
      else hi ← np_nanmax (T self); Ok (PrimFloat.ltb hi T_)
    else Ok false in
  match outside with
  | Raise e => ([], Raise e)
  | Ok w => (if w then [warning] else [], Ok (function self T_))
  end.

End Methods.
End PartitionFunction.

(** ** Tables

    An astropy [Table] as the module uses it: named columns in order, the
    [masked] flag and the [meta] dictionary. *)

Inductive meta_value : Type :=
| MValue (v : value)
| MFloats (a : list float)
| MPartitionFunction (pf : PartitionFunction.t).

Module Table.

Record t : Type := {
  columns : gmap string Column;
  colnames : list string;
  masked : bool;
  meta : gmap string meta_value;
}.

Definition set_columns (cols : gmap string Column) (names : list string)
  (tbl : t) : t :=
  {| columns := cols; colnames := names; masked := masked tbl;
     meta := meta tbl |}.

(** [tbl.meta[key] = v] *)
Definition set_meta (key : string) (v : meta_value) (tbl : t) : t :=
  {| columns := columns tbl; colnames := colnames tbl; masked := masked tbl;
     meta := <[key := v]> (meta tbl) |}.

(** [tbl.meta[key]] *)
Definition get_meta (key : string) (tbl : t) : result meta_value :=
  match meta tbl !! key with
  | Some v => Ok v
  | None => Raise (KeyError key)
  end.

(** [tbl[name]] *)
Definition getitem (name : string) (tbl : t) : result Column :=
  match columns tbl !! name with
  | Some col => Ok col
  | None => Raise (KeyError name)
  end.

(** [len(tbl)]: the number of rows *)
Definition len (tbl : t) : nat :=
  match colnames tbl with
  | [] => 0
  | name :: _ => from_option column_len 0 (columns tbl !! name)
  end.

(** [tbl.mask is not None]: the table is masked, or one of its columns is a
    masked column or has a masked cell. *)
Definition has_mask (tbl : t) : bool :=
  masked tbl
  || existsb (fun name =>
       match columns tbl !! name with
       | Some col => is_masked_column col || np_any (column_mask col)
       | None => false
       end) (colnames tbl).

(** [[col for col in tbl.colnames if np.all(tbl.mask[col])]] *)
Definition masked_columns (tbl : t) : list string :=
  List.filter (fun name =>
    match columns tbl !! name with
    | Some col => np_all (column_mask col)
    | None => false
    end) (colnames tbl).

Definition delete_all (names : list string) (cols : gmap string Column)
  : gmap string Column :=
  foldr delete cols names.

(** [tbl.remove_columns(names)]: every name must be a column, then all of
    them go. *)
Definition remove_columns (names : list string) (tbl : t) : result t :=
  match List.find (fun name => bool_decide (columns tbl !! name = None)) names with
  | Some name => Raise (KeyError name)
  | None =>
      Ok (set_columns (delete_all names (columns tbl))
            (List.filter (fun n => bool_decide (n ∉ names)) (colnames tbl))
            tbl)
  end.

(** [tbl.remove_column(name)] *)
Definition remove_column (name : string) (tbl : t) : result t :=
  remove_columns [name] tbl.

(** [tbl.rename_column(name, new_name)] *)
Definition rename_column (name new_name : string) (tbl : t) : result t :=
  match columns tbl !! name with
  | None => Raise (KeyError name)
  | Some col =>
      if bool_decide (name = new_name) then Ok tbl
      else if bool_decide (is_Some (columns tbl !! new_name)) then
        Raise (KeyError new_name)
      else
        Ok (set_columns (<[new_name := col]> (delete name (columns tbl)))
              ((fun n => if bool_decide (n = name) then new_name else n)
                 <$> colnames tbl)
              tbl)
  end.

(** [tbl.add_column(col, name=name, index=0)] *)
Definition add_column (col : Column) (name : string) (tbl : t) : result t :=
  if bool_decide (is_Some (columns tbl !! name)) then
    Raise (ValueError "Duplicate column names")
  else if negb (bool_decide (colnames tbl = []))
          && negb (column_len col =? len tbl)%nat then
    Raise (ValueError "Inconsistent data column lengths")
  else
    Ok (set_columns (<[name := col]> (columns tbl)) (name :: colnames tbl) tbl).

(** [tbl[name] = x] for an existing column [name] and the result [x] of
    array arithmetic: the column is replaced where it stands. *)
Definition setitem (name : string) (x : operand) (tbl : t) : result t :=
  match columns tbl !! name with
  | None => Raise (KeyError name)
  | Some old =>
      let col := of_operand (len tbl) (masked tbl || is_masked_column old) x in
      if (column_len col =? column_len old)%nat then
        Ok (set_columns (<[name := col]> (columns tbl)) (colnames tbl) tbl)
      else Raise (ValueError "could not broadcast input array")
  end.

(** [tbl[name] *= k] *)
Definition imul (name : string) (k : float) (tbl : t) : result t :=
  col ← getitem name tbl;
  col' ← column_imul col k;
  Ok (set_columns (<[name := col']> (columns tbl)) (colnames tbl) tbl).

(** [tbl[m]] for a boolean array [m]: the rows where [m] holds *)
Definition select (m : list bool) (tbl : t) : t :=
  set_columns (column_select m <$> columns tbl) (colnames tbl) tbl.

End Table.

(** ** The catalogue services and the file reader (astroquery, astropy.io) *)

Class Catalogues : Type := {
  (** [JPL.get_species_table()] *)
  JPL_get_species_table : Table.t;
  (** [JPL.query_lines(min_frequency, max_frequency, molecule)]: a new table,
      or [None] *)
  JPL_query_lines : float -> float -> Z -> option Table.t;
  (** [CDMS.get_species_table(use_cached)] *)
  CDMS_get_species_table : bool -> Table.t;
  (** [CDMS.query_lines(min_frequency, max_frequency, molecule,
      temperature_for_intensity)] *)
  CDMS_query_lines : float -> float -> string -> Z -> option Table.t;
  (** the cells [ascii.read] finds in a file at the given column starts, one
      column per start *)
  read_fixed_width : string -> list nat -> result (list Column);
}.

(** [ascii.read(filename, names=names, col_starts=col_starts,
    format="fixed_width")]: the columns read get the given names. *)
Definition ascii_read `{Catalogues} (filename : string)
  (names : list string) (col_starts : list nat) : result Table.t :=
  cols ← read_fixed_width filename col_starts;
  Ok {| Table.columns := list_to_map (zip names cols);
        Table.colnames := (zip names cols).*1;
        Table.masked := false;
        Table.meta := ∅ |}.

(** ** Strings *)

(** [sub in s] *)
Definition str_contains (sub s : string) : bool :=
  match String.index 0 sub s with Some _ => true | None => false end.

(** [s.split(sep)[-1]] for a one-character [sep]: what follows the last
    [sep], the whole string when there is none *)
Fixpoint split_last (sep : ascii) (s : string) : string :=
  match s with
  | EmptyString => EmptyString
  | String a s' =>
      if str_contains (String sep EmptyString) s' then split_last sep s'
      else if Ascii.eqb a sep then s' else s
  end.

(** [s.split(sep)[0]]: what precedes the first [sep] *)
Fixpoint split_first (sep : ascii) (s : string) : string :=
  match s with
  | EmptyString => EmptyString
  | String a s' =>
      if Ascii.eqb a sep then EmptyString else String a (split_first sep s')
  end.

(** [s.zfill(width)] *)
Definition zfill (width : nat) (s : string) : string :=
  let pad (d : string) (n : nat) : string :=
    String.concat "" (replicate (n - String.length d) "0"%string) +:+ d in
  match s with
  | String "-"%char d => String "-"%char (pad d (width - 1))
  | String "+"%char d => String "+"%char (pad d (width - 1))
  | _ => pad s width
  end.

(** ** class SpectroscopicData

    A method runs on the attributes of [self] (the instance dictionary), the
    store of table objects and what has been printed.  Tables are objects: [self.table] holds a reference
    into the store, and what a method does to the table is seen by everyone
    who holds that reference.  A raised exception keeps the store as it is at
    that moment. *)

Module SpectroscopicData.

Definition ref : Type := positive.

(** What an attribute of [self] holds *)
Inductive attr : Type :=
| ANone
| AStr (s : string)
| ARef (r : ref)
| AValue (v : value)
| AInt (z : Z)
| ATable (tbl : Table.t)
| AMeta (m : meta_value)
| AArray (x : operand)
| ACells (x : cells).

Record state : Type := {
  self : gmap string attr;
  store : gmap ref Table.t;
  stdout : list string;
}.

Definition M (A : Type) : Type := state -> result A * state.

#[global] Instance M_ret : MRet M := fun A a st => (Ok a, st).
#[global] Instance M_bind : MBind M := fun A B k m st =>
  match m st with
  | (Ok a, st') => k a st'
  | (Raise e, st') => (Raise e, st')
  end.

Definition lift {A} (r : result A) : M A := fun st => (r, st).

Definition raise {A} (e : exn) : M A := lift (Raise e).

Definition print (line : string) : M unit := fun st =>
  (Ok (), {| self := self st; store := store st;
             stdout := stdout st ++ [line] |}).

(** [self.name = a] *)
Definition setattr (name : string) (a : attr) : M unit := fun st =>
  (Ok (), {| self := <[name := a]> (self st); store := store st;
             stdout := stdout st |}).

(** The table object [self.table] refers to *)
Definition table_ref (st : state) : result ref :=
  match self st !! "table"%string with
  | Some (ARef r) => Ok r
  | _ => Raise (AttributeError "table")
  end.

Definition the_table (st : state) : result Table.t :=
  r ← table_ref st;
  match store st !! r with
  | Some tbl => Ok tbl
  | None => Raise (AttributeError "table")
  end.

Definition get_table : M Table.t := fun st => (the_table st, st).

(** An operation of the table object [self.table] refers to, done in
    place. *)
Definition on_table (op : Table.t -> result Table.t) : M unit := fun st =>
  match (r ← table_ref st; tbl ← the_table st; tbl' ← op tbl; Ok (r, tbl')) with
  | Raise e => (Raise e, st)
  | Ok (r, tbl') =>
      (Ok (), {| self := self st; store := <[r := tbl']> (store st);
                 stdout := stdout st |})
  end.

(** A table object the caller has not seen before *)
Definition alloc (tbl : Table.t) : M ref := fun st =>
  let r := fresh (dom (store st)) in
  (Ok r, {| self := self st; store := <[r := tbl]> (store st);
            stdout := stdout st |}).

Section Methods.
Context `{Externals} `{Catalogues}.
Local Open Scope arith_scope.

(** [float(v) or np.nan] for a cell [v] of a species table *)
Definition float_or_nan (v : value) : result float :=
  x ← match v with
      | VFloat x => Ok x
      | VInt z => Ok (float_of_Z z)
      | VStr s => float_of_string s
      | VMasked => Ok PrimFloat.nan
      end;
  Ok (if PrimFloat.eqb x 0 then PrimFloat.nan else x).

(** [10 ** np.array(a)] *)
Definition pow10 (a : list float) : list float := float_pow 10 <$> a.

Definition read_JPL_partition_function (species_table : Table.t) (tag : Z)
  : result (list float * list float) :=
  tags ← Table.getitem "TAG" species_table;
  let row := Table.select (value_eqb (VInt tag) <$> tolist tags) species_table in
  T ← match Table.meta species_table !! "Temperature (K)"%string with
      | Some (MFloats a) => Ok (reverse a)
      | Some _ => Raise (TypeError "Temperature (K)")
      | None => Raise (KeyError "Temperature (K)")
      end;
  Q ← mapM (fun k => col ← Table.getitem k row;
                     x ← column_float col;
                     Ok (if PrimFloat.eqb x 0 then PrimFloat.nan else x))
        (List.filter (str_contains "QLOG") (Table.colnames row));
  Ok (T, pow10 (reverse Q)).

Definition read_CDMS_partition_function (species_table : Table.t) (tag : Z)
  : result (list float * list float) :=
  tags ← Table.getitem "tag" species_table;
  let row := Table.select (value_eqb (VInt tag) <$> tolist tags) species_table in
  let keys := List.filter (str_contains "lg") (Table.colnames row) in
  T ← mapM (fun k => float_of_string (split_first ")" (split_last "(" k))) keys;
  Q ← mapM (fun k => col ← Table.getitem k row;
                     v ← column_item col 0;
                     float_or_nan v) keys;
  Ok (T, pow10 Q).

(** Step 1 of both normalisers: columns that are missing in every row go. *)
Definition remove_masked_columns : M unit :=
  tbl ← get_table;
  if Table.has_mask tbl
  then on_table (Table.remove_columns (Table.masked_columns tbl))
  else mret ().

(** [abs(int(np.unique(self.table["TAG"])[0]))] *)
Definition response_tag (tbl : Table.t) : result Z :=
  col ← Table.getitem "TAG" tbl;
  v ← np_unique_first col;
  z ← py_int v;
  Ok (Z.abs z).

(** [self.table.meta["Partition Function"](300)] *)
Definition partition_function_at_300 (tbl : Table.t) : result float :=
  m ← Table.get_meta "Partition Function" tbl;
  match m with
  | MPartitionFunction pf => (PartitionFunction.__call__ pf 300 false).2
  | _ => Raise (TypeError "object is not callable")
  end.

(** The column as the exponent of [10 ** col].  The intensity columns of
    both catalogues are float columns; for an integer column numpy takes an
    integer power, which is not modelled: the model fails there. *)
Definition as_exponent (col : Column) : result operand :=
  match data col with
  | IntCells _ =>
      Raise (ValueError "Integers to negative integer powers are not allowed.")
  | _ => as_operand col
  end.

(** Steps 3-1 of both normalisers *)
Definition frequency_to_GHz (nofreqerr : bool) : M unit :=
  on_table (Table.rename_column "FREQ" "Frequency");;
  on_table (Table.imul "Frequency" 1e-3);;
  if negb nofreqerr then
    on_table (Table.rename_column "ERR" "Frequency Error");;
    on_table (Table.imul "Frequency Error" 1e-3)
  else mret ().

(** Steps 3-3 and 3-4 of both normalisers *)
Definition energy_to_E_up : M unit :=
  on_table (Table.rename_column "ELO" "E_up");;
  on_table (fun tbl =>
    E_up ← Table.getitem "E_up" tbl;
    Elow ← as_operand E_up;
    let Elow_K := wavenumber_to_Kelvin Elow in
    Frequency ← Table.getitem "Frequency" tbl;
    Frequency ← as_operand Frequency;
    Table.setitem "E_up"
      (Elow_K + lit h * Frequency * lit 1e9 / lit k_B) tbl);;
  on_table (Table.rename_column "GUP" "g_up").

Definition _set_quantities : M unit :=
  tbl ← get_table;
  match Table.meta tbl !! "Molecular Weight"%string with
  | Some m => setattr "mu" (AMeta m)
  | None => mret ()
  end;;
  Q ← lift (Table.get_meta "Partition Function" tbl);
  setattr "Q" (AMeta Q);;
  Frequency ← lift (Table.getitem "Frequency" tbl);
  Frequency ← lift (as_operand Frequency);
  setattr "nu0" (AArray (Frequency * lit 1e9));;
  A_ul ← lift (Table.getitem "A_ul" tbl);
  setattr "Aul" (ACells (data A_ul));;
  g_up ← lift (Table.getitem "g_up" tbl);
  setattr "gup" (ACells (data g_up));;
  E_up ← lift (Table.getitem "E_up" tbl);
  setattr "Eup" (ACells (data E_up)).

(** [self.table.meta["Partition Function"] = pf] *)
Definition set_partition_function (pf : PartitionFunction.t) : M unit :=
  on_table (fun tbl => Ok (Table.set_meta "Partition Function"
                             (MPartitionFunction pf) tbl)).

(** Step 2 of [format_JPL]: the species, looked up by the tag of the
    response unless the caller names it, and the partition function. *)
Definition JPL_metadata (species : option value)
  (pf : option PartitionFunction.t) : M value :=
  match species with
  | None =>
      tbl ← get_table;
      tag ← lift (response_tag tbl);
      let species_table := JPL_get_species_table in
      idx ← lift (tags ← Table.getitem "TAG" species_table;
                  match list_index (VInt tag) (tolist tags) with
                  | Some idx => Ok idx
                  | None => Raise (ValueError "No entries found for species tag. Please specify species argument.")
                  end);
      species ← lift (names ← Table.getitem "NAME" species_table;
                      column_item names idx);
      setattr "species" (AValue species);;
      match pf with
      | None =>
          '(T, Q) ← lift (read_JPL_partition_function species_table tag);
          ntrans ← lift (Table.getitem "NLINE" species_table);
          pf ← lift (PartitionFunction.__init__ species T Q None (Some ntrans));
          set_partition_function pf
      | Some pf => set_partition_function pf
      end;;
      mret species
  | Some species =>
      setattr "species" (AValue species);;
      match pf with
      | None => raise (ValueError "Please provide parition function (pf) which is needed to calculate A coeff.")
      | Some pf => set_partition_function pf
      end;;
      mret species
  end.

Definition format_JPL (response : ref) (species : option value)
  (nofreqerr : bool) (pf : option PartitionFunction.t) : M unit :=
  setattr "table" (ARef response);;
  remove_masked_columns;;
  species ← JPL_metadata species pf;
  on_table (fun tbl => Ok (Table.set_meta "Species" (MValue species) tbl));;
  on_table (Table.remove_columns ["DR"; "TAG"; "QNFMT"]%string);;
  (if nofreqerr then on_table (Table.remove_column "ERR") else mret ());;
  on_table (fun tbl =>
    Table.add_column (column_of_repeat species (Table.len tbl)) "Species" tbl);;
  frequency_to_GHz nofreqerr;;
  on_table (Table.rename_column "LGINT" "A_ul");;
  on_table (fun tbl =>
    A_ul ← Table.getitem "A_ul" tbl;
    Frequency ← Table.getitem "Frequency" tbl;
    Frequency ← as_operand Frequency;
    let nu0 := Frequency * lit 1e3 in
    GUP ← Table.getitem "GUP" tbl;
    ELO ← Table.getitem "ELO" tbl;
    Q_300 ← partition_function_at_300 tbl;
    Elow ← as_operand ELO;
    logint_300 ← as_exponent A_ul;
    gup ← as_operand GUP;
    Table.setitem "A_ul"
      (logint_to_EinsteinA logint_300 nu0 gup Elow (lit Q_300)) tbl);;
  energy_to_E_up;;
  _set_quantities.

(** [int(self.molweight * 1e3 + abs(int(...)))] *)
Definition CDMS_tag (molweight tag : Z) : result Z :=
  int_of_float (float_of_Z molweight * 1e3 + float_of_Z (Z.abs tag))%float.

(** Step 2 of [format_CDMS]: molecular weight, species and partition
    function, looked up by weight and tag of the response. *)
Definition CDMS_metadata (use_cached : bool) : M unit :=
  tbl ← get_table;
  molweight ← lift (col ← Table.getitem "MOLWT" tbl;
                    v ← np_unique_first col;
                    py_int v);
  setattr "molweight" (AInt molweight);;
  tag ← lift (col ← Table.getitem "TAG" tbl;
              v ← np_unique_first col;
              z ← py_int v;
              CDMS_tag molweight z);
  let species_table := CDMS_get_species_table use_cached in
  setattr "species_table" (ATable species_table);;
  idx ← lift (tags ← Table.getitem "tag" species_table;
              match list_index (VInt tag) (tolist tags) with
              | Some idx => Ok idx
              | None => Raise (ValueError "tag is not in list")
              end);
  species ← lift (names ← Table.getitem "molecule" species_table;
                  column_item names idx);
  setattr "species" (AValue species);;
  on_table (fun tbl => Ok (Table.set_meta "Species" (MValue species) tbl));;
  on_table (fun tbl => Ok (Table.set_meta "Molecular Weight"
                             (MValue (VInt molweight)) tbl));;
  '(T, Q) ← lift (read_CDMS_partition_function species_table tag);
  ntrans ← lift (Table.getitem "#lines" species_table);
  pf ← lift (PartitionFunction.__init__ species T Q None (Some ntrans));
  set_partition_function pf.

Definition format_CDMS (response : ref) (use_cached nofreqerr : bool)
  : M unit :=
  setattr "table" (ARef response);;
  remove_masked_columns;;
  CDMS_metadata use_cached;;
  on_table (Table.remove_columns ["DR"; "TAG"; "QNFMT"; "MOLWT"; "Lab"]%string);;
  (if nofreqerr then on_table (Table.remove_column "ERR") else mret ());;
  on_table (fun tbl =>
    name ← Table.getitem "name" tbl;
    Table.add_column name "Species" tbl);;
  on_table (Table.remove_column "name");;
  frequency_to_GHz nofreqerr;;
  on_table (Table.rename_column "LGAIJ" "A_ul");;
  on_table (fun tbl =>
    A_ul ← Table.getitem "A_ul" tbl;
    logA ← as_exponent A_ul;
    Table.setitem "A_ul" (lit 10 ** logA) tbl);;
  energy_to_E_up;;
  _set_quantities.

Definition no_lines : string :=
  "No lines found in the specified frequency range.".

Definition query_JPL (freq_range : float * float) (species_id : Z)
  (nofreqerr : bool) : M unit :=
  let '(numin, numax) := freq_range in
  match JPL_query_lines numin numax species_id with
  | None => print no_lines
  | Some tbl =>
      response ← alloc tbl;
      format_JPL response None nofreqerr None
  end.

Definition query_CDMS (freq_range : float * float) (species_id : string)
  (use_cached nofreqerr : bool) : M unit :=
  let '(numin, numax) := freq_range in
  match CDMS_query_lines numin numax (zfill 6 species_id) 0 with
  | None => print no_lines
  | Some tbl =>
      response ← alloc tbl;
      format_CDMS response use_cached nofreqerr
  end.

Definition double_quote : string := String (ascii_of_nat 34) EmptyString.

Definition JPL_names : list string :=
  ["FREQ"; "ERR"; "LGINT"; "DR"; "ELO"; "GUP"; "TAG"; "QNFMT"; "QN'";
   "QN" +:+ double_quote]%string.

Definition JPL_col_starts : list nat :=
  [0; 13; 21; 29; 31; 41; 44; 51; 55; 67]%nat.

Definition CDMS_starts : list (string * nat) :=
  [("FREQ", 0); ("ERR", 14); ("LGINT", 25); ("DR", 36); ("ELO", 38);
   ("GUP", 47); ("MOLWT", 51); ("TAG", 54); ("QNFMT", 57); ("Ju", 61);
   ("Ku", 63); ("vu", 65); ("F1u", 67); ("F2u", 69); ("F3u", 71);
   ("Jl", 73); ("Kl", 75); ("vl", 77); ("F1l", 79); ("F2l", 81);
   ("F3l", 83); ("name", 89)]%string%nat.

(** [self.filename] *)
Definition get_filename : M string := fun st =>
  (match self st !! "filename"%string with
   | Some (AStr f) => Ok f
   | _ => Raise (TypeError "filename")
   end, st).

Definition parse_datafile (format : option string) (species : option value)
  (pf : option PartitionFunction.t) : M unit :=
  if bool_decide (format = Some "JPL"%string) then
    filename ← get_filename;
    tbl ← lift (ascii_read filename JPL_names JPL_col_starts);
    response ← alloc tbl;
    format_JPL response species false pf
  else if bool_decide (format = Some "CDMS"%string) then
    filename ← get_filename;
    tbl ← lift (ascii_read filename CDMS_starts.*1 CDMS_starts.*2);
    response ← alloc tbl;
    format_CDMS response false false
  else raise (ValueError "format should be either JPL or CDMS.").

Definition __init__ (filename format : option string)
  (species : option value) (pf : option PartitionFunction.t) : M unit :=
  setattr "filename" (from_option AStr ANone filename);;
  match filename with
  | Some _ => parse_datafile format species pf
  | None => mret ()
  end.

End Methods.
End SpectroscopicData.

(** * Sample data to run the definitions on *)

Module Sample.

(** Constants of CODATA 2018 in cgs units; [np_exp] and [float_pow] are
    short series that stand in for libm, and the spline is the cubic through
    the first four samples. *)
Definition exp_series (x : float) : float :=
  (1 + x * (1 + x / 2 * (1 + x / 3 * (1 + x / 4))))%float.

Fixpoint pow_nat (x : float) (n : nat) : float :=
  match n with
  | O => 1%float
  | S n' => (x * pow_nat x n')%float
  end.

(** [x ** y] for an integral [y], by repeated multiplication *)
Definition pow_int (x y : float) : float :=
  match int_of_float y with
  | Ok (Zpos p) => pow_nat x (Pos.to_nat p)
  | Ok (Zneg p) => (1 / pow_nat x (Pos.to_nat p))%float
  | _ => 1%float
  end.

(** The cubic polynomial through four points, in Lagrange form; with four
    samples the not-a-knot cubic spline is this polynomial. *)
Definition lagrange4 (x y : list float) : result (float -> float) :=
  match x, y with
  | [x0; x1; x2; x3], [y0; y1; y2; y3] =>
      Ok (fun t =>
        y0 * ((t - x1) / (x0 - x1)) * ((t - x2) / (x0 - x2)) * ((t - x3) / (x0 - x3))
        + y1 * ((t - x0) / (x1 - x0)) * ((t - x2) / (x1 - x2)) * ((t - x3) / (x1 - x3))
        + y2 * ((t - x0) / (x2 - x0)) * ((t - x1) / (x2 - x1)) * ((t - x3) / (x2 - x3))
        + y3 * ((t - x0) / (x3 - x0)) * ((t - x1) / (x3 - x1)) * ((t - x2) / (x3 - x2)))%float
  | _, _ => Raise (ValueError "four samples expected")
  end.

#[local] Instance externals : Externals := {
  h := 6.62607015e-27;
  c := 29979245800;
  k_B := 1.380649e-16;
  np_exp := exp_series;
  float_pow := pow_int;
  make_interp_spline := lagrange4;
  float_of_string s := float_of_Z <$> int_of_string s;
}.

(** The partition function built from four samples between 37.5 K and
    300 K *)
Definition co_pf : PartitionFunction.t :=
  Eval vm_compute in
    match PartitionFunction.__init__ (VStr "CO") [37.5; 75; 150; 300]%float
            [1; 10; 100; 1000]%float None None with
    | Ok pf => pf
    | Raise _ =>
        {| PartitionFunction.species := VMasked; PartitionFunction.T := [];
           PartitionFunction.Q := []; PartitionFunction.database := None;
           PartitionFunction.ntrans := None;
           PartitionFunction.function := fun x => x |}
    end.

Definition plain (x : cells) : Column :=
  {| data := x; is_masked_column := false |}.

Definition table_of (cols : list (string * Column))
  (meta : list (string * meta_value)) : Table.t :=
  {| Table.columns := list_to_map cols; Table.colnames := cols.*1;
     Table.masked := false; Table.meta := list_to_map meta |}.

(** A JPL species table with one species and four temperatures *)
Definition jpl_species : Table.t :=
  table_of
    [("TAG", plain (IntCells [Some 28001%Z]));
     ("NAME", plain (StrCells [Some "CO"%string]));
     ("NLINE", plain (IntCells [Some 91%Z]));
     ("QLOG1", plain (FloatCells [Some 3%float]));
     ("QLOG2", plain (FloatCells [Some 2%float]));
     ("QLOG3", plain (FloatCells [Some 1%float]));
     ("QLOG4", plain (FloatCells [Some 0.5%float]))]%string
    [("Temperature (K)"%string, MFloats [300; 150; 75; 37.5]%float)].

(** A CDMS species table with one species and four temperatures *)
Definition cdms_species : Table.t :=
  table_of
    [("tag", plain (IntCells [Some 28503%Z]));
     ("molecule", plain (StrCells [Some "CO, v=0"%string]));
     ("#lines", plain (IntCells [Some 91%Z]));
     ("lg(Q(300))", plain (FloatCells [Some 3%float]));
     ("lg(Q(150))", plain (FloatCells [Some 2%float]));
     ("lg(Q(75))", plain (FloatCells [Some 1%float]));
     ("lg(Q(37))", plain (FloatCells [Some 0.5%float]))]%string
    [].

(** One line of CO in the columns of a JPL response *)
Definition jpl_response : Table.t :=
  table_of
    [("FREQ", plain (FloatCells [Some 115271.2018%float]));
     ("ERR", plain (FloatCells [Some 0.0005%float]));
     ("LGINT", plain (FloatCells [Some (-5)%float]));
     ("DR", plain (IntCells [Some 2%Z]));
     ("ELO", plain (FloatCells [Some 0%float]));
     ("GUP", plain (IntCells [Some 3%Z]));
     ("TAG", plain (IntCells [Some (-28001)%Z]));
     ("QNFMT", plain (IntCells [Some 101%Z]));
     ("QN'", plain (IntCells [Some 1%Z]))]%string
    [].

(** One line of CO in the columns of a CDMS response *)
Definition cdms_response : Table.t :=
  table_of
    [("FREQ", plain (FloatCells [Some 115271.2018%float]));
     ("ERR", plain (FloatCells [Some 0.0005%float]));
     ("LGAIJ", plain (FloatCells [Some (-7)%float]));
     ("DR", plain (IntCells [Some 2%Z]));
     ("ELO", plain (FloatCells [Some 0%float]));
     ("GUP", plain (IntCells [Some 3%Z]));
     ("MOLWT", plain (IntCells [Some 28%Z]));
     ("TAG", plain (IntCells [Some (-503)%Z]));
     ("QNFMT", plain (IntCells [Some 101%Z]));
     ("Ju", plain (IntCells [Some 1%Z]));
     ("name", plain (StrCells [Some "CO, v=0"%string]));
     ("Lab", plain (IntCells [Some 1%Z]))]%string
    [].

(** Responses whose species is in neither species table *)
Definition jpl_unlisted : Table.t :=
  table_of
    [("FREQ", plain (FloatCells [Some 115271.2018%float]));
     ("ERR", plain (FloatCells [Some 0.0005%float]));
     ("LGINT", plain (FloatCells [Some (-5)%float]));
     ("DR", plain (IntCells [Some 2%Z]));
     ("ELO", plain (FloatCells [Some 0%float]));
     ("GUP", plain (IntCells [Some 3%Z]));
     ("TAG", plain (IntCells [Some (-99001)%Z]));
     ("QNFMT", plain (IntCells [Some 101%Z]))]%string
    [].

Definition cdms_unlisted : Table.t :=
  table_of
    [("FREQ", plain (FloatCells [Some 115271.2018%float]));
     ("ERR", plain (FloatCells [Some 0.0005%float]));
     ("LGAIJ", plain (FloatCells [Some (-7)%float]));
     ("DR", plain (IntCells [Some 2%Z]));
     ("ELO", plain (FloatCells [Some 0%float]));
     ("GUP", plain (IntCells [Some 3%Z]));
     ("MOLWT", plain (IntCells [Some 99%Z]));
     ("TAG", plain (IntCells [Some (-501)%Z]));
     ("QNFMT", plain (IntCells [Some 101%Z]));
     ("name", plain (StrCells [Some "XY"%string]));
     ("Lab", plain (IntCells [Some 1%Z]))]%string
    [].

(** The same line with no row: what a service returns that finds nothing
    and says so with an empty table *)
Definition jpl_empty_response : Table.t :=
  table_of
    [("FREQ", plain (FloatCells []));
     ("ERR", plain (FloatCells []));
     ("LGINT", plain (FloatCells []));
     ("DR", plain (IntCells []));
     ("ELO", plain (FloatCells []));
     ("GUP", plain (IntCells []));
     ("TAG", plain (IntCells []));
     ("QNFMT", plain (IntCells []));
     ("QN'", plain (IntCells []))]%string
    [].

(** The cells of a catalogue file with the line of CO, in the order of the
    column starts of each format *)
Definition jpl_file : list Column :=
  [plain (FloatCells [Some 115271.2018%float]);
   plain (FloatCells [Some 0.0005%float]);
   plain (FloatCells [Some (-5.0105)%float]);
   plain (IntCells [Some 2%Z]);
   plain (FloatCells [Some 0%float]);
   plain (IntCells [Some 3%Z]);
   plain (IntCells [Some (-28001)%Z]);
   plain (IntCells [Some 101%Z]);
   plain (IntCells [Some 1%Z]);
   plain (IntCells [Some 0%Z])].

Definition cdms_file : list Column :=
  [plain (FloatCells [Some 115271.2018%float]);
   plain (FloatCells [Some 0.0005%float]);
   plain (FloatCells [Some (-5.0105)%float]);
   plain (IntCells [Some 2%Z]);
   plain (FloatCells [Some 0%float]);
   plain (IntCells [Some 3%Z]);
   plain (IntCells [Some 28%Z]);
   plain (IntCells [Some 503%Z]);
   plain (IntCells [Some 101%Z])]
  ++ replicate 12 (plain (IntCells [None]))
  ++ [plain (StrCells [Some "CO, v=0"%string])].

#[local] Instance catalogues : Catalogues := {
  JPL_get_species_table := jpl_species;
  JPL_query_lines lo hi molecule :=
    if (molecule =? 28001)%Z then
      Some (if PrimFloat.ltb hi 1e11 then jpl_empty_response else jpl_response)
    else None;
  CDMS_get_species_table _ := cdms_species;
  CDMS_query_lines lo hi molecule temperature :=
    if String.eqb molecule "028503" then Some cdms_response else None;
  read_fixed_width filename col_starts :=
    Ok (if (length col_starts =? 10)%nat then jpl_file else cdms_file);
}.

Definition empty_state : SpectroscopicData.state :=
  {| SpectroscopicData.self := ∅; SpectroscopicData.store := ∅;
     SpectroscopicData.stdout := [] |}.

(** A caller that holds one table *)
Definition holding (tbl : Table.t) : SpectroscopicData.state :=
  {| SpectroscopicData.self := ∅;
     SpectroscopicData.store := {[1%positive := tbl]};
     SpectroscopicData.stdout := [] |}.

(** An object made for the file co.cat, before the file is parsed *)
Definition with_file : SpectroscopicData.state :=
  {| SpectroscopicData.self :=
       {["filename"%string := SpectroscopicData.AStr "co.cat"]};
     SpectroscopicData.store := ∅;
     SpectroscopicData.stdout := [] |}.

(** The states the normalisers leave of the two responses *)
Definition jpl_done : SpectroscopicData.state :=
  Eval vm_compute in
    (SpectroscopicData.format_JPL 1%positive None false None
       (holding jpl_response)).2.

Definition cdms_done : SpectroscopicData.state :=
  Eval vm_compute in
    (SpectroscopicData.format_CDMS 1%positive false false
       (holding cdms_response)).2.

End Sample.

(** * The conversion formula as the specification words it *)




(** The pairs a partition function table keeps: those whose value is not
    NaN. *)
Definition valid_pairs (T Q : list float) : list (float * float) :=
  List.filter (fun p => negb (PrimFloat.is_nan p.2)) (zip T Q).

(** * What the properties speak of *)

Import SpectroscopicData.

(** The attributes of [self] are [s] with [self.table] the object [r], that
    object is [tbl], the store differs from [σ0] at that object only, and
    [o] has been printed. *)
Definition focused (r : ref) (tbl : Table.t) (σ0 : gmap ref Table.t)
  (s : gmap string attr) (o : list string) (st : state) : Prop :=
  self st = s /\ s !! "table"%string = Some (ARef r)
  /\ store st = <[r := tbl]> σ0 /\ stdout st = o.

(** The columns step 1 of a normaliser leaves, and the table with them *)
Definition cleaned_columns (tbl : Table.t) : gmap string Column :=
  if Table.has_mask tbl
  then Table.delete_all (Table.masked_columns tbl) (Table.columns tbl)
  else Table.columns tbl.

Definition cleaned (tbl : Table.t) : Table.t :=
  if Table.has_mask tbl
  then Table.set_columns
         (Table.delete_all (Table.masked_columns tbl) (Table.columns tbl))
         (List.filter (fun n => bool_decide (n ∉ Table.masked_columns tbl))
            (Table.colnames tbl))
         tbl
  else tbl.

(** What step 2 of [format_JPL] found: the species and the partition
    function the table gets. *)
Definition JPL_resolved `{Externals} `{Catalogues} (tbl : Table.t)
  (species : option value) (pf : option PartitionFunction.t)
  (sp : value) (pf' : PartitionFunction.t) : Prop :=
  match species with
  | Some s => sp = s /\ pf = Some pf'
  | None =>
      exists tag tags idx names,
        response_tag tbl = Ok tag
        /\ Table.getitem "TAG" JPL_get_species_table = Ok tags
        /\ list_index (VInt tag) (tolist tags) = Some idx
        /\ Table.getitem "NAME" JPL_get_species_table = Ok names
        /\ column_item names idx = Ok sp
        /\ match pf with
           | Some p => pf' = p
           | None =>
               exists T Q ntrans,
                 read_JPL_partition_function JPL_get_species_table tag
                 = Ok (T, Q)
                 /\ Table.getitem "NLINE" JPL_get_species_table = Ok ntrans
                 /\ PartitionFunction.__init__ sp T Q None (Some ntrans)
                    = Ok pf'
           end
  end.

(** The columns of a normalised table, from the columns [base] that steps 1
    and 2 leave: [cF'] and [cE'] are the scaled frequency and frequency
    error, [cA] and [cEup] the computed columns, [cG] the degeneracy. *)
Definition final_columns (base : gmap string Column) (nofreqerr : bool)
  (intensity : string) (cF' cE' cA cEup cG : Column) : gmap string Column :=
  <["g_up"%string := cG]>
    (delete "GUP"%string
       (<["E_up"%string := cEup]>
          (delete "ELO"%string
             (<["A_ul"%string := cA]>
                (delete intensity
                   (if nofreqerr then
                      <["Frequency"%string := cF']> (delete "FREQ"%string base)
                    else
                      <["Frequency Error"%string := cE']>
                        (delete "ERR"%string
                           (<["Frequency"%string := cF']>
                              (delete "FREQ"%string base))))))))).

(** The columns [format_JPL] works on after its step 2 *)
Definition JPL_base (cols1 : gmap string Column) (nofreqerr : bool)
  (cS : Column) : gmap string Column :=
  <["Species"%string := cS]>
    ((if nofreqerr then delete "ERR"%string else id)
       (Table.delete_all ["DR"; "TAG"; "QNFMT"]%string cols1)).

(** What step 2 of [format_CDMS] found: the molecular weight [w] of the
    response, the key [key] made of weight and tag, the species at the first
    row of the species table with that key, and the partition function read
    from that row. *)
Definition CDMS_resolved `{Externals} `{Catalogues} (tbl : Table.t)
  (use_cached : bool) (w key : Z) (sp : value) (pf' : PartitionFunction.t)
  : Prop :=
  exists cW vW cT vT t tags idx names T Q ntrans,
    Table.getitem "MOLWT" tbl = Ok cW /\ np_unique_first cW = Ok vW
    /\ py_int vW = Ok w
    /\ Table.getitem "TAG" tbl = Ok cT /\ np_unique_first cT = Ok vT
    /\ py_int vT = Ok t
    /\ CDMS_tag w t = Ok key
    /\ Table.getitem "tag" (CDMS_get_species_table use_cached) = Ok tags
    /\ list_index (VInt key) (tolist tags) = Some idx
    /\ Table.getitem "molecule" (CDMS_get_species_table use_cached) = Ok names
    /\ column_item names idx = Ok sp
    /\ read_CDMS_partition_function (CDMS_get_species_table use_cached) key
       = Ok (T, Q)
    /\ Table.getitem "#lines" (CDMS_get_species_table use_cached) = Ok ntrans
    /\ PartitionFunction.__init__ sp T Q None (Some ntrans) = Ok pf'.

(** The columns [format_CDMS] works on after its step 2 *)
Definition CDMS_base (cols1 : gmap string Column) (nofreqerr : bool)
  (cS : Column) : gmap string Column :=
  delete "name"%string
    (<["Species"%string := cS]>
       ((if nofreqerr then delete "ERR"%string else id)
          (Table.delete_all ["DR"; "TAG"; "QNFMT"; "MOLWT"; "Lab"]%string
             cols1))).

(** Frequency and frequency error of the normalised table [tbl'] are those
    of the response [tbl0], each cell times 1e-3. *)
Definition frequency_in_GHz (tbl0 tbl' : Table.t) (nofreqerr : bool) : Prop :=
  exists cF cF' fr,
    Table.columns tbl0 !! "FREQ"%string = Some cF
    /\ data cF = FloatCells fr
    /\ Table.columns tbl' !! "Frequency"%string = Some cF'
    /\ data cF' = FloatCells (cell1 (fun x => x * 1e-3)%float <$> fr)
    /\ (nofreqerr = false ->
        exists cE cE' er,
          Table.columns tbl0 !! "ERR"%string = Some cE
          /\ data cE = FloatCells er
          /\ Table.columns tbl' !! "Frequency Error"%string = Some cE'
          /\ data cE' = FloatCells (cell1 (fun x => x * 1e-3)%float <$> er)).

(** Row [i] of an operand: a scalar is broadcast to every row. *)
Definition row (i : nat) (x : operand) : option (option float) :=
  match x with
  | Scalar v => Some (Some v)
  | Array a => a !! i
  end.

(** The float cells of a numeric column, integers cast to binary64 *)
Definition float_cells (col : Column) : option (list (option float)) :=
  match as_operand col with
  | Ok (Array a) => Some a
  | _ => None
  end.

(** The A_ul column [format_JPL] leaves in [tbl'], from the response
    [tbl0]: row by row the value of [logint_to_EinsteinA] at the intensity,
    the frequency back in MHz, the degeneracy and the lower energy of the
    row, and at the partition function of the table called at 300. *)
Definition JPL_A_ul `{Externals} (tbl0 tbl' : Table.t) : Prop :=
  exists pf Q_300 cL cF cG cEl cA lg fr gu el a,
    Table.meta tbl' !! "Partition Function"%string
    = Some (MPartitionFunction pf)
    /\ PartitionFunction.__call__ pf 300 false = ([], Ok Q_300)
    /\ Table.columns tbl0 !! "LGINT"%string = Some cL
    /\ data cL = FloatCells lg
    /\ Table.columns tbl0 !! "FREQ"%string = Some cF
    /\ data cF = FloatCells fr
    /\ Table.columns tbl0 !! "GUP"%string = Some cG
    /\ float_cells cG = Some gu
    /\ Table.columns tbl0 !! "ELO"%string = Some cEl
    /\ float_cells cEl = Some el
    /\ Table.columns tbl' !! "A_ul"%string = Some cA
    /\ data cA = FloatCells a
    /\ forall i l f g e,
         lg !! i = Some (Some l) -> fr !! i = Some (Some f) ->
         gu !! i = Some (Some g) -> el !! i = Some (Some e) ->
         a !! i
         = Some (Some (logint_to_EinsteinA l (f * 1e-3 * 1e3)%float g e Q_300)).

(** The A_ul column [format_CDMS] leaves: ten to the power of each LGAIJ
    cell of the response. *)
Definition CDMS_A_ul `{Externals} (tbl0 tbl' : Table.t) : Prop :=
  exists cL cA lg,
    Table.columns tbl0 !! "LGAIJ"%string = Some cL
    /\ data cL = FloatCells lg
    /\ Table.columns tbl' !! "A_ul"%string = Some cA
    /\ data cA = FloatCells (cell1 (float_pow 10) <$> lg).

(** The E_up column a normaliser leaves: the lower energy of the row in
    kelvin plus [h] times the frequency in Hz over [k_B]. *)
Definition E_up_in_K `{Externals} (tbl0 tbl' : Table.t) : Prop :=
  exists cEl cF cU el fr u,
    Table.columns tbl0 !! "ELO"%string = Some cEl
    /\ float_cells cEl = Some el
    /\ Table.columns tbl0 !! "FREQ"%string = Some cF
    /\ data cF = FloatCells fr
    /\ Table.columns tbl' !! "E_up"%string = Some cU
    /\ data cU = FloatCells u
    /\ forall i e f,
         el !! i = Some (Some e) -> fr !! i = Some (Some f) ->
         u !! i
         = Some (Some (wavenumber_to_Kelvin e + h * (f * 1e-3) * 1e9 / k_B)%float).

(** The caller's table after a normaliser returned: [self.table] is the
    object [r] the caller passed; the store has changed at that object only,
    which now is [tbl']; the columns [removed] and the columns that were
    missing in every row are gone; the canonical columns are there, with
    frequency, intensity and energy converted. *)
Definition normalised_in_place `{Externals} (removed : list string)
  (A_ul_converted : Table.t -> Table.t -> Prop)
  (r : ref) (tbl0 : Table.t) (nofreqerr : bool) (st st' : state) : Prop :=
  exists tbl',
    self st' !! "table"%string = Some (ARef r)
    /\ store st' = <[r := tbl']> (store st)
    /\ (forall k, k ∈ removed -> Table.columns tbl' !! k = None)
    /\ (Table.has_mask tbl0 = true ->
        forall k, k ∈ Table.masked_columns tbl0 ->
          k ∉ ["Species"; "Frequency"; "Frequency Error"; "A_ul"; "E_up";
               "g_up"]%string ->
          Table.columns tbl' !! k = None)
    /\ (forall k, k ∈ ["Species"; "Frequency"; "A_ul"; "E_up"; "g_up"]%string ->
          is_Some (Table.columns tbl' !! k))
    /\ (nofreqerr = false ->
        is_Some (Table.columns tbl' !! "Frequency Error"%string))
    /\ frequency_in_GHz tbl0 tbl' nofreqerr
    /\ A_ul_converted tbl0 tbl'
    /\ E_up_in_K tbl0 tbl'.

Definition JPL_not_found : exn :=
  ValueError "No entries found for species tag. Please specify species argument.".

Definition CDMS_not_found : exn := ValueError "tag is not in list".

Definition missing_partition_function : exn :=
  ValueError "Please provide parition function (pf) which is needed to calculate A coeff.".





(** ** What the further properties speak of *)

(** The attributes of [self] a normaliser assigns *)
Definition assigned : list string :=
  ["table"; "species"; "species_table"; "molweight"; "mu"; "Q"; "nu0"; "Aul";
   "gup"; "Eup"]%string.

(** The attributes assigned before [_set_quantities] runs *)
Definition prepared : list string :=
  ["table"; "species"; "species_table"; "molweight"]%string.

(** Between [st] and [st'], [self.table] has stayed the object [r]; every
    other object of the store is as it was and none was created; nothing was
    printed; only attributes of [names] were written. *)
Definition works_on (names : list string) (r : ref) (st st' : state) : Prop :=
  self st' !! "table"%string = Some (ARef r)
  /\ (forall r', r' <> r -> store st' !! r' = store st !! r')
  /\ (store st !! r = None -> store st' !! r = None)
  /\ stdout st' = stdout st
  /\ (forall k, k ∉ names -> self st' !! k = self st !! k).

(** Every run of [m] from a state where [self.table] is [r] works on [r]. *)
Definition frames (names : list string) (r : ref) {A} (m : M A) : Prop :=
  forall st res st',
    self st !! "table"%string = Some (ARef r) ->
    m st = (res, st') -> works_on names r st st'.

(** Column [k] of the table is there and, when the table carries a mask, is
    not among the columns that are missing in every row. *)
Definition usable (tbl : Table.t) (k : string) : Prop :=
  is_Some (Table.columns tbl !! k)
  /\ (Table.has_mask tbl = true -> k ∉ Table.masked_columns tbl).

(** Column [k] of the table holds floats. *)
Definition float_column (tbl : Table.t) (k : string) : Prop :=
  exists col a, Table.columns tbl !! k = Some col /\ data col = FloatCells a.

(** The quantities [_set_quantities] copies out of the table [tbl] into the
    attributes [s] of [self]: the partition function, the frequencies in Hz,
    and the cells of the columns A_ul, g_up and E_up. *)
Definition quantities_of `{Externals} (tbl : Table.t) (s : gmap string attr)
  : Prop :=
  (exists Q, Table.meta tbl !! "Partition Function"%string = Some Q
             /\ s !! "Q"%string = Some (AMeta Q))
  /\ (exists cF fq,
        Table.columns tbl !! "Frequency"%string = Some cF
        /\ as_operand cF = Ok fq
        /\ s !! "nu0"%string = Some (AArray (fq * lit 1e9)%arith))
  /\ (exists cA, Table.columns tbl !! "A_ul"%string = Some cA
                 /\ s !! "Aul"%string = Some (ACells (data cA)))
  /\ (exists cG, Table.columns tbl !! "g_up"%string = Some cG
                 /\ s !! "gup"%string = Some (ACells (data cG)))
  /\ (exists cE, Table.columns tbl !! "E_up"%string = Some cE
                 /\ s !! "Eup"%string = Some (ACells (data cE))).

(** The column names after [rename_column(name, new_name)] *)
Definition renamed (name new_name : string) (names : list string)
  : list string :=
  (fun n => if bool_decide (n = name) then new_name else n) <$> names.

(** The column names without those of [dropped] *)
Definition without (dropped : list string) (names : list string)
  : list string :=
  List.filter (fun n => bool_decide (n ∉ dropped)) names.

(** The names steps 3-1 to 3-4 of a normaliser give the columns, in the
    order of the renamings *)
Definition canonical_names (intensity : string) (nofreqerr : bool)
  (names : list string) : list string :=
  renamed "GUP" "g_up"
    (renamed "ELO" "E_up"
       (renamed intensity "A_ul"
          ((if nofreqerr then id else renamed "ERR" "Frequency Error")
             (renamed "FREQ" "Frequency" names)))).

(** The column names of a normalised table, from the column names a
    response has after step 1: Species comes first, the columns that stay
    follow in their order under their canonical names. *)
Definition JPL_colnames (nofreqerr : bool) (names : list string)
  : list string :=
  "Species"%string
  :: canonical_names "LGINT" nofreqerr
       ((if nofreqerr then without ["ERR"%string] else id)
          (without ["DR"; "TAG"; "QNFMT"]%string names)).

Definition CDMS_colnames (nofreqerr : bool) (names : list string)
  : list string :=
  "Species"%string
  :: canonical_names "LGAIJ" nofreqerr
       (without ["name"%string]
          ((if nofreqerr then without ["ERR"%string] else id)
             (without ["DR"; "TAG"; "QNFMT"; "MOLWT"; "Lab"]%string names))).

(** Every run of [m] that returns turns the column names [names] of
    [self.table] into [f names]. *)
Definition renames (f : list string -> list string) {A} (m : M A) : Prop :=
  forall st a st' tbl,
    the_table st = Ok tbl -> m st = (Ok a, st') ->
    exists tbl', the_table st' = Ok tbl'
                 /\ Table.colnames tbl' = f (Table.colnames tbl).

(** The columns of a species table that hold a partition function value *)
Definition JPL_keys (species_table : Table.t) : list string :=
  List.filter (str_contains "QLOG") (Table.colnames species_table).
Definition CDMS_keys (species_table : Table.t) : list string :=
  List.filter (str_contains "lg") (Table.colnames species_table).

(** No row of the species table has the tag [tag] in column [name]. *)
Definition no_row (name : string) (tag : Z) (species_table : Table.t) : Prop :=
  forall tags v, Table.columns species_table !! name = Some tags ->
                 v ∈ tolist tags -> value_eqb (VInt tag) v = false.

(** The notice of a query whose service has no response *)
Definition notice {A} (response : option A) : list string :=
  match response with None => [no_lines] | Some _ => [] end.

(** A masked response of the JPL service without rows, and a response with
    lines of two species *)
Definition masked_empty_response : Table.t :=
  {| Table.columns := Table.columns Sample.jpl_empty_response;
     Table.colnames := Table.colnames Sample.jpl_empty_response;
     Table.masked := true;
     Table.meta := ∅ |}.

Definition two_species_response : Table.t :=
  Sample.table_of
    [("TAG"%string, Sample.plain (IntCells [Some 30001%Z; Some (-28001)%Z]))]
    [].


(** * Properties *)

(** ** Unit conversions *)


(** ** Partition functions *)

Lemma bool_index_keep {A} (f : float -> bool) (a : list A) (Q : list float) :
  length a = length Q ->
  bool_index a (f <$> Q)
  = Ok (fst <$> List.filter (fun p => f p.2) (zip a Q)).
Proof.
  intros Hlen. unfold bool_index.
  rewrite length_fmap, Hlen, Nat.eqb_refl. f_equal.
  clear Hlen. revert Q. induction a as [|x a IH]; intros [|q Q]; cbn; try done.
  destruct (f q); cbn; by rewrite IH.
Qed.

Lemma filter_zip_diag {A} (g : A -> bool) (T : list A) (Q : list A) :
  length T = length Q ->
  fst <$> List.filter (fun p => g p.2) (zip Q Q)
  = snd <$> List.filter (fun p => g p.2) (zip T Q).
Proof.
  revert Q. induction T as [|x T IH]; intros [|q Q] Hlen; cbn in *; try done.
  destruct (g q); cbn; rewrite IH by lia; done.
Qed.

Lemma _get_function_valid_pairs `{Externals} (T Q : list float) :
  length T = length Q ->
  PartitionFunction._get_function T Q
  = interp1d_cubic (valid_pairs T Q).*1 (valid_pairs T Q).*2.
Proof.
  intros Hlen. unfold PartitionFunction._get_function, valid_pairs.
  rewrite (bool_index_keep (fun q => negb (PrimFloat.is_nan q)) T Q Hlen).
  rewrite (bool_index_keep (fun q => negb (PrimFloat.is_nan q)) Q Q eq_refl).
  change (interp1d_cubic
    (fst <$> List.filter (fun p => negb (PrimFloat.is_nan p.2)) (zip T Q))
    (fst <$> List.filter (fun p => negb (PrimFloat.is_nan p.2)) (zip Q Q))
    = interp1d_cubic
    (fst <$> List.filter (fun p => negb (PrimFloat.is_nan p.2)) (zip T Q))
    (snd <$> List.filter (fun p => negb (PrimFloat.is_nan p.2)) (zip T Q))).
  by rewrite (filter_zip_diag (fun q => negb (PrimFloat.is_nan q)) T Q Hlen).
Qed.

Lemma _get_function_length_mismatch `{Externals} (T Q : list float) :
  length T <> length Q ->
  PartitionFunction._get_function T Q
  = Raise (IndexError "boolean index did not match indexed array").
Proof.
  intros Hlen. unfold PartitionFunction._get_function, bool_index.
  rewrite length_fmap.
  destruct (Nat.eqb_spec (length T) (length Q)); [done|]. reflexivity.
Qed.


Lemma interp1d_cubic_Ok `{Externals} (x y : list float) f :
  interp1d_cubic x y = Ok f ->
  length x = length y /\ 4 <= length x /\ make_interp_spline x y = Ok f.
Proof.
  unfold interp1d_cubic.
  destruct (Nat.eqb_spec (length x) (length y)); cbn [negb]; [|done].
  destruct (Nat.ltb_spec (length x) 4); [done|]. auto.
Qed.



Lemma PartitionFunction_init_Ok `{Externals} species T Q database ntrans pf :
  PartitionFunction.__init__ species T Q database ntrans = Ok pf ->
  PartitionFunction.T pf = T /\ PartitionFunction.Q pf = Q
  /\ length T = length Q /\ 4 <= length (valid_pairs T Q)
  /\ make_interp_spline (valid_pairs T Q).*1 (valid_pairs T Q).*2
     = Ok (PartitionFunction.function pf).
Proof.
  unfold PartitionFunction.__init__. intros Hinit.
  destruct (decide (length T = length Q)) as [Hlen|Hlen].
  - rewrite (_get_function_valid_pairs T Q Hlen) in Hinit.
    destruct (interp1d_cubic _ _) as [f|e] eqn:Hf; [|done].
    apply interp1d_cubic_Ok in Hf as (_ & Hfour & Hfit).
    rewrite length_fmap in Hfour.
    injection Hinit as <-. cbn. auto.
  - by rewrite (_get_function_length_mismatch T Q Hlen) in Hinit.
Qed.

Lemma valid_pairs_length (T Q : list float) :
  length (valid_pairs T Q) <= length T.
Proof.
  unfold valid_pairs. etransitivity; [apply List.filter_length_le|].
  rewrite length_zip. lia.
Qed.

(** C9 as the code has it: for a partition function that was built and a
    scalar temperature, the call returns the value of the interpolant whether
    [verbose] is set or not; without [verbose] nothing is printed; with
    [verbose] the extrapolation warning is printed exactly when the
    temperature is below [np.nanmin(self.T)] or above [np.nanmax(self.T)],
    and the call still returns.  The value is not checked for finiteness. *)
Theorem PartitionFunction_call_verbose `{Externals}
  (species : value) (T Q : list float) (database : option string)
  (ntrans : option Column) (pf : PartitionFunction.t) (T_ : float) :
  PartitionFunction.__init__ species T Q database ntrans = Ok pf ->
  exists lo hi,
    np_nanmin (PartitionFunction.T pf) = Ok lo
    /\ np_nanmax (PartitionFunction.T pf) = Ok hi
    /\ PartitionFunction.__call__ pf T_ false
       = ([], Ok (PartitionFunction.function pf T_))
    /\ PartitionFunction.__call__ pf T_ true
       = (if PrimFloat.ltb T_ lo || PrimFloat.ltb hi T_
          then [PartitionFunction.warning] else [],
          Ok (PartitionFunction.function pf T_)).
Proof.
  intros Hinit.
  apply PartitionFunction_init_Ok in Hinit as (HT & _ & _ & Hfour & _).
  pose proof (valid_pairs_length T Q) as Hle.
  rewrite HT. destruct T as [|t0 T']; [cbn in Hle, Hfour; lia|].
  eexists _, _. split; [reflexivity|]. split; [reflexivity|].
  split; [reflexivity|].
  unfold PartitionFunction.__call__. rewrite HT.
  cbn [np_nanmin np_nanmax mbind result_bind].
  destruct (PrimFloat.ltb T_ _); [reflexivity|].
  cbn [orb]. destruct (PrimFloat.ltb _ T_); reflexivity.
Qed.

Lemma PartitionFunction_call_verbose_witness :
  PartitionFunction.__init__ (H := Sample.externals) (VStr "CO")
    [37.5; 75; 150; 300]%float [1; 10; 100; 1000]%float None None
  = Ok Sample.co_pf
  /\ PartitionFunction.__call__ Sample.co_pf 500 false
     = ([], Ok (PartitionFunction.function Sample.co_pf 500))
  /\ PartitionFunction.__call__ Sample.co_pf 500 true
     = ([PartitionFunction.warning],
        Ok (PartitionFunction.function Sample.co_pf 500)).
Proof.
  assert (Hbuilt : PartitionFunction.__init__ (H := Sample.externals)
    (VStr "CO") [37.5; 75; 150; 300]%float [1; 10; 100; 1000]%float None None
    = Ok Sample.co_pf) by (vm_compute; reflexivity).
  split; [exact Hbuilt|].
  destruct (PartitionFunction_call_verbose (H := Sample.externals)
    (VStr "CO") [37.5; 75; 150; 300]%float [1; 10; 100; 1000]%float None None
    Sample.co_pf 500%float Hbuilt) as (lo & hi & Hlo & Hhi & Hquiet & Hverbose).
  split; [exact Hquiet|].
  rewrite Hverbose. vm_compute in Hlo, Hhi.
  injection Hlo as <-. injection Hhi as <-. reflexivity.
Defined.

(** C9, the counterexample: a partition function built from four samples
    between 37.5 K and 300 K, called with [verbose] at 1e200 K, prints the
    warning and returns a value that is not finite. *)
Lemma PartitionFunction_call_not_finite :
  exists v,
    PartitionFunction.__init__ (H := Sample.externals) (VStr "CO")
      [37.5; 75; 150; 300]%float [1; 10; 100; 1000]%float None None
    = Ok Sample.co_pf
    /\ np_nanmax (PartitionFunction.T Sample.co_pf) = Ok 300%float
    /\ PrimFloat.ltb 300 1e200 = true
    /\ PartitionFunction.__call__ Sample.co_pf 1e200 true
       = ([PartitionFunction.warning], Ok v)
    /\ PrimFloat.is_finite v = false.
Proof.
  eexists. split; [vm_compute; reflexivity|].
  split; [vm_compute; reflexivity|].
  split; [vm_compute; reflexivity|].
  split; vm_compute; reflexivity.
Qed.

(** A literal is a member of a list of literals. *)
Ltac in_list := solve [repeat first [by left | right] | done].

(** ** Table operations, read backwards from their result *)

Lemma lookup_delete_all (names : list string) (cols : gmap string Column)
  (k : string) :
  Table.delete_all names cols !! k
  = if decide (k ∈ names) then None else cols !! k.
Proof.
  unfold Table.delete_all.
  induction names as [|n names IH]; cbn [foldr].
  - rewrite decide_False; [done|]. apply not_elem_of_nil.
  - destruct (decide (n = k)) as [->|Hne].
    + rewrite lookup_delete_eq. rewrite decide_True; [done|]. left.
    + rewrite lookup_delete_ne by done. rewrite IH.
      destruct (decide (k ∈ names)) as [Hin|Hin].
      * rewrite decide_True; [done|]. by right.
      * rewrite decide_False; [done|].
        intros [->|?]%elem_of_cons; done.
Qed.

Lemma remove_columns_Ok (names : list string) (tbl tbl' : Table.t) :
  Table.remove_columns names tbl = Ok tbl' ->
  (forall n, n ∈ names -> is_Some (Table.columns tbl !! n))
  /\ Table.columns tbl' = Table.delete_all names (Table.columns tbl)
  /\ Table.meta tbl' = Table.meta tbl
  /\ Table.masked tbl' = Table.masked tbl.
Proof.
  unfold Table.remove_columns.
  destruct (List.find _ names) as [bad|] eqn:Hfind; [done|].
  intros [= <-]. split; [|done].
  intros n Hn. apply list_elem_of_In in Hn.
  pose proof (List.find_none _ _ Hfind n Hn) as Hdec. cbn in Hdec.
  apply bool_decide_eq_false in Hdec.
  by apply not_eq_None_Some.
Qed.

Lemma remove_columns_present (names : list string) (tbl : Table.t) :
  (forall n, n ∈ names -> is_Some (Table.columns tbl !! n)) ->
  is_Ok (Table.remove_columns names tbl) = true.
Proof.
  intros Hall. unfold Table.remove_columns.
  destruct (List.find _ names) as [bad|] eqn:Hfind; [|done].
  apply List.find_some in Hfind as [Hin Hdec].
  apply bool_decide_eq_true in Hdec. apply list_elem_of_In in Hin.
  destruct (Hall bad Hin) as [col Hcol]. congruence.
Qed.

Lemma remove_columns_missing (names : list string) (tbl : Table.t) (n : string) :
  n ∈ names -> Table.columns tbl !! n = None ->
  is_KeyError (Table.remove_columns names tbl) = true.
Proof.
  intros Hin Hnone. unfold Table.remove_columns.
  destruct (List.find _ names) as [bad|] eqn:Hfind; [done|].
  apply list_elem_of_In in Hin.
  pose proof (List.find_none _ _ Hfind n Hin) as Hdec. cbn in Hdec.
  apply bool_decide_eq_false in Hdec. done.
Qed.

Lemma rename_column_Ok (name new_name : string) (tbl tbl' : Table.t) :
  name <> new_name ->
  Table.rename_column name new_name tbl = Ok tbl' ->
  exists col,
    Table.columns tbl !! name = Some col
    /\ Table.columns tbl !! new_name = None
    /\ Table.columns tbl'
       = <[new_name := col]> (delete name (Table.columns tbl))
    /\ Table.meta tbl' = Table.meta tbl
    /\ Table.masked tbl' = Table.masked tbl.
Proof.
  intros Hne. unfold Table.rename_column.
  destruct (Table.columns tbl !! name) as [col|] eqn:Hcol; [|done].
  rewrite bool_decide_eq_false_2 by done.
  case_bool_decide as Hnew; [done|].
  intros [= <-]. exists col. split; [done|]. split; [|done].
  destruct (Table.columns tbl !! new_name) eqn:E; [|done].
  exfalso. apply Hnew. eauto.
Qed.

Lemma column_imul_Ok (col col' : Column) (k : float) :
  column_imul col k = Ok col' ->
  exists a,
    data col = FloatCells a
    /\ data col' = FloatCells (cell1 (fun x => x * k)%float <$> a)
    /\ is_masked_column col' = is_masked_column col.
Proof.
  unfold column_imul. destruct (data col) as [a|a|a]; [|done|done].
  intros [= <-]. by exists a.
Qed.

Lemma imul_Ok (name : string) (k : float) (tbl tbl' : Table.t) :
  Table.imul name k tbl = Ok tbl' ->
  exists col col',
    Table.columns tbl !! name = Some col
    /\ column_imul col k = Ok col'
    /\ Table.columns tbl' = <[name := col']> (Table.columns tbl)
    /\ Table.meta tbl' = Table.meta tbl
    /\ Table.masked tbl' = Table.masked tbl.
Proof.
  unfold Table.imul, Table.getitem.
  destruct (Table.columns tbl !! name) as [col|] eqn:Hcol; [|done].
  cbn. destruct (column_imul col k) as [col'|] eqn:Hmul; [|done].
  cbn. intros [= <-]. by exists col, col'.
Qed.

Lemma setitem_Ok (name : string) (x : operand) (tbl tbl' : Table.t) :
  Table.setitem name x tbl = Ok tbl' ->
  exists old,
    Table.columns tbl !! name = Some old
    /\ Table.columns tbl'
       = <[name := of_operand (Table.len tbl)
                     (Table.masked tbl || is_masked_column old) x]>
           (Table.columns tbl)
    /\ Table.meta tbl' = Table.meta tbl
    /\ Table.masked tbl' = Table.masked tbl.
Proof.
  unfold Table.setitem.
  destruct (Table.columns tbl !! name) as [old|] eqn:Hold; [|done].
  destruct (_ =? _)%nat; [|done].
  intros [= <-]. by exists old.
Qed.

Lemma add_column_Ok (col : Column) (name : string) (tbl tbl' : Table.t) :
  Table.add_column col name tbl = Ok tbl' ->
  Table.columns tbl !! name = None
  /\ Table.columns tbl' = <[name := col]> (Table.columns tbl)
  /\ Table.meta tbl' = Table.meta tbl
  /\ Table.masked tbl' = Table.masked tbl.
Proof.
  unfold Table.add_column.
  case_bool_decide as Hdup; [done|].
  destruct (_ && _); [done|].
  intros [= <-]. split; [|done].
  destruct (Table.columns tbl !! name) eqn:E; [|done].
  exfalso. apply Hdup. eauto.
Qed.

Lemma getitem_Ok (name : string) (tbl : Table.t) (col : Column) :
  Table.getitem name tbl = Ok col <-> Table.columns tbl !! name = Some col.
Proof.
  unfold Table.getitem. destruct (Table.columns tbl !! name); split; congruence.
Qed.

(** ** Running a method *)

Lemma cleaned_fields (tbl : Table.t) :
  Table.columns (cleaned tbl) = cleaned_columns tbl
  /\ Table.meta (cleaned tbl) = Table.meta tbl
  /\ Table.masked (cleaned tbl) = Table.masked tbl.
Proof. unfold cleaned, cleaned_columns. by destruct (Table.has_mask tbl). Qed.

Lemma cleaned_columns_source (tbl : Table.t) (k : string) (col : Column) :
  cleaned_columns tbl !! k = Some col -> Table.columns tbl !! k = Some col.
Proof.
  unfold cleaned_columns. destruct (Table.has_mask tbl); [|done].
  rewrite lookup_delete_all. by case_decide.
Qed.

Lemma cleaned_columns_masked (tbl : Table.t) (k : string) :
  Table.has_mask tbl = true -> k ∈ Table.masked_columns tbl ->
  cleaned_columns tbl !! k = None.
Proof.
  unfold cleaned_columns. intros -> Hk.
  rewrite lookup_delete_all. by rewrite decide_True.
Qed.

Lemma bind_inv {A B} (m : M A) (k : A -> M B) (st st' : state) (b : B) :
  (m ≫= k) st = (Ok b, st') ->
  exists a st1, m st = (Ok a, st1) /\ k a st1 = (Ok b, st').
Proof.
  unfold mbind, M_bind. destruct (m st) as [[a|e] st1]; [eauto|done].
Qed.

Lemma bind_Ok {A B} (m : M A) (k : A -> M B) (st st1 : state) (a : A) :
  m st = (Ok a, st1) -> (m ≫= k) st = k a st1.
Proof. unfold mbind, M_bind. by intros ->. Qed.

Lemma bind_Raise {A B} (m : M A) (k : A -> M B) (st st1 : state) (e : exn) :
  m st = (Raise e, st1) -> (m ≫= k) st = (Raise e, st1).
Proof. unfold mbind, M_bind. by intros ->. Qed.

Lemma lift_inv {A} (x : result A) (st st' : state) (a : A) :
  lift x st = (Ok a, st') -> x = Ok a /\ st' = st.
Proof. unfold lift. by intros [= -> ->]. Qed.

Lemma focused_table (r : ref) tbl σ0 s o st :
  focused r tbl σ0 s o st -> table_ref st = Ok r /\ the_table st = Ok tbl.
Proof.
  intros (Hself & Htable & Hstore & _). unfold the_table, table_ref.
  rewrite Hself, Htable. cbn. by rewrite Hstore, lookup_insert_eq.
Qed.

Lemma get_table_inv (r : ref) tbl σ0 s o st t st' :
  focused r tbl σ0 s o st -> get_table st = (Ok t, st') ->
  t = tbl /\ st' = st.
Proof.
  intros [_ Ht]%focused_table. unfold get_table. rewrite Ht.
  by intros [= <- <-].
Qed.

Lemma on_table_inv (r : ref) tbl σ0 s o op st u st' :
  focused r tbl σ0 s o st -> on_table op st = (Ok u, st') ->
  exists tbl', op tbl = Ok tbl' /\ focused r tbl' σ0 s o st'.
Proof.
  intros Hf. unfold on_table.
  destruct (focused_table _ _ _ _ _ _ Hf) as [-> ->].
  destruct Hf as (Hself & Htable & Hstore & Hout). cbn.
  destruct (op tbl) as [tbl'|e]; cbn; [|done].
  intros [= _ <-]. exists tbl'. split; [done|].
  repeat split; cbn; [done..| |done]. by rewrite Hstore, insert_insert_eq.
Qed.

Lemma on_table_Raise (r : ref) tbl σ0 s o op st e :
  focused r tbl σ0 s o st -> op tbl = Raise e ->
  on_table op st = (Raise e, st).
Proof.
  intros Hf Hop. unfold on_table.
  destruct (focused_table _ _ _ _ _ _ Hf) as [-> ->]. cbn. by rewrite Hop.
Qed.

Lemma on_table_Ok (r : ref) tbl tbl' σ0 s o op st :
  focused r tbl σ0 s o st -> op tbl = Ok tbl' ->
  exists st', on_table op st = (Ok (), st') /\ focused r tbl' σ0 s o st'.
Proof.
  intros Hf Hop. unfold on_table.
  destruct (focused_table _ _ _ _ _ _ Hf) as [-> ->].
  destruct Hf as (Hself & Htable & Hstore & Hout). cbn.
  rewrite Hop. cbn. eexists. split; [done|].
  repeat split; cbn; [done..| |done]. by rewrite Hstore, insert_insert_eq.
Qed.

Lemma setattr_focused (name : string) (a : attr) r tbl σ0 s o
  (st st' : state) u :
  name <> "table"%string -> focused r tbl σ0 s o st ->
  setattr name a st = (Ok u, st') ->
  focused r tbl σ0 (<[name := a]> s) o st'.
Proof.
  intros Hne (Hself & Htable & Hstore & Hout). unfold setattr.
  intros [= _ <-]. repeat split; cbn; [by rewrite Hself| |done..].
  by rewrite lookup_insert_ne.
Qed.

Lemma setattr_table_focused (r : ref) tbl (st st' : state) u :
  store st !! r = Some tbl ->
  setattr "table" (ARef r) st = (Ok u, st') ->
  focused r tbl (store st) (<["table"%string := ARef r]> (self st))
    (stdout st) st'.
Proof.
  intros Hr. unfold setattr. intros [= _ <-]. repeat split; cbn.
  - by rewrite lookup_insert_eq.
  - by rewrite insert_id.
Qed.

Lemma masked_columns_present (tbl : Table.t) (n : string) :
  n ∈ Table.masked_columns tbl -> is_Some (Table.columns tbl !! n).
Proof.
  unfold Table.masked_columns. intros Hin%list_elem_of_In.
  apply List.filter_In in Hin as [_ Hcol].
  destruct (Table.columns tbl !! n); [eauto|done].
Qed.

Lemma remove_masked_columns_run (r : ref) tbl σ0 s o st :
  focused r tbl σ0 s o st ->
  exists st1,
    remove_masked_columns st = (Ok (), st1)
    /\ focused r (cleaned tbl) σ0 s o st1.
Proof.
  intros Hf. unfold remove_masked_columns, cleaned.
  rewrite (bind_Ok _ _ st st tbl)
    by (unfold get_table; by destruct (focused_table _ _ _ _ _ _ Hf) as [_ ->]).
  destruct (Table.has_mask tbl).
  - pose proof (remove_columns_present (Table.masked_columns tbl) tbl
                  (masked_columns_present tbl)) as Hok.
    destruct (Table.remove_columns _ tbl) as [tbl1|] eqn:Hrm; [|done].
    destruct (on_table_Ok r tbl tbl1 σ0 s o _ st Hf Hrm) as (st1 & Hrun & Hf1).
    exists st1. split; [done|].
    unfold Table.remove_columns in Hrm.
    destruct (List.find _ _); [done|]. by injection Hrm as <-.
  - exists st. split; [done|]. exact Hf.
Qed.

(** One step of a method that works on the table: the step succeeded, so the
    operation did, and the focus moves to its result. *)
Ltac table_step H Hf tbl' Hop :=
  let st1 := fresh "st" in
  let Hstep := fresh "Hstep" in
  let Hf' := fresh "Hf" in
  apply bind_inv in H as (? & st1 & Hstep & H);
  destruct (on_table_inv _ _ _ _ _ _ _ _ _ Hf Hstep) as (tbl' & Hop & Hf');
  clear Hstep; clear Hf; rename Hf' into Hf.

Ltac table_last H Hf tbl' Hop :=
  let Hf' := fresh "Hf" in
  destruct (on_table_inv _ _ _ _ _ _ _ _ _ Hf H) as (tbl' & Hop & Hf');
  clear H; clear Hf; rename Hf' into Hf.

Ltac lift_step H x Hx :=
  apply bind_inv in H as (x & ? & Hx & H);
  apply lift_inv in Hx as [Hx ->].

Ltac setattr_step H Hf :=
  let st1 := fresh "st" in
  let Hs := fresh "Hs" in
  let Hf' := fresh "Hf" in
  apply bind_inv in H as (? & st1 & Hs & H);
  pose proof (fun Hne => setattr_focused _ _ _ _ _ _ _ _ _ _ Hne Hf Hs) as Hf';
  specialize (Hf' ltac:(done));
  clear Hs; clear Hf; rename Hf' into Hf.

Ltac map_ne_in H :=
  repeat first [ rewrite lookup_insert_ne in H by done
               | rewrite lookup_delete_ne in H by done ].

Lemma frequency_to_GHz_inv (r : ref) tbl σ0 s o (nofreqerr : bool) st u st' :
  focused r tbl σ0 s o st ->
  frequency_to_GHz nofreqerr st = (Ok u, st') ->
  exists tbl' cF cF',
    focused r tbl' σ0 s o st'
    /\ Table.meta tbl' = Table.meta tbl
    /\ Table.masked tbl' = Table.masked tbl
    /\ Table.columns tbl !! "FREQ"%string = Some cF
    /\ Table.columns tbl !! "Frequency"%string = None
    /\ column_imul cF 1e-3 = Ok cF'
    /\ if nofreqerr then
         Table.columns tbl'
         = <["Frequency"%string := cF']> (delete "FREQ"%string (Table.columns tbl))
       else
         exists cE cE',
           Table.columns tbl !! "ERR"%string = Some cE
           /\ Table.columns tbl !! "Frequency Error"%string = None
           /\ column_imul cE 1e-3 = Ok cE'
           /\ Table.columns tbl'
              = <["Frequency Error"%string := cE']>
                  (delete "ERR"%string
                     (<["Frequency"%string := cF']>
                        (delete "FREQ"%string (Table.columns tbl)))).
Proof.
  intros Hf H. unfold frequency_to_GHz in H.
  table_step H Hf tbl1 Hrename.
  apply rename_column_Ok in Hrename
    as (cF & HcF & Hnew & Hcols1 & Hmeta1 & Hmask1); [|done].
  table_step H Hf tbl2 Hmul.
  apply imul_Ok in Hmul as (cF0 & cF' & Hlook & HcF' & Hcols2 & Hmeta2 & Hmask2).
  rewrite Hcols1, lookup_insert_eq in Hlook. injection Hlook as <-.
  rewrite Hcols1, insert_insert_eq in Hcols2.
  destruct nofreqerr; cbn [negb] in H.
  - injection H as _ <-. exists tbl2, cF, cF'.
    repeat (split; [first [done | congruence]|]). done.
  - table_step H Hf tbl3 Hrename.
    apply rename_column_Ok in Hrename
      as (cE & HcE & HnewE & Hcols3 & Hmeta3 & Hmask3); [|done].
    table_last H Hf tbl4 Hmul.
    apply imul_Ok in Hmul
      as (cE0 & cE' & Hlook & HcE' & Hcols4 & Hmeta4 & Hmask4).
    rewrite Hcols3, lookup_insert_eq in Hlook. injection Hlook as <-.
    rewrite Hcols3, insert_insert_eq in Hcols4.
    rewrite Hcols2 in HcE, HnewE, Hcols4.
    map_ne_in HcE. map_ne_in HnewE.
    exists tbl4, cF, cF'.
    repeat (split; [first [done | congruence]|]).
    exists cE, cE'. done.
Qed.

Lemma energy_to_E_up_inv `{Externals} (r : ref) tbl σ0 s o st u st' :
  focused r tbl σ0 s o st ->
  energy_to_E_up st = (Ok u, st') ->
  exists tbl' cE cFq cG el fq n m,
    focused r tbl' σ0 s o st'
    /\ Table.meta tbl' = Table.meta tbl
    /\ Table.masked tbl' = Table.masked tbl
    /\ Table.columns tbl !! "ELO"%string = Some cE
    /\ Table.columns tbl !! "E_up"%string = None
    /\ Table.columns tbl !! "Frequency"%string = Some cFq
    /\ Table.columns tbl !! "GUP"%string = Some cG
    /\ Table.columns tbl !! "g_up"%string = None
    /\ as_operand cE = Ok el
    /\ as_operand cFq = Ok fq
    /\ Table.columns tbl'
       = <["g_up"%string := cG]>
           (delete "GUP"%string
              (<["E_up"%string :=
                   of_operand n m
                     (wavenumber_to_Kelvin el
                      + lit h * fq * lit 1e9 / lit k_B)%arith]>
                 (delete "ELO"%string (Table.columns tbl)))).
Proof.
  intros Hf H'. unfold energy_to_E_up in H'.
  table_step H' Hf tbl1 Hrename.
  apply rename_column_Ok in Hrename
    as (cE & HcE & Hnew & Hcols1 & Hmeta1 & Hmask1); [|done].
  table_step H' Hf tbl2 Hset.
  unfold Table.getitem in Hset.
  rewrite Hcols1, lookup_insert_eq in Hset. cbn in Hset.
  destruct (as_operand cE) as [el|] eqn:Hel; [|done]. cbn in Hset.
  map_ne_in Hset.
  destruct (Table.columns tbl !! "Frequency"%string) as [cFq|] eqn:HcFq;
    [|done]. cbn in Hset.
  destruct (as_operand cFq) as [fq|] eqn:Hfq; [|done]. cbn in Hset.
  apply setitem_Ok in Hset as (old & _ & Hcols2 & Hmeta2 & Hmask2).
  rewrite Hcols1, insert_insert_eq in Hcols2.
  table_last H' Hf tbl3 Hrename.
  apply rename_column_Ok in Hrename
    as (cG & HcG & HnewG & Hcols3 & Hmeta3 & Hmask3); [|done].
  rewrite Hcols2 in HcG, HnewG, Hcols3.
  map_ne_in HcG. map_ne_in HnewG.
  exists tbl3, cE, cFq, cG, el, fq. eexists _, _.
  repeat (split; [first [done | congruence]|]). exact Hcols3.
Qed.

Lemma _set_quantities_inv `{Externals} (r : ref) tbl σ0 s o st u st' :
  focused r tbl σ0 s o st ->
  _set_quantities st = (Ok u, st') ->
  exists s',
    focused r tbl σ0 s' o st'
    /\ forall k, k ∉ ["mu"; "Q"; "nu0"; "Aul"; "gup"; "Eup"]%string ->
                 s' !! k = s !! k.
Proof.
  intros Hf Hrun. destruct (focused_table _ _ _ _ _ _ Hf) as [_ Ht].
  destruct Hf as (Hself & Htable & Hstore & Hout).
  unfold _set_quantities, get_table, mbind, M_bind, lift, setattr in Hrun.
  rewrite Ht in Hrun.
  repeat match type of Hrun with
         | context [match ?x with _ => _ end] =>
             destruct x eqn:?; try discriminate; cbn in Hrun
         end.
  injection Hrun as _ <-.
  match goal with
  | Hmu : _ ?st0 = (Ok _, ?s1) |- _ =>
      assert (Hs : store s1 = store st /\ stdout s1 = stdout st
                   /\ forall k, k <> "mu"%string -> self s1 !! k = self st !! k);
      [ revert Hmu; destruct (Table.meta tbl !! "Molecular Weight"%string);
        intros Hmu; cbn in Hmu; injection Hmu as _ <-; cbn; [|done];
        repeat split; intros k Hk; by rewrite lookup_insert_ne
      | ]
  end.
  destruct Hs as (Hs1 & Hs2 & Hs3).
  eexists. split; [repeat split; cbn|cbn].
  - rewrite !lookup_insert_ne by done. by rewrite Hs3, Hself.
  - congruence.
  - congruence.
  - intros k Hk.
    rewrite !lookup_insert_ne, Hs3, Hself; [done|..]; intros Heq; apply Hk;
      rewrite <- Heq; repeat first [by left | right].
Qed.

Lemma set_partition_function_inv (r : ref) tbl σ0 s o pf st u st' :
  focused r tbl σ0 s o st ->
  set_partition_function pf st = (Ok u, st') ->
  focused r (Table.set_meta "Partition Function" (MPartitionFunction pf) tbl)
    σ0 s o st'.
Proof.
  intros Hf Hrun. unfold set_partition_function in Hrun.
  table_last Hrun Hf tbl' Hop. by injection Hop as <-.
Qed.

Lemma JPL_metadata_inv `{Externals} `{Catalogues} (r : ref) tbl σ0 s o
  species pf st sp st' :
  focused r tbl σ0 s o st ->
  JPL_metadata species pf st = (Ok sp, st') ->
  exists pf',
    focused r (Table.set_meta "Partition Function" (MPartitionFunction pf') tbl)
      σ0 (<["species"%string := AValue sp]> s) o st'
    /\ JPL_resolved tbl species pf sp pf'.
Proof.
  intros Hf Hrun. unfold JPL_metadata in Hrun.
  destruct species as [sp0|].
  - setattr_step Hrun Hf.
    apply bind_inv in Hrun as (? & st2 & Hpf & Hrun).
    injection Hrun as <- <-.
    destruct pf as [p|]; [|done].
    apply (set_partition_function_inv _ _ _ _ _ _ _ _ _ Hf) in Hpf.
    exists p. done.
  - apply bind_inv in Hrun as (t & st1 & Hget & Hrun).
    apply (get_table_inv _ _ _ _ _ _ _ _ Hf) in Hget as [-> ->].
    lift_step Hrun tag Htag.
    lift_step Hrun idx Hidx.
    lift_step Hrun sp' Hsp.
    setattr_step Hrun Hf.
    apply bind_inv in Hrun as (? & st2 & Hpf & Hrun).
    injection Hrun as <- <-.
    destruct (Table.getitem "TAG" JPL_get_species_table) as [tags|] eqn:Htags;
      [|done]. cbn in Hidx.
    destruct (list_index (VInt tag) (tolist tags)) as [i|] eqn:Hi; [|done].
    injection Hidx as <-.
    destruct (Table.getitem "NAME" JPL_get_species_table) as [names|] eqn:Hnames;
      [|done]. cbn in Hsp.
    destruct pf as [p|].
    + apply (set_partition_function_inv _ _ _ _ _ _ _ _ _ Hf) in Hpf.
      exists p. split; [done|]. exists tag, tags, i, names. done.
    + apply bind_inv in Hpf as ([T Q] & ? & HTQ & Hpf).
      apply lift_inv in HTQ as [HTQ ->].
      lift_step Hpf ntrans Hntrans.
      lift_step Hpf pf' Hinit.
      apply (set_partition_function_inv _ _ _ _ _ _ _ _ _ Hf) in Hpf.
      exists pf'. split; [done|].
      exists tag, tags, i, names. repeat (split; [done|]).
      exists T, Q, ntrans. done.
Qed.

Lemma partition_function_at_300_meta `{Externals} (tbl : Table.t) pf :
  Table.meta tbl !! "Partition Function"%string = Some (MPartitionFunction pf) ->
  partition_function_at_300 tbl = Ok (PartitionFunction.function pf 300).
Proof.
  intros Hmeta. unfold partition_function_at_300, Table.get_meta.
  by rewrite Hmeta.
Qed.

(** The optional removal of the frequency error *)
Lemma remove_ERR_inv (r : ref) tbl σ0 s o (nofreqerr : bool) st u st' :
  focused r tbl σ0 s o st ->
  (if nofreqerr then on_table (Table.remove_column "ERR") else mret ()) st
  = (Ok u, st') ->
  exists tbl',
    focused r tbl' σ0 s o st'
    /\ Table.meta tbl' = Table.meta tbl
    /\ Table.masked tbl' = Table.masked tbl
    /\ Table.columns tbl'
       = (if nofreqerr then delete "ERR"%string else id) (Table.columns tbl).
Proof.
  intros Hf Hrun. destruct nofreqerr.
  - table_last Hrun Hf tbl' Hrm.
    apply remove_columns_Ok in Hrm as (_ & Hcols & Hmeta & Hmask).
    exists tbl'. done.
  - injection Hrun as _ <-. exists tbl. done.
Qed.

(** The columns the later steps read are columns of the response. *)
Lemma frequency_source (cols cols' : gmap string Column) (nofreqerr : bool)
  (cF' : Column) (k : string) (col : Column) :
  (if nofreqerr then
     cols' = <["Frequency"%string := cF']> (delete "FREQ"%string cols)
   else
     exists cE cE' : Column,
       cols !! "ERR"%string = Some cE
       /\ cols !! "Frequency Error"%string = None
       /\ column_imul cE 1e-3 = Ok cE'
       /\ cols' = <["Frequency Error"%string := cE']>
                    (delete "ERR"%string
                       (<["Frequency"%string := cF']>
                          (delete "FREQ"%string cols)))) ->
  cols' !! "Frequency"%string = Some cF'
  /\ (k ∉ ["FREQ"; "ERR"; "Frequency"; "Frequency Error"]%string ->
      cols' !! k = cols !! k).
Proof.
  intros Hcols. split.
  - destruct nofreqerr.
    + rewrite Hcols. by simplify_map_eq.
    + destruct Hcols as (cE & cE' & _ & _ & _ & ->). by simplify_map_eq.
  - intros Hk.
    assert (k <> "FREQ"%string /\ k <> "ERR"%string
            /\ k <> "Frequency"%string /\ k <> "Frequency Error"%string)
      as (? & ? & ? & ?).
    { repeat split; intros ->; apply Hk; repeat first [by left | right]. }
    destruct nofreqerr.
    + rewrite Hcols. by simplify_map_eq.
    + destruct Hcols as (cE & cE' & _ & _ & _ & ->). by simplify_map_eq.
Qed.

Lemma JPL_base_source (cols1 : gmap string Column) (nofreqerr : bool)
  (cS : Column) (k : string) (col : Column) :
  k <> "Species"%string ->
  JPL_base cols1 nofreqerr cS !! k = Some col -> cols1 !! k = Some col.
Proof.
  intros Hk. unfold JPL_base. rewrite lookup_insert_ne by done.
  intros Hc.
  assert (Table.delete_all ["DR"; "TAG"; "QNFMT"]%string cols1 !! k = Some col)
    as Hc'.
  { destruct nofreqerr; [|done]. by apply lookup_delete_Some in Hc as [_ Hc]. }
  rewrite lookup_delete_all in Hc'. by case_decide.
Qed.

Lemma format_JPL_inv `{Externals} `{Catalogues} (r : ref) (tbl0 : Table.t)
  species nofreqerr pf st st' :
  store st !! r = Some tbl0 ->
  format_JPL r species nofreqerr pf st = (Ok (), st') ->
  exists tbl' s' sp pf' n cF cF' cE' cL cG cEl lg fq gu el nA mA nE mE,
    JPL_resolved (cleaned tbl0) species pf sp pf'
    /\ focused r tbl' (store st) s' (stdout st) st'
    /\ (forall k, k ∉ ["mu"; "Q"; "nu0"; "Aul"; "gup"; "Eup"]%string ->
          s' !! k = <["species"%string := AValue sp]>
                      (<["table"%string := ARef r]> (self st)) !! k)
    /\ Table.meta tbl'
       = <["Species"%string := MValue sp]>
           (<["Partition Function"%string := MPartitionFunction pf']>
              (Table.meta tbl0))
    /\ Table.masked tbl' = Table.masked tbl0
    /\ (forall k, k ∈ ["DR"; "TAG"; "QNFMT"]%string ->
                  is_Some (cleaned_columns tbl0 !! k))
    /\ cleaned_columns tbl0 !! "FREQ"%string = Some cF
    /\ column_imul cF 1e-3 = Ok cF'
    /\ (nofreqerr = false ->
        exists cE, cleaned_columns tbl0 !! "ERR"%string = Some cE
                   /\ column_imul cE 1e-3 = Ok cE')
    /\ cleaned_columns tbl0 !! "LGINT"%string = Some cL
    /\ cleaned_columns tbl0 !! "GUP"%string = Some cG
    /\ cleaned_columns tbl0 !! "ELO"%string = Some cEl
    /\ as_exponent cL = Ok lg /\ as_operand cF' = Ok fq
    /\ as_operand cG = Ok gu /\ as_operand cEl = Ok el
    /\ Table.columns tbl'
       = final_columns
           (JPL_base (cleaned_columns tbl0) nofreqerr (column_of_repeat sp n))
           nofreqerr "LGINT" cF' cE'
           (of_operand nA mA
              (logint_to_EinsteinA lg (fq * lit 1e3)%arith gu el
                 (lit (PartitionFunction.function pf' 300))))
           (of_operand nE mE
              (wavenumber_to_Kelvin el + lit h * fq * lit 1e9 / lit k_B)%arith)
           cG.
Proof.
  intros Hr Hrun. unfold format_JPL in Hrun.
  (* self.table = response *)
  apply bind_inv in Hrun as (? & st1 & Hset & Hrun).
  apply (setattr_table_focused _ _ _ _ _ Hr) in Hset. rename Hset into Hf.
  (* step 1 *)
  apply bind_inv in Hrun as (? & st2 & Hclean & Hrun).
  destruct (remove_masked_columns_run _ _ _ _ _ _ Hf)
    as (st2' & Hclean' & Hf1).
  destruct (cleaned_fields tbl0) as (Hcols1 & Hmeta1 & Hmask1).
  rewrite Hclean' in Hclean. injection Hclean as _ <-. clear Hf Hclean'.
  (* step 2 *)
  apply bind_inv in Hrun as (sp & st3 & Hmeta & Hrun).
  apply (JPL_metadata_inv _ _ _ _ _ _ _ _ _ _ Hf1) in Hmeta
    as (pf' & Hf & Hres).
  table_step Hrun Hf tbl3 Hop. injection Hop as <-.
  (* unnecessary columns *)
  table_step Hrun Hf tbl4 Hrm.
  apply remove_columns_Ok in Hrm as (Hpresent & Hcols4 & Hmeta4 & Hmask4).
  cbn [Table.set_meta Table.columns Table.meta Table.masked] in *.
  apply bind_inv in Hrun as (? & st6 & Herr & Hrun).
  apply (remove_ERR_inv _ _ _ _ _ _ _ _ _ Hf) in Herr
    as (tbl5 & Hf5 & Hmeta5 & Hmask5 & Hcols5).
  clear Hf. rename Hf5 into Hf.
  table_step Hrun Hf tbl6 Hadd.
  apply add_column_Ok in Hadd as (Hfresh & Hcols6 & Hmeta6 & Hmask6).
  assert (Hbase : Table.columns tbl6
    = JPL_base (cleaned_columns tbl0) nofreqerr
        (column_of_repeat sp (Table.len tbl5))).
  { unfold JPL_base. by rewrite Hcols6, Hcols5, Hcols4, Hcols1. }
  (* frequency *)
  apply bind_inv in Hrun as (? & st8 & Hfreq & Hrun).
  apply (frequency_to_GHz_inv _ _ _ _ _ _ _ _ _ Hf) in Hfreq
    as (tbl7 & cF & cF' & Hf7 & Hmeta7 & Hmask7 & HcF & _ & HcF' & Hcols7).
  clear Hf. rename Hf7 into Hf.
  pose proof (fun k => frequency_source _ _ _ _ k cF' Hcols7) as Hsrc.
  (* intensity *)
  table_step Hrun Hf tbl8 Hrename.
  apply rename_column_Ok in Hrename
    as (cL & HcL & _ & Hcols8 & Hmeta8 & Hmask8); [|done].
  table_step Hrun Hf tbl9 HA.
  unfold Table.getitem in HA.
  rewrite Hcols8, lookup_insert_eq in HA. cbn in HA.
  map_ne_in HA. rewrite (proj1 (Hsrc "FREQ"%string)) in HA. cbn in HA.
  destruct (as_operand cF') as [fq|] eqn:Hfq; [|done]. cbn in HA.
  destruct (Table.columns tbl7 !! "GUP"%string) as [cG|] eqn:HcG; [|done].
  cbn in HA.
  destruct (Table.columns tbl7 !! "ELO"%string) as [cEl|] eqn:HcEl; [|done].
  cbn in HA.
  rewrite (partition_function_at_300_meta tbl8 pf') in HA
    by (rewrite Hmeta8, Hmeta7, Hmeta6, Hmeta5, Hmeta4;
        rewrite lookup_insert_ne by done; by rewrite lookup_insert_eq).
  cbn in HA.
  destruct (as_operand cEl) as [el|] eqn:Hel; [|done]. cbn in HA.
  destruct (as_exponent cL) as [lg|] eqn:Hlg; [|done]. cbn in HA.
  destruct (as_operand cG) as [gu|] eqn:Hgu; [|done]. cbn in HA.
  apply setitem_Ok in HA as (old & _ & Hcols9 & Hmeta9 & Hmask9).
  rewrite Hcols8, insert_insert_eq in Hcols9.
  (* energy *)
  apply bind_inv in Hrun as (? & st11 & Henergy & Hrun).
  apply (energy_to_E_up_inv _ _ _ _ _ _ _ _ Hf) in Henergy
    as (tbl10 & cEl' & cFq' & cG' & el' & fq' & nE & mE & Hf10
        & Hmeta10 & Hmask10 & HcEl' & _ & HcFq' & HcG' & _ & Hel'
        & Hfq' & Hcols10).
  clear Hf. rename Hf10 into Hf.
  apply (_set_quantities_inv _ _ _ _ _ _ _ _ Hf) in Hrun
    as (s' & Hfinal & Hframe).
  (* the columns the steps read are those of the response *)
  rewrite Hcols9 in HcEl', HcFq', HcG', Hcols10.
  map_ne_in HcEl'. map_ne_in HcG'. map_ne_in HcFq'.
  rewrite HcEl in HcEl'. injection HcEl' as <-.
  rewrite HcG in HcG'. injection HcG' as <-.
  rewrite (proj1 (Hsrc "FREQ"%string)) in HcFq'. injection HcFq' as <-.
  rewrite Hel in Hel'. injection Hel' as <-.
  rewrite Hfq in Hfq'. injection Hfq' as <-.
  assert (Hread : forall k c,
    k ∉ ["FREQ"; "ERR"; "Frequency"; "Frequency Error"]%string ->
    k <> "Species"%string ->
    Table.columns tbl7 !! k = Some c -> cleaned_columns tbl0 !! k = Some c).
  { intros k c Hk Hk' Hc. rewrite (proj2 (Hsrc k) Hk), Hbase in Hc.
    by apply JPL_base_source in Hc. }
  assert (HcE' : exists cE', nofreqerr = false ->
    exists cE, cleaned_columns tbl0 !! "ERR"%string = Some cE
               /\ column_imul cE 1e-3 = Ok cE'
               /\ Table.columns tbl7
                  = <["Frequency Error"%string := cE']>
                      (delete "ERR"%string
                         (<["Frequency"%string := cF']>
                            (delete "FREQ"%string (Table.columns tbl6))))).
  { destruct nofreqerr.
    - exists cF'. done.
    - destruct Hcols7 as (cE & cE' & HcE & _ & HcE' & Hc).
      exists cE'. intros _. exists cE. split; [|done].
      rewrite Hbase in HcE. by apply JPL_base_source in HcE. }
  destruct HcE' as (cE' & HcE').
  exists tbl10, s', sp, pf', (Table.len tbl5), cF, cF', cE', cL, cG, cEl,
    lg, fq, gu, el.
  eexists _, _, nE, mE.
  split; [done|]. split; [done|]. split; [done|].
  split.
  { rewrite Hmeta10, Hmeta9, Hmeta8, Hmeta7, Hmeta6, Hmeta5, Hmeta4.
    by rewrite Hmeta1. }
  split; [congruence|].
  split.
  { intros k Hk. rewrite <- Hcols1. by apply Hpresent. }
  split.
  { rewrite Hbase in HcF. by apply JPL_base_source in HcF. }
  split; [done|].
  split.
  { intros ->. destruct (HcE' eq_refl) as (cE & ? & ? & _). eauto. }
  assert (Hnot : forall k, k ∈ ["LGINT"; "GUP"; "ELO"]%string ->
    (k ∉ ["FREQ"; "ERR"; "Frequency"; "Frequency Error"]%string)
    /\ k <> "Species"%string).
  { intros k Hk. repeat (apply elem_of_cons in Hk as [->|Hk]);
      [| | |by apply elem_of_nil in Hk];
      (split; [|done]); intros Hin;
      repeat (apply elem_of_cons in Hin as [[=]|Hin]);
      by apply elem_of_nil in Hin. }
  split.
  { destruct (Hnot "LGINT"%string) as [? ?]; [repeat first [by left | right]|].
    by apply Hread. }
  split.
  { destruct (Hnot "GUP"%string) as [? ?]; [repeat first [by left | right]|].
    by apply Hread. }
  split.
  { destruct (Hnot "ELO"%string) as [? ?]; [repeat first [by left | right]|].
    by apply Hread. }
  repeat (split; [done|]).
  rewrite Hcols10. unfold final_columns. rewrite <- Hbase.
  destruct nofreqerr.
  - by rewrite Hcols7.
  - destruct (HcE' eq_refl) as (cE & _ & _ & ->). done.
Qed.

Lemma CDMS_metadata_inv `{Externals} `{Catalogues} (r : ref) tbl σ0 s o
  use_cached st u st' :
  focused r tbl σ0 s o st ->
  CDMS_metadata use_cached st = (Ok u, st') ->
  exists w key sp pf',
    focused r
      (Table.set_meta "Partition Function" (MPartitionFunction pf')
         (Table.set_meta "Molecular Weight" (MValue (VInt w))
            (Table.set_meta "Species" (MValue sp) tbl)))
      σ0
      (<["species"%string := AValue sp]>
         (<["species_table"%string :=
              ATable (CDMS_get_species_table use_cached)]>
            (<["molweight"%string := AInt w]> s)))
      o st'
    /\ CDMS_resolved tbl use_cached w key sp pf'.
Proof.
  intros Hf Hrun. unfold CDMS_metadata in Hrun.
  apply bind_inv in Hrun as (t0 & st1 & Hget & Hrun).
  apply (get_table_inv _ _ _ _ _ _ _ _ Hf) in Hget as [-> ->].
  lift_step Hrun w Hw.
  setattr_step Hrun Hf.
  lift_step Hrun key Hkey.
  setattr_step Hrun Hf.
  lift_step Hrun idx Hidx.
  lift_step Hrun sp Hsp.
  setattr_step Hrun Hf.
  table_step Hrun Hf tbl1 Hop. injection Hop as <-.
  table_step Hrun Hf tbl2 Hop. injection Hop as <-.
  apply bind_inv in Hrun as ([T Q] & ? & HTQ & Hrun).
  apply lift_inv in HTQ as [HTQ ->].
  lift_step Hrun ntrans Hntrans.
  lift_step Hrun pf' Hinit.
  apply (set_partition_function_inv _ _ _ _ _ _ _ _ _ Hf) in Hrun.
  exists w, key, sp, pf'. split; [done|].
  destruct (Table.getitem "MOLWT" tbl) as [cW|] eqn:HcW; [|done]. cbn in Hw.
  destruct (np_unique_first cW) as [vW|] eqn:HvW; [|done]. cbn in Hw.
  destruct (Table.getitem "TAG" tbl) as [cT|] eqn:HcT; [|done]. cbn in Hkey.
  destruct (np_unique_first cT) as [vT|] eqn:HvT; [|done]. cbn in Hkey.
  destruct (py_int vT) as [t|] eqn:Ht; [|done]. cbn in Hkey.
  destruct (Table.getitem "tag" _) as [tags|] eqn:Htags; [|done]. cbn in Hidx.
  destruct (list_index (VInt key) (tolist tags)) as [i|] eqn:Hi; [|done].
  injection Hidx as <-.
  destruct (Table.getitem "molecule" _) as [names|] eqn:Hnames; [|done].
  cbn in Hsp.
  exists cW, vW, cT, vT, t, tags, i, names, T, Q, ntrans. done.
Qed.

Lemma CDMS_base_source (cols1 : gmap string Column) (nofreqerr : bool)
  (cS : Column) (k : string) (col : Column) :
  k <> "Species"%string ->
  CDMS_base cols1 nofreqerr cS !! k = Some col -> cols1 !! k = Some col.
Proof.
  intros Hk. unfold CDMS_base. intros Hc.
  apply lookup_delete_Some in Hc as [_ Hc].
  rewrite lookup_insert_ne in Hc by done.
  assert (Table.delete_all ["DR"; "TAG"; "QNFMT"; "MOLWT"; "Lab"]%string cols1
            !! k = Some col) as Hc'.
  { destruct nofreqerr; [|done]. by apply lookup_delete_Some in Hc as [_ Hc]. }
  rewrite lookup_delete_all in Hc'. by case_decide.
Qed.

Lemma format_CDMS_inv `{Externals} `{Catalogues} (r : ref) (tbl0 : Table.t)
  use_cached nofreqerr st st' :
  store st !! r = Some tbl0 ->
  format_CDMS r use_cached nofreqerr st = (Ok (), st') ->
  exists tbl' s' w key sp pf' cS cF cF' cE' cL cG cEl lg fq el nA mA nE mE,
    CDMS_resolved (cleaned tbl0) use_cached w key sp pf'
    /\ focused r tbl' (store st) s' (stdout st) st'
    /\ (forall k, k ∉ ["mu"; "Q"; "nu0"; "Aul"; "gup"; "Eup"]%string ->
          s' !! k = <["species"%string := AValue sp]>
                      (<["species_table"%string :=
                           ATable (CDMS_get_species_table use_cached)]>
                         (<["molweight"%string := AInt w]>
                            (<["table"%string := ARef r]> (self st)))) !! k)
    /\ Table.meta tbl'
       = <["Partition Function"%string := MPartitionFunction pf']>
           (<["Molecular Weight"%string := MValue (VInt w)]>
              (<["Species"%string := MValue sp]> (Table.meta tbl0)))
    /\ Table.masked tbl' = Table.masked tbl0
    /\ (forall k, k ∈ ["DR"; "TAG"; "QNFMT"; "MOLWT"; "Lab"]%string ->
                  is_Some (cleaned_columns tbl0 !! k))
    /\ cleaned_columns tbl0 !! "name"%string = Some cS
    /\ cleaned_columns tbl0 !! "FREQ"%string = Some cF
    /\ column_imul cF 1e-3 = Ok cF'
    /\ (nofreqerr = false ->
        exists cE, cleaned_columns tbl0 !! "ERR"%string = Some cE
                   /\ column_imul cE 1e-3 = Ok cE')
    /\ cleaned_columns tbl0 !! "LGAIJ"%string = Some cL
    /\ cleaned_columns tbl0 !! "GUP"%string = Some cG
    /\ cleaned_columns tbl0 !! "ELO"%string = Some cEl
    /\ as_exponent cL = Ok lg /\ as_operand cF' = Ok fq
    /\ as_operand cEl = Ok el
    /\ Table.columns tbl'
       = final_columns
           (CDMS_base (cleaned_columns tbl0) nofreqerr cS)
           nofreqerr "LGAIJ" cF' cE'
           (of_operand nA mA (lit 10 ** lg)%arith)
           (of_operand nE mE
              (wavenumber_to_Kelvin el + lit h * fq * lit 1e9 / lit k_B)%arith)
           cG.
Proof.
  intros Hr Hrun. unfold format_CDMS in Hrun.
  apply bind_inv in Hrun as (? & st1 & Hset & Hrun).
  apply (setattr_table_focused _ _ _ _ _ Hr) in Hset. rename Hset into Hf.
  apply bind_inv in Hrun as (? & st2 & Hclean & Hrun).
  destruct (remove_masked_columns_run _ _ _ _ _ _ Hf)
    as (st2' & Hclean' & Hf1).
  destruct (cleaned_fields tbl0) as (Hcols1 & Hmeta1 & Hmask1).
  rewrite Hclean' in Hclean. injection Hclean as _ <-. clear Hf Hclean'.
  apply bind_inv in Hrun as (? & st3 & Hmeta & Hrun).
  apply (CDMS_metadata_inv _ _ _ _ _ _ _ _ _ Hf1) in Hmeta
    as (w & key & sp & pf' & Hf & Hres).
  table_step Hrun Hf tbl4 Hrm.
  apply remove_columns_Ok in Hrm as (Hpresent & Hcols4 & Hmeta4 & Hmask4).
  cbn [Table.set_meta Table.columns Table.meta Table.masked] in *.
  apply bind_inv in Hrun as (? & st6 & Herr & Hrun).
  apply (remove_ERR_inv _ _ _ _ _ _ _ _ _ Hf) in Herr
    as (tbl5 & Hf5 & Hmeta5 & Hmask5 & Hcols5).
  clear Hf. rename Hf5 into Hf.
  table_step Hrun Hf tbl6 Hadd.
  destruct (Table.getitem "name" tbl5) as [cS|] eqn:HcS; [|done].
  cbn in Hadd. apply getitem_Ok in HcS.
  apply add_column_Ok in Hadd as (Hfresh & Hcols6 & Hmeta6 & Hmask6).
  table_step Hrun Hf tbl6' Hrm.
  apply remove_columns_Ok in Hrm as (_ & Hcols6' & Hmeta6' & Hmask6').
  cbn [Table.delete_all foldr] in Hcols6'.
  assert (Hbase : Table.columns tbl6'
    = CDMS_base (cleaned_columns tbl0) nofreqerr cS).
  { unfold CDMS_base. by rewrite Hcols6', Hcols6, Hcols5, Hcols4, Hcols1. }
  apply bind_inv in Hrun as (? & st8 & Hfreq & Hrun).
  apply (frequency_to_GHz_inv _ _ _ _ _ _ _ _ _ Hf) in Hfreq
    as (tbl7 & cF & cF' & Hf7 & Hmeta7 & Hmask7 & HcF & _ & HcF' & Hcols7).
  clear Hf. rename Hf7 into Hf.
  pose proof (fun k => frequency_source _ _ _ _ k cF' Hcols7) as Hsrc.
  table_step Hrun Hf tbl8 Hrename.
  apply rename_column_Ok in Hrename
    as (cL & HcL & _ & Hcols8 & Hmeta8 & Hmask8); [|done].
  table_step Hrun Hf tbl9 HA.
  unfold Table.getitem in HA.
  rewrite Hcols8, lookup_insert_eq in HA. cbn in HA.
  destruct (as_exponent cL) as [lg|] eqn:Hlg; [|done]. cbn in HA.
  apply setitem_Ok in HA as (old & _ & Hcols9 & Hmeta9 & Hmask9).
  rewrite Hcols8, insert_insert_eq in Hcols9.
  apply bind_inv in Hrun as (? & st11 & Henergy & Hrun).
  apply (energy_to_E_up_inv _ _ _ _ _ _ _ _ Hf) in Henergy
    as (tbl10 & cEl & cFq' & cG & el & fq & nE & mE & Hf10
        & Hmeta10 & Hmask10 & HcEl & _ & HcFq' & HcG & _ & Hel
        & Hfq & Hcols10).
  clear Hf. rename Hf10 into Hf.
  apply (_set_quantities_inv _ _ _ _ _ _ _ _ Hf) in Hrun
    as (s' & Hfinal & Hframe).
  rewrite Hcols9 in HcEl, HcFq', HcG, Hcols10.
  map_ne_in HcEl. map_ne_in HcG. map_ne_in HcFq'.
  rewrite (proj1 (Hsrc "FREQ"%string)) in HcFq'. injection HcFq' as <-.
  assert (Hread : forall k c,
    k ∉ ["FREQ"; "ERR"; "Frequency"; "Frequency Error"]%string ->
    k <> "Species"%string ->
    Table.columns tbl7 !! k = Some c -> cleaned_columns tbl0 !! k = Some c).
  { intros k c Hk Hk' Hc. rewrite (proj2 (Hsrc k) Hk), Hbase in Hc.
    by apply CDMS_base_source in Hc. }
  assert (HcE' : exists cE', nofreqerr = false ->
    exists cE, cleaned_columns tbl0 !! "ERR"%string = Some cE
               /\ column_imul cE 1e-3 = Ok cE'
               /\ Table.columns tbl7
                  = <["Frequency Error"%string := cE']>
                      (delete "ERR"%string
                         (<["Frequency"%string := cF']>
                            (delete "FREQ"%string (Table.columns tbl6'))))).
  { destruct nofreqerr.
    - exists cF'. done.
    - destruct Hcols7 as (cE & cE' & HcE & _ & HcE' & Hc).
      exists cE'. intros _. exists cE. split; [|done].
      rewrite Hbase in HcE. by apply CDMS_base_source in HcE. }
  destruct HcE' as (cE' & HcE').
  exists tbl10, s', w, key, sp, pf', cS, cF, cF', cE', cL, cG, cEl,
    lg, fq, el.
  eexists _, _, nE, mE.
  split; [done|]. split; [done|]. split; [done|].
  split.
  { rewrite Hmeta10, Hmeta9, Hmeta8, Hmeta7, Hmeta6', Hmeta6, Hmeta5, Hmeta4.
    by rewrite Hmeta1. }
  split; [congruence|].
  split.
  { intros k Hk. rewrite <- Hcols1. by apply Hpresent. }
  split.
  { rewrite Hcols5, Hcols4, Hcols1 in HcS.
    assert (Table.delete_all ["DR"; "TAG"; "QNFMT"; "MOLWT"; "Lab"]%string
              (cleaned_columns tbl0) !! "name"%string = Some cS) as Hc'.
    { destruct nofreqerr; [|done].
      by apply lookup_delete_Some in HcS as [_ HcS]. }
    rewrite lookup_delete_all in Hc'. by case_decide. }
  split.
  { rewrite Hbase in HcF. by apply CDMS_base_source in HcF. }
  split; [done|].
  split.
  { intros ->. destruct (HcE' eq_refl) as (cE & ? & ? & _). eauto. }
  assert (Hnot : forall k, k ∈ ["LGAIJ"; "GUP"; "ELO"]%string ->
    (k ∉ ["FREQ"; "ERR"; "Frequency"; "Frequency Error"]%string)
    /\ k <> "Species"%string).
  { intros k Hk. repeat (apply elem_of_cons in Hk as [->|Hk]);
      [| | |by apply elem_of_nil in Hk];
      (split; [|done]); intros Hin;
      repeat (apply elem_of_cons in Hin as [[=]|Hin]);
      by apply elem_of_nil in Hin. }
  split.
  { destruct (Hnot "LGAIJ"%string) as [? ?]; [repeat first [by left | right]|].
    by apply Hread. }
  split.
  { destruct (Hnot "GUP"%string) as [? ?]; [repeat first [by left | right]|].
    by apply Hread. }
  split.
  { destruct (Hnot "ELO"%string) as [? ?]; [repeat first [by left | right]|].
    by apply Hread. }
  repeat (split; [done|]).
  rewrite Hcols10. unfold final_columns. rewrite <- Hbase.
  destruct nofreqerr.
  - by rewrite Hcols7.
  - destruct (HcE' eq_refl) as (cE & _ & _ & ->). done.
Qed.

(** ** The normalised table, column by column *)

Lemma final_columns_lookup (base : gmap string Column) (nofreqerr : bool)
  (intensity : string) (cF' cE' cA cEup cG : Column) :
  intensity ∈ ["LGINT"; "LGAIJ"]%string ->
  let cols := final_columns base nofreqerr intensity cF' cE' cA cEup cG in
  cols !! "Frequency"%string = Some cF'
  /\ cols !! "A_ul"%string = Some cA
  /\ cols !! "E_up"%string = Some cEup
  /\ cols !! "g_up"%string = Some cG
  /\ (nofreqerr = false -> cols !! "Frequency Error"%string = Some cE')
  /\ cols !! "FREQ"%string = None
  /\ cols !! intensity = None
  /\ cols !! "ELO"%string = None
  /\ cols !! "GUP"%string = None
  /\ cols !! "ERR"%string = (if nofreqerr then base !! "ERR"%string else None)
  /\ forall k,
       k ∉ ["Frequency"; "Frequency Error"; "A_ul"; "E_up"; "g_up"; "FREQ";
            "ERR"; "ELO"; "GUP"]%string ->
       k <> intensity -> cols !! k = base !! k.
Proof.
  intros Hint cols. subst cols. unfold final_columns.
  assert (intensity = "LGINT"%string \/ intensity = "LGAIJ"%string) as [-> | ->].
  { repeat (apply elem_of_cons in Hint as [->|Hint]); auto.
    by apply elem_of_nil in Hint. }
  all: repeat split; try (intros ->); try (destruct nofreqerr);
    try (by simplify_map_eq).
  all: intros k Hk Hk';
    assert (k <> "Frequency"%string /\ k <> "Frequency Error"%string
            /\ k <> "A_ul"%string /\ k <> "E_up"%string /\ k <> "g_up"%string
            /\ k <> "FREQ"%string /\ k <> "ERR"%string /\ k <> "ELO"%string
            /\ k <> "GUP"%string) as (? & ? & ? & ? & ? & ? & ? & ? & ?)
      by (repeat split; intros ->; apply Hk; repeat first [by left | right]);
    by simplify_map_eq.
Qed.

Lemma frequency_in_GHz_final (tbl0 tbl' : Table.t) (nofreqerr : bool)
  base intensity cF cF' cE' cA cEup cG :
  intensity ∈ ["LGINT"; "LGAIJ"]%string ->
  cleaned_columns tbl0 !! "FREQ"%string = Some cF ->
  column_imul cF 1e-3 = Ok cF' ->
  (nofreqerr = false ->
   exists cE, cleaned_columns tbl0 !! "ERR"%string = Some cE
              /\ column_imul cE 1e-3 = Ok cE') ->
  Table.columns tbl'
  = final_columns base nofreqerr intensity cF' cE' cA cEup cG ->
  frequency_in_GHz tbl0 tbl' nofreqerr.
Proof.
  intros Hint HcF HcF' HcE Hcols.
  destruct (final_columns_lookup base nofreqerr intensity cF' cE' cA cEup cG Hint)
    as (HF & _ & _ & _ & HE & _).
  apply column_imul_Ok in HcF' as (fr & Hfr & Hfr' & _).
  exists cF, cF', fr. rewrite Hcols.
  split; [by apply cleaned_columns_source|]. do 3 (split; [done|]).
  intros Hnf. destruct (HcE Hnf) as (cE & HcE0 & HcE').
  apply column_imul_Ok in HcE' as (er & Her & Her' & _).
  exists cE, cE', er. split; [by apply cleaned_columns_source|]. auto.
Qed.

(** ** Frequencies *)

(** C8: when a normaliser returns, the Frequency column of the table holds
    each FREQ cell of the response times 1e-3 (the binary64 product with the
    double nearest to 0.001; a missing cell stays missing), and when the
    frequency error is kept, the Frequency Error column holds each ERR cell
    times 1e-3. *)
Theorem normalised_frequency_is_MHz_times_1e_3 `{Externals} `{Catalogues}
  (r : ref) (tbl0 : Table.t) (species : option value)
  (pf : option PartitionFunction.t) (use_cached nofreqerr : bool)
  (st st' : state) :
  store st !! r = Some tbl0 ->
  (format_JPL r species nofreqerr pf st = (Ok (), st') ->
   exists tbl', store st' !! r = Some tbl'
                /\ frequency_in_GHz tbl0 tbl' nofreqerr)
  /\ (format_CDMS r use_cached nofreqerr st = (Ok (), st') ->
      exists tbl', store st' !! r = Some tbl'
                   /\ frequency_in_GHz tbl0 tbl' nofreqerr).
Proof.
  intros Hr. split; intros Hrun.
  - apply (format_JPL_inv _ _ _ _ _ _ _ Hr) in Hrun
      as (tbl' & s' & sp & pf' & n & cF & cF' & cE' & cL & cG & cEl & lg & fq
          & gu & el & nA & mA & nE & mE & _ & Hf & _ & _ & _ & _ & HcF & HcF'
          & HcE & _ & _ & _ & _ & _ & _ & _ & Hcols).
    exists tbl'. split.
    + destruct Hf as (_ & _ & -> & _). by rewrite lookup_insert_eq.
    + eapply frequency_in_GHz_final; [| done..]. in_list.
  - apply (format_CDMS_inv _ _ _ _ _ _ Hr) in Hrun
      as (tbl' & s' & w & key & sp & pf' & cS & cF & cF' & cE' & cL & cG & cEl
          & lg & fq & el & nA & mA & nE & mE & _ & Hf & _ & _ & _ & _ & _
          & HcF & HcF' & HcE & _ & _ & _ & _ & _ & _ & Hcols).
    exists tbl'. split.
    + destruct Hf as (_ & _ & -> & _). by rewrite lookup_insert_eq.
    + eapply frequency_in_GHz_final; [| done..]. in_list.
Qed.

(** ** Array arithmetic, row by row *)

Lemma row_broadcast1 (f : float -> float) (x : operand) (i : nat) :
  row i (broadcast1 f x) = cell1 f <$> row i x.
Proof. destruct x as [v|a]; cbn; [done|]. by rewrite list_lookup_fmap. Qed.

Lemma row_broadcast2 (f : float -> float -> float) (x y : operand) (i : nat) :
  row i (broadcast2 f x y)
  = cx ← row i x; cy ← row i y; Some (cell2 f cx cy).
Proof.
  destruct x as [v|a], y as [w|b]; cbn.
  - done.
  - rewrite list_lookup_fmap. by destruct (b !! i) as [[?|]|].
  - rewrite list_lookup_fmap. by destruct (a !! i) as [[?|]|].
  - rewrite lookup_zip_with. by destruct (a !! i), (b !! i).
Qed.

Lemma row_present1 (f : float -> float) (x : operand) (i : nat) (v : float) :
  row i x = Some (Some v) -> row i (broadcast1 f x) = Some (Some (f v)).
Proof. intros Hx. by rewrite row_broadcast1, Hx. Qed.

Lemma row_present2 (f : float -> float -> float) (x y : operand) (i : nat)
  (v w : float) :
  row i x = Some (Some v) -> row i y = Some (Some w) ->
  row i (broadcast2 f x y) = Some (Some (f v w)).
Proof. intros Hx Hy. by rewrite row_broadcast2, Hx, Hy. Qed.

Lemma row_lit `{Externals} (v : float) (i : nat) :
  row i (lit v) = Some (Some v).
Proof. done. Qed.

Ltac rows :=
  repeat first
    [ eassumption
    | apply row_lit
    | apply row_present2
    | apply row_present1 ].

Lemma row_wavenumber_to_Kelvin `{Externals} (x : operand) (i : nat) (v : float) :
  row i x = Some (Some v) ->
  row i (wavenumber_to_Kelvin x) = Some (Some (wavenumber_to_Kelvin v)).
Proof.
  intros Hx. unfold wavenumber_to_Kelvin.
  cbn [lit aadd asub amul adiv aneg aexp apow float_Arith operand_Arith].
  rows.
Qed.

Lemma row_logint_to_EinsteinA `{Externals} (lg nu gu el q : operand) (i : nat)
  (l n g e q0 : float) :
  row i lg = Some (Some l) -> row i nu = Some (Some n) ->
  row i gu = Some (Some g) -> row i el = Some (Some e) ->
  row i q = Some (Some q0) ->
  row i (logint_to_EinsteinA lg nu gu el q)
  = Some (Some (logint_to_EinsteinA l n g e q0)).
Proof.
  intros Hl Hn Hg He Hq. unfold logint_to_EinsteinA, wavenumber_to_Kelvin.
  cbn [lit aadd asub amul adiv aneg aexp apow float_Arith operand_Arith].
  rows.
Qed.

Lemma as_operand_Array (col : Column) (x : operand) :
  as_operand col = Ok x -> exists a, x = Array a.
Proof.
  unfold as_operand. destruct (data col); intros [= <-]; eauto.
Qed.

Lemma as_exponent_Array (col : Column) (x : operand) :
  as_exponent col = Ok x -> exists a, x = Array a /\ data col = FloatCells a.
Proof.
  unfold as_exponent, as_operand.
  destruct (data col); intros [= <-]; eauto.
Qed.

Lemma broadcast2_Array_r (f : float -> float -> float) (x : operand)
  (b : list (option float)) :
  exists a, broadcast2 f x (Array b) = Array a.
Proof. destruct x; cbn; eauto. Qed.

Lemma broadcast2_Array_l (f : float -> float -> float) (y : operand)
  (a : list (option float)) :
  exists b, broadcast2 f (Array a) y = Array b.
Proof. destruct y; cbn; eauto. Qed.

Lemma of_operand_Array (n : nat) (m : bool) (a : list (option float)) :
  data (of_operand n m (Array a)) = FloatCells a.
Proof. done. Qed.

Lemma as_operand_float_cells (col : Column) (a : list (option float)) :
  as_operand col = Ok (Array a) -> float_cells col = Some a.
Proof. unfold float_cells. by intros ->. Qed.

Lemma column_imul_float_cells (col col' : Column) (k : float) a :
  column_imul col k = Ok col' -> as_operand col' = Ok (Array a) ->
  exists fr, data col = FloatCells fr
             /\ a = cell1 (fun x => x * k)%float <$> fr.
Proof.
  intros (fr & Hfr & Hfr' & _)%column_imul_Ok. unfold as_operand.
  rewrite Hfr'. intros [= <-]. eauto.
Qed.

(** ** Einstein A coefficients *)

Lemma format_JPL_A_ul `{Externals} `{Catalogues} (r : ref) (tbl0 : Table.t)
  species nofreqerr pf st st' :
  store st !! r = Some tbl0 ->
  format_JPL r species nofreqerr pf st = (Ok (), st') ->
  exists tbl', store st' !! r = Some tbl' /\ JPL_A_ul tbl0 tbl'.
Proof.
  intros Hr Hrun.
  apply (format_JPL_inv _ _ _ _ _ _ _ Hr) in Hrun
    as (tbl' & s' & sp & pf' & n & cF & cF' & cE' & cL & cG & cEl & lg & fq
        & gu & el & nA & mA & nE & mE & _ & Hf & _ & Hmeta & _ & _ & HcF
        & HcF' & _ & HcL & HcG & HcEl & Hlg & Hfq & Hgu & Hel & Hcols).
  exists tbl'. split.
  { destruct Hf as (_ & _ & -> & _). by rewrite lookup_insert_eq. }
  destruct (final_columns_lookup
              (JPL_base (cleaned_columns tbl0) nofreqerr (column_of_repeat sp n))
              nofreqerr "LGINT" cF' cE'
              (of_operand nA mA
                 (logint_to_EinsteinA lg (fq * lit 1e3)%arith gu el
                    (lit (PartitionFunction.function pf' 300))))
              (of_operand nE mE
                 (wavenumber_to_Kelvin el + lit h * fq * lit 1e9 / lit k_B)%arith)
              cG ltac:(in_list)) as (_ & HA & _).
  rewrite <- Hcols in HA.
  apply as_exponent_Array in Hlg as (lga & -> & HcLd).
  destruct (as_operand_Array _ _ Hfq) as (fqa & ->).
  destruct (as_operand_Array _ _ Hgu) as (gua & ->).
  destruct (as_operand_Array _ _ Hel) as (ela & ->).
  destruct (column_imul_float_cells _ _ _ _ HcF' Hfq) as (fr & Hfr & ->).
  destruct (broadcast2_Array_r PrimFloat.div
    ((lit 1.16395e-20 * (Array (cell1 (fun x => x * 1e-3)%float <$> fr) * lit 1e3) ** lit 3
      * (lit 2.40251e4 * lit 10 ** Array lga
         * lit (PartitionFunction.function pf' 300)
         / (Array (cell1 (fun x => x * 1e-3)%float <$> fr) * lit 1e3)
         / (aexp (- wavenumber_to_Kelvin (Array ela) / lit 300)
            - aexp (- (wavenumber_to_Kelvin (Array ela)
                       + lit h * (Array (cell1 (fun x => x * 1e-3)%float <$> fr) * lit 1e3)
                         * lit 1e6 / lit k_B) / lit 300))))%arith)
    gua) as (a & Ha).
  change (logint_to_EinsteinA (Array lga)
            (Array (cell1 (fun x => x * 1e-3)%float <$> fr) * lit 1e3)%arith
            (Array gua) (Array ela) (lit (PartitionFunction.function pf' 300))
          = Array a) in Ha.
  rewrite Ha in HA.
  exists pf', (PartitionFunction.function pf' 300), cL, cF, cG, cEl.
  eexists _, lga, fr, gua, ela, a.
  split; [rewrite Hmeta; by simplify_map_eq|].
  split; [done|].
  split; [by apply cleaned_columns_source|]. split; [done|].
  split; [by apply cleaned_columns_source|]. split; [done|].
  split; [by apply cleaned_columns_source|].
  split; [by apply as_operand_float_cells|].
  split; [by apply cleaned_columns_source|].
  split; [by apply as_operand_float_cells|].
  split; [exact HA|]. split; [done|].
  intros i l f g e Hl Hf' Hg He.
  change (a !! i) with (row i (Array a)). rewrite <- Ha.
  apply row_logint_to_EinsteinA; try done.
  apply row_present2; [|done]. cbn. by rewrite list_lookup_fmap, Hf'.
Qed.

Lemma format_CDMS_A_ul `{Externals} `{Catalogues} (r : ref) (tbl0 : Table.t)
  use_cached nofreqerr st st' :
  store st !! r = Some tbl0 ->
  format_CDMS r use_cached nofreqerr st = (Ok (), st') ->
  exists tbl', store st' !! r = Some tbl' /\ CDMS_A_ul tbl0 tbl'.
Proof.
  intros Hr Hrun.
  apply (format_CDMS_inv _ _ _ _ _ _ Hr) in Hrun
    as (tbl' & s' & w & key & sp & pf' & cS & cF & cF' & cE' & cL & cG & cEl
        & lg & fq & el & nA & mA & nE & mE & _ & Hf & _ & _ & _ & _ & _
        & _ & _ & _ & HcL & _ & _ & Hlg & _ & _ & Hcols).
  exists tbl'. split.
  { destruct Hf as (_ & _ & -> & _). by rewrite lookup_insert_eq. }
  destruct (final_columns_lookup
              (CDMS_base (cleaned_columns tbl0) nofreqerr cS)
              nofreqerr "LGAIJ" cF' cE'
              (of_operand nA mA (lit 10 ** lg)%arith)
              (of_operand nE mE
                 (wavenumber_to_Kelvin el + lit h * fq * lit 1e9 / lit k_B)%arith)
              cG ltac:(in_list)) as (_ & HA & _).
  rewrite <- Hcols in HA.
  apply as_exponent_Array in Hlg as (lga & -> & HcLd).
  exists cL. eexists _, lga.
  split; [by apply cleaned_columns_source|]. split; [done|].
  split; [exact HA|]. done.
Qed.


(** ** Upper state energies *)

Lemma E_up_in_K_final `{Externals} (tbl0 tbl' : Table.t) (nofreqerr : bool)
  base intensity cF cF' cE' cA cEl cG fq el nE mE :
  intensity ∈ ["LGINT"; "LGAIJ"]%string ->
  cleaned_columns tbl0 !! "FREQ"%string = Some cF ->
  column_imul cF 1e-3 = Ok cF' ->
  cleaned_columns tbl0 !! "ELO"%string = Some cEl ->
  as_operand cF' = Ok fq -> as_operand cEl = Ok el ->
  Table.columns tbl'
  = final_columns base nofreqerr intensity cF' cE' cA
      (of_operand nE mE
         (wavenumber_to_Kelvin el + lit h * fq * lit 1e9 / lit k_B)%arith)
      cG ->
  E_up_in_K tbl0 tbl'.
Proof.
  intros Hint HcF HcF' HcEl Hfq Hel Hcols.
  destruct (final_columns_lookup base nofreqerr intensity cF' cE' cA
              (of_operand nE mE
                 (wavenumber_to_Kelvin el + lit h * fq * lit 1e9 / lit k_B)%arith)
              cG Hint) as (_ & _ & HU & _).
  rewrite <- Hcols in HU.
  destruct (as_operand_Array _ _ Hfq) as (fqa & ->).
  destruct (as_operand_Array _ _ Hel) as (ela & ->).
  destruct (column_imul_float_cells _ _ _ _ HcF' Hfq) as (fr & Hfr & ->).
  destruct (broadcast2_Array_l PrimFloat.add
    (lit h * Array (cell1 (fun x => x * 1e-3)%float <$> fr) * lit 1e9
     / lit k_B)%arith
    (cell1 (fun u => u / k_B)%float
       <$> (cell1 (fun u => u * c)%float
              <$> (cell1 (fun u => u * h)%float <$> ela)))) as (u & Hu).
  change (wavenumber_to_Kelvin (Array ela)
          + lit h * Array (cell1 (fun x => x * 1e-3)%float <$> fr) * lit 1e9
            / lit k_B = Array u)%arith in Hu.
  rewrite Hu in HU.
  exists cEl, cF. eexists _, ela, fr, u.
  split; [by apply cleaned_columns_source|].
  split; [by apply as_operand_float_cells|].
  split; [by apply cleaned_columns_source|]. split; [done|].
  split; [exact HU|]. split; [done|].
  intros i e f He Hf.
  change (u !! i) with (row i (Array u)). rewrite <- Hu.
  apply row_present2.
  - by apply row_wavenumber_to_Kelvin.
  - rows. cbn. by rewrite list_lookup_fmap, Hf.
Qed.

(** ** What a normaliser leaves of the response *)

Lemma final_columns_None (base : gmap string Column) (nofreqerr : bool)
  (intensity : string) (cF' cE' cA cEup cG : Column) (k : string) :
  base !! k = None ->
  k ∉ ["Frequency"; "Frequency Error"; "A_ul"; "E_up"; "g_up"]%string ->
  final_columns base nofreqerr intensity cF' cE' cA cEup cG !! k = None.
Proof.
  intros Hbase Hk.
  assert (k <> "Frequency"%string /\ k <> "Frequency Error"%string
          /\ k <> "A_ul"%string /\ k <> "E_up"%string /\ k <> "g_up"%string)
    as (? & ? & ? & ? & ?)
    by (repeat split; intros ->; apply Hk; repeat first [by left | right]).
  unfold final_columns.
  repeat first [ rewrite lookup_insert_ne by done
               | apply lookup_delete_None; right ].
  destruct nofreqerr;
    repeat first [ rewrite lookup_insert_ne by done
                 | apply lookup_delete_None; right ]; done.
Qed.

Lemma base_None (cols1 : gmap string Column) (nofreqerr : bool) (cS : Column)
  (k : string) :
  k <> "Species"%string ->
  (cols1 !! k = None
   \/ k ∈ ["DR"; "TAG"; "QNFMT"; "MOLWT"; "Lab"; "name"]%string
   \/ (nofreqerr = true /\ k = "ERR"%string)) ->
  (k ∈ ["MOLWT"; "Lab"; "name"]%string \/
   JPL_base cols1 nofreqerr cS !! k = None)
  /\ CDMS_base cols1 nofreqerr cS !! k = None.
Proof.
  intros Hk Hwhy. unfold JPL_base, CDMS_base.
  destruct (decide (k ∈ ["MOLWT"; "Lab"; "name"]%string)) as [Hin|Hin].
  - split; [by left|].
    destruct (decide (k = "name"%string)) as [->|Hname];
      [by rewrite lookup_delete_eq|].
    rewrite lookup_delete_ne, lookup_insert_ne by done.
    assert (Table.delete_all ["DR"; "TAG"; "QNFMT"; "MOLWT"; "Lab"]%string cols1
              !! k = None) as Hdel.
    { rewrite lookup_delete_all. rewrite decide_True; [done|].
      repeat (apply elem_of_cons in Hin as [->|Hin]);
        [in_list..|by apply elem_of_nil in Hin]. }
    destruct nofreqerr; [|done]. apply lookup_delete_None. by right.
  - assert (k <> "name"%string) by (intros ->; apply Hin; in_list).
    assert (Hj : Table.delete_all ["DR"; "TAG"; "QNFMT"]%string cols1 !! k = None
                 \/ (nofreqerr = true /\ k = "ERR"%string)).
    { destruct Hwhy as [Hnone|[Hrm|Herr]]; [| |by right].
      - left. rewrite lookup_delete_all. by case_decide.
      - left. rewrite lookup_delete_all. rewrite decide_True; [done|].
        repeat (apply elem_of_cons in Hrm as [->|Hrm]);
          [first [in_list | exfalso; apply Hin; in_list]..
          |by apply elem_of_nil in Hrm]. }
    assert (Hc : Table.delete_all ["DR"; "TAG"; "QNFMT"; "MOLWT"; "Lab"]%string
                   cols1 !! k = None
                 \/ (nofreqerr = true /\ k = "ERR"%string)).
    { destruct Hwhy as [Hnone|[Hrm|Herr]]; [| |by right].
      - left. rewrite lookup_delete_all. by case_decide.
      - left. rewrite lookup_delete_all. rewrite decide_True; [done|].
        repeat (apply elem_of_cons in Hrm as [->|Hrm]);
          [first [in_list | exfalso; apply Hin; in_list]..
          |by apply elem_of_nil in Hrm]. }
    split; [right|rewrite lookup_delete_ne by done];
      rewrite lookup_insert_ne by done.
    + destruct Hj as [Hj|[-> ->]]; [|by rewrite lookup_delete_eq].
      destruct nofreqerr; [|done]. apply lookup_delete_None. by right.
    + destruct Hc as [Hc|[-> ->]]; [|by rewrite lookup_delete_eq].
      destruct nofreqerr; [|done]. apply lookup_delete_None. by right.
Qed.

Lemma final_columns_shape (cols1 base : gmap string Column)
  (nofreqerr : bool) (intensity : string) (cS cF' cE' cA cEup cG : Column)
  (removed : list string) (tbl0 : Table.t) :
  intensity ∈ ["LGINT"; "LGAIJ"]%string ->
  base !! "Species"%string = Some cS ->
  (forall k, k <> "Species"%string ->
     (cleaned_columns tbl0 !! k = None
      \/ k ∈ ["DR"; "TAG"; "QNFMT"; "MOLWT"; "Lab"; "name"]%string
      \/ (nofreqerr = true /\ k = "ERR"%string)) ->
     k ∈ removed -> base !! k = None) ->
  (forall k, k <> "Species"%string -> cleaned_columns tbl0 !! k = None ->
     base !! k = None) ->
  (forall k, k ∈ removed ->
     k ∈ ["DR"; "TAG"; "QNFMT"; "MOLWT"; "Lab"; "name"; "FREQ"; "ERR";
          "ELO"; "GUP"]%string \/ k = intensity) ->
  let cols := final_columns base nofreqerr intensity cF' cE' cA cEup cG in
  (forall k, k ∈ removed -> cols !! k = None)
  /\ (Table.has_mask tbl0 = true ->
      forall k, k ∈ Table.masked_columns tbl0 ->
        k ∉ ["Species"; "Frequency"; "Frequency Error"; "A_ul"; "E_up";
             "g_up"]%string ->
        cols !! k = None)
  /\ (forall k, k ∈ ["Species"; "Frequency"; "A_ul"; "E_up"; "g_up"]%string ->
        is_Some (cols !! k))
  /\ (nofreqerr = false -> is_Some (cols !! "Frequency Error"%string)).
Proof.
  intros Hint HS Hrm Hmasked Hremoved cols.
  destruct (final_columns_lookup base nofreqerr intensity cF' cE' cA cEup cG Hint)
    as (HF & HA & HU & HG & HE & HFREQ & HI & HELO & HGUP & HERR & Hframe).
  fold cols in HF, HA, HU, HG, HE, HFREQ, HI, HELO, HGUP, HERR, Hframe.
  assert (Hi : intensity <> "Species"%string
               /\ (intensity ∉ ["Frequency"; "Frequency Error"; "A_ul";
                               "E_up"; "g_up"]%string)).
  { repeat (apply elem_of_cons in Hint as [->|Hint]);
      [| |by apply elem_of_nil in Hint];
      (split; [done|]); intros Hin;
      repeat (apply elem_of_cons in Hin as [[=]|Hin]);
      by apply elem_of_nil in Hin. }
  split; [|split; [|split]].
  - intros k Hk. destruct (Hremoved k Hk) as [Hin| ->]; [|done].
    repeat (apply elem_of_cons in Hin as [->|Hin]);
      [..|by apply elem_of_nil in Hin]; try done.
    1-6: apply final_columns_None;
      [apply Hrm; [done|right; left; in_list|done]
      |intros Hin; repeat (apply elem_of_cons in Hin as [[=]|Hin]);
       by apply elem_of_nil in Hin].
    rewrite HERR. destruct nofreqerr; [|done].
    apply Hrm; [done|right; right; done|done].
  - intros Hmask k Hk Hcanon. apply final_columns_None.
    + apply Hmasked; [intros ->; apply Hcanon; in_list|].
      by apply cleaned_columns_masked.
    + intros Hin. apply Hcanon. by right.
  - intros k Hk.
    repeat (apply elem_of_cons in Hk as [->|Hk]);
      [..|by apply elem_of_nil in Hk]; try (by eexists).
    rewrite Hframe; [by eexists| |by destruct Hi].
    intros Hin; repeat (apply elem_of_cons in Hin as [[=]|Hin]);
      by apply elem_of_nil in Hin.
  - intros Hnf. rewrite (HE Hnf). by eexists.
Qed.

Lemma format_JPL_in_place `{Externals} `{Catalogues} (r : ref)
  (tbl0 : Table.t) species nofreqerr pf st st' :
  store st !! r = Some tbl0 ->
  format_JPL r species nofreqerr pf st = (Ok (), st') ->
  normalised_in_place
    ["DR"; "TAG"; "QNFMT"; "FREQ"; "ERR"; "LGINT"; "ELO"; "GUP"]%string
    JPL_A_ul r tbl0 nofreqerr st st'.
Proof.
  intros Hr Hrun.
  destruct (format_JPL_A_ul _ _ _ _ _ _ _ Hr Hrun) as (tblA & HtblA & HAul).
  apply (format_JPL_inv _ _ _ _ _ _ _ Hr) in Hrun
    as (tbl' & s' & sp & pf' & n & cF & cF' & cE' & cL & cG & cEl & lg & fq
        & gu & el & nA & mA & nE & mE & _ & Hf & _ & _ & _ & _ & HcF
        & HcF' & HcE & _ & _ & HcEl & _ & Hfq & _ & Hel & Hcols).
  destruct Hf as (Hself & Htable & Hstore & _).
  rewrite Hstore, lookup_insert_eq in HtblA. injection HtblA as <-.
  exists tbl'. split; [by rewrite Hself|]. split; [done|].
  rewrite Hcols.
  pose proof (final_columns_shape (cleaned_columns tbl0)
    (JPL_base (cleaned_columns tbl0) nofreqerr (column_of_repeat sp n))
    nofreqerr "LGINT" (column_of_repeat sp n) cF' cE'
    (of_operand nA mA
       (logint_to_EinsteinA lg (fq * lit 1e3)%arith gu el
          (lit (PartitionFunction.function pf' 300))))
    (of_operand nE mE
       (wavenumber_to_Kelvin el + lit h * fq * lit 1e9 / lit k_B)%arith)
    cG ["DR"; "TAG"; "QNFMT"; "FREQ"; "ERR"; "LGINT"; "ELO"; "GUP"]%string
    tbl0) as Hshape.
  cbv zeta in Hshape.
  destruct Hshape as (H1 & H2 & H3 & H4).
  - in_list.
  - unfold JPL_base. by rewrite lookup_insert_eq.
  - intros k Hk Hwhy Hin.
    destruct (base_None (cleaned_columns tbl0) nofreqerr
                (column_of_repeat sp n) k Hk Hwhy) as [[Hbad|Hnone] _];
      [|done].
    repeat (apply elem_of_cons in Hbad as [->|Hbad]);
      [..|by apply elem_of_nil in Hbad];
      repeat (apply elem_of_cons in Hin as [[=]|Hin]);
      by apply elem_of_nil in Hin.
  - intros k Hk Hnone. unfold JPL_base. rewrite lookup_insert_ne by done.
    assert (Table.delete_all ["DR"; "TAG"; "QNFMT"]%string
              (cleaned_columns tbl0) !! k = None) as Hdel
      by (rewrite lookup_delete_all; by case_decide).
    destruct nofreqerr; [|done]. apply lookup_delete_None. by right.
  - intros k Hk. repeat (apply elem_of_cons in Hk as [->|Hk]);
      [..|by apply elem_of_nil in Hk]; first [by right | left; in_list].
  - repeat (split; [done|]). split; [|split; [done|]].
    + eapply frequency_in_GHz_final; [|done..]. in_list.
    + eapply (E_up_in_K_final tbl0 tbl'); [|done..]. in_list.
Qed.

Lemma format_CDMS_in_place `{Externals} `{Catalogues} (r : ref)
  (tbl0 : Table.t) use_cached nofreqerr st st' :
  store st !! r = Some tbl0 ->
  format_CDMS r use_cached nofreqerr st = (Ok (), st') ->
  normalised_in_place
    ["DR"; "TAG"; "QNFMT"; "MOLWT"; "Lab"; "name"; "FREQ"; "ERR"; "LGAIJ";
     "ELO"; "GUP"]%string
    CDMS_A_ul r tbl0 nofreqerr st st'.
Proof.
  intros Hr Hrun.
  destruct (format_CDMS_A_ul _ _ _ _ _ _ Hr Hrun) as (tblA & HtblA & HAul).
  apply (format_CDMS_inv _ _ _ _ _ _ Hr) in Hrun
    as (tbl' & s' & w & key & sp & pf' & cS & cF & cF' & cE' & cL & cG & cEl
        & lg & fq & el & nA & mA & nE & mE & _ & Hf & _ & _ & _ & _ & _
        & HcF & HcF' & HcE & _ & _ & HcEl & _ & Hfq & Hel & Hcols).
  destruct Hf as (Hself & Htable & Hstore & _).
  rewrite Hstore, lookup_insert_eq in HtblA. injection HtblA as <-.
  exists tbl'. split; [by rewrite Hself|]. split; [done|].
  rewrite Hcols.
  pose proof (final_columns_shape (cleaned_columns tbl0)
    (CDMS_base (cleaned_columns tbl0) nofreqerr cS)
    nofreqerr "LGAIJ" cS cF' cE'
    (of_operand nA mA (lit 10 ** lg)%arith)
    (of_operand nE mE
       (wavenumber_to_Kelvin el + lit h * fq * lit 1e9 / lit k_B)%arith)
    cG ["DR"; "TAG"; "QNFMT"; "MOLWT"; "Lab"; "name"; "FREQ"; "ERR"; "LGAIJ";
        "ELO"; "GUP"]%string
    tbl0) as Hshape.
  cbv zeta in Hshape.
  destruct Hshape as (H1 & H2 & H3 & H4).
  - in_list.
  - unfold CDMS_base. rewrite lookup_delete_ne by done.
    by rewrite lookup_insert_eq.
  - intros k Hk Hwhy Hin.
    by destruct (base_None (cleaned_columns tbl0) nofreqerr cS k Hk Hwhy)
      as [_ Hnone].
  - intros k Hk Hnone.
    by destruct (base_None (cleaned_columns tbl0) nofreqerr cS k Hk
                   (or_introl Hnone)) as [_ Hnone'].
  - intros k Hk. repeat (apply elem_of_cons in Hk as [->|Hk]);
      [..|by apply elem_of_nil in Hk]; first [by right | left; in_list].
  - repeat (split; [done|]). split; [|split; [done|]].
    + eapply frequency_in_GHz_final; [|done..]. in_list.
    + eapply (E_up_in_K_final tbl0 tbl'); [|done..]. in_list.
Qed.


(** ** Species lookup *)

Lemma list_index_None (x : value) (l : list value) :
  list_index x l = None <-> forall y, y ∈ l -> value_eqb y x = false.
Proof.
  induction l as [|z l IH]; cbn.
  - split; [|done]. intros _ y Hy. by apply elem_of_nil in Hy.
  - destruct (value_eqb z x) eqn:Hz.
    + split; [done|]. intros Hall. rewrite Hall in Hz; [done|by left].
    + destruct (list_index x l) as [i|]; cbn.
      * split; [done|]. intros Hall.
        assert (Some i = None) as Hn; [|done].
        apply IH. intros y Hy. apply Hall. by right.
      * split; [|done]. intros _ y [->|Hy]%elem_of_cons; [done|].
        by apply IH.
Qed.


Lemma run_setattr_table (r : ref) tbl (st : state) :
  store st !! r = Some tbl ->
  exists st1,
    setattr "table" (ARef r) st = (Ok (), st1)
    /\ focused r tbl (store st) (<["table"%string := ARef r]> (self st))
         (stdout st) st1.
Proof.
  intros Hr. eexists. split; [reflexivity|].
  by apply (setattr_table_focused r tbl st _ ()).
Qed.

(** Step 1 and what precedes it, for both normalisers *)
Lemma run_to_step_2 (r : ref) tbl (st : state) :
  store st !! r = Some tbl ->
  exists st2,
    focused r (cleaned tbl) (store st)
      (<["table"%string := ARef r]> (self st)) (stdout st) st2
    /\ forall A (k : M A),
         (setattr "table" (ARef r);; remove_masked_columns;; k) st = k st2.
Proof.
  intros Hr. destruct (run_setattr_table r tbl st Hr) as (st1 & Hset & Hf1).
  destruct (remove_masked_columns_run _ _ _ _ _ _ Hf1) as (st2 & Hclean & Hf2).
  exists st2. split; [done|]. intros A k.
  rewrite (bind_Ok _ _ _ _ _ Hset). by rewrite (bind_Ok _ _ _ _ _ Hclean).
Qed.

Lemma format_JPL_species_not_found `{Externals} `{Catalogues} (r : ref)
  (tbl0 : Table.t) (nofreqerr : bool) (pf : option PartitionFunction.t)
  (st : state) (tag : Z) (tags : Column) :
  store st !! r = Some tbl0 ->
  response_tag (cleaned tbl0) = Ok tag ->
  Table.getitem "TAG" JPL_get_species_table = Ok tags ->
  (forall v, v ∈ tolist tags -> value_eqb v (VInt tag) = false) ->
  exists st',
    format_JPL r None nofreqerr pf st = (Raise JPL_not_found, st')
    /\ self st' !! "species"%string = self st !! "species"%string
    /\ store st' = <[r := cleaned tbl0]> (store st).
Proof.
  intros Hr Htag Htags Habsent. unfold format_JPL.
  destruct (run_to_step_2 r tbl0 st Hr) as (st2 & Hf & ->).
  exists st2.
  destruct (focused_table _ _ _ _ _ _ Hf) as [_ Ht].
  destruct Hf as (Hself & _ & Hstore & _).
  split; [|split; [|done]].
  - apply bind_Raise. unfold JPL_metadata.
    rewrite (bind_Ok _ _ st2 st2 (cleaned tbl0))
      by (unfold get_table; by rewrite Ht).
    rewrite (bind_Ok _ _ st2 st2 tag) by (unfold lift; by rewrite Htag).
    apply bind_Raise. unfold lift. rewrite Htags. cbn.
    by rewrite (proj2 (list_index_None _ _) Habsent).
  - by rewrite Hself, lookup_insert_ne.
Qed.

Lemma format_CDMS_species_not_found `{Externals} `{Catalogues} (r : ref)
  (tbl0 : Table.t) (use_cached nofreqerr : bool) (st : state)
  (cW cT : Column) (vW vT : value) (w t key : Z) (tags : Column) :
  store st !! r = Some tbl0 ->
  Table.getitem "MOLWT" (cleaned tbl0) = Ok cW ->
  np_unique_first cW = Ok vW -> py_int vW = Ok w ->
  Table.getitem "TAG" (cleaned tbl0) = Ok cT ->
  np_unique_first cT = Ok vT -> py_int vT = Ok t ->
  CDMS_tag w t = Ok key ->
  Table.getitem "tag" (CDMS_get_species_table use_cached) = Ok tags ->
  (forall v, v ∈ tolist tags -> value_eqb v (VInt key) = false) ->
  exists st',
    format_CDMS r use_cached nofreqerr st = (Raise CDMS_not_found, st')
    /\ self st' !! "species"%string = self st !! "species"%string
    /\ store st' = <[r := cleaned tbl0]> (store st).
Proof.
  intros Hr HcW HvW Hw HcT HvT Ht Hkey Htags Habsent. unfold format_CDMS.
  destruct (run_to_step_2 r tbl0 st Hr) as (st2 & Hf & ->).
  destruct (focused_table _ _ _ _ _ _ Hf) as [_ Htbl].
  destruct Hf as (Hself & _ & Hstore & _).
  eexists. split.
  - apply bind_Raise. unfold CDMS_metadata.
    rewrite (bind_Ok _ _ st2 st2 (cleaned tbl0))
      by (unfold get_table; by rewrite Htbl).
    rewrite (bind_Ok _ _ st2 st2 w)
      by (unfold lift; rewrite HcW; cbn; rewrite HvW; cbn; by rewrite Hw).
    erewrite bind_Ok by reflexivity.
    erewrite (bind_Ok _ _ _ _ key)
      by (unfold lift; rewrite HcT; cbn; rewrite HvT; cbn; rewrite Ht; cbn;
          by rewrite Hkey).
    erewrite bind_Ok by reflexivity.
    apply bind_Raise. unfold lift. rewrite Htags. cbn.
    by rewrite (proj2 (list_index_None _ _) Habsent).
  - cbn. rewrite !lookup_insert_ne by done.
    split; [|done]. by rewrite Hself, lookup_insert_ne.
Qed.

(** C6: when the tag of a JPL response, or the key made of weight and tag of
    a CDMS response, equals no cell of the tag column of the species table,
    the normaliser raises a ValueError (the one of [format_JPL] for a missing
    entry, the one of [list.index] in [format_CDMS]); no species is stored in
    [self] and the table gets no species. *)
Theorem absent_species_raises `{Externals} `{Catalogues}
  (r : ref) (tbl0 : Table.t) (use_cached nofreqerr : bool)
  (pf : option PartitionFunction.t) (st : state) :
  store st !! r = Some tbl0 ->
  (forall tag tags,
     response_tag (cleaned tbl0) = Ok tag ->
     Table.getitem "TAG" JPL_get_species_table = Ok tags ->
     (forall v, v ∈ tolist tags -> value_eqb v (VInt tag) = false) ->
     exists st',
       format_JPL r None nofreqerr pf st = (Raise JPL_not_found, st')
       /\ self st' !! "species"%string = self st !! "species"%string
       /\ store st' = <[r := cleaned tbl0]> (store st))
  /\ (forall cW cT vW vT w t key tags,
        Table.getitem "MOLWT" (cleaned tbl0) = Ok cW ->
        np_unique_first cW = Ok vW -> py_int vW = Ok w ->
        Table.getitem "TAG" (cleaned tbl0) = Ok cT ->
        np_unique_first cT = Ok vT -> py_int vT = Ok t ->
        CDMS_tag w t = Ok key ->
        Table.getitem "tag" (CDMS_get_species_table use_cached) = Ok tags ->
        (forall v, v ∈ tolist tags -> value_eqb v (VInt key) = false) ->
        exists st',
          format_CDMS r use_cached nofreqerr st = (Raise CDMS_not_found, st')
          /\ self st' !! "species"%string = self st !! "species"%string
          /\ store st' = <[r := cleaned tbl0]> (store st)).
Proof.
  intros Hr. split.
  - intros tag tags. by apply format_JPL_species_not_found.
  - intros cW cT vW vT w t key tags. by apply format_CDMS_species_not_found.
Qed.

(** ** A species without a partition function *)

(** C5 as the code has it: [format_JPL] takes an optional species and an
    optional partition function, and with a species but no partition
    function it raises the ValueError that asks for one, whatever the
    response holds; [format_CDMS] takes neither, and what [parse_datafile] is
    given as species and partition function has no effect on a CDMS file. *)
Theorem species_needs_partition_function `{Externals} `{Catalogues}
  (r : ref) (tbl0 : Table.t) (species : value) (nofreqerr : bool)
  (st : state) :
  store st !! r = Some tbl0 ->
  (exists st',
     format_JPL r (Some species) nofreqerr None st
     = (Raise missing_partition_function, st'))
  /\ (forall species' pf',
        parse_datafile (Some "CDMS"%string) species' pf' st
        = parse_datafile (Some "CDMS"%string) None None st).
Proof.
  intros Hr. split; [|done].
  unfold format_JPL.
  destruct (run_to_step_2 r tbl0 st Hr) as (st2 & Hf & ->).
  eexists. apply bind_Raise. unfold JPL_metadata.
  erewrite bind_Ok by reflexivity. reflexivity.
Qed.

Lemma species_needs_partition_function_witness :
  store (Sample.holding Sample.jpl_response) !! 1%positive
  = Some Sample.jpl_response
  /\ (exists st',
        format_JPL (H := Sample.externals) (H0 := Sample.catalogues)
          1%positive (Some (VStr "CO")) false None
          (Sample.holding Sample.jpl_response)
        = (Raise missing_partition_function, st')).
Proof.
  assert (Hr : store (Sample.holding Sample.jpl_response) !! 1%positive
               = Some Sample.jpl_response) by (vm_compute; reflexivity).
  split; [exact Hr|].
  exact (proj1 (@species_needs_partition_function Sample.externals
                  Sample.catalogues 1%positive Sample.jpl_response
                  (VStr "CO") false (Sample.holding Sample.jpl_response) Hr)).
Defined.

(** C5, the counterexample: a CDMS file parsed with a species and without a
    partition function does not raise the error that asks for a partition
    function; the call ends in [format_CDMS] with the KeyError of a column
    the file does not have. *)
Lemma CDMS_species_without_partition_function :
  (parse_datafile (H := Sample.externals) (H0 := Sample.catalogues)
     (Some "CDMS"%string) (Some (VStr "CO")) None Sample.with_file).1
  = Raise (KeyError "Lab")
  /\ Raise (A := ()) (KeyError "Lab") <> Raise missing_partition_function.
Proof. split; [vm_compute; reflexivity|done]. Qed.

(** ** An empty result *)



(** A response without rows and without a species from the caller makes
    [format_JPL] raise: the tag cannot be read. *)
Lemma format_JPL_zero_rows_raises `{Externals} `{Catalogues} (r : ref)
  (tbl0 : Table.t) (nofreqerr : bool) (pf : option PartitionFunction.t)
  (st : state) :
  store st !! r = Some tbl0 ->
  (forall k col, Table.columns tbl0 !! k = Some col -> column_len col = 0) ->
  is_Ok (format_JPL r None nofreqerr pf st).1 = false.
Proof.
  intros Hr Hzero. unfold format_JPL.
  destruct (run_to_step_2 r tbl0 st Hr) as (st2 & Hf & ->).
  destruct (focused_table _ _ _ _ _ _ Hf) as [_ Ht].
  assert (Htag : exists e, response_tag (cleaned tbl0) = Raise e).
  { unfold response_tag, Table.getitem.
    destruct (cleaned_fields tbl0) as (-> & _ & _).
    destruct (cleaned_columns tbl0 !! "TAG"%string) as [col|] eqn:Hcol;
      [|by eexists].
    apply cleaned_columns_source, Hzero in Hcol. cbn.
    unfold np_unique_first. unfold column_len, column_mask in Hcol.
    destruct (data col) as [[|]|[|]|[|]]; cbn in *; try done; by eexists. }
  destruct Htag as (e & Htag).
  erewrite bind_Raise; [done|]. unfold JPL_metadata.
  rewrite (bind_Ok _ _ st2 st2 (cleaned tbl0))
    by (unfold get_table; by rewrite Ht).
  apply bind_Raise. unfold lift. by rewrite Htag.
Qed.


(** ** The theorems on the sample catalogue *)

Lemma normalised_frequency_is_MHz_times_1e_3_witness :
  store (Sample.holding Sample.jpl_response) !! 1%positive
  = Some Sample.jpl_response
  /\ format_JPL (H := Sample.externals) (H0 := Sample.catalogues)
       1%positive None false None (Sample.holding Sample.jpl_response)
     = (Ok (), Sample.jpl_done)
  /\ exists tbl',
       store Sample.jpl_done !! 1%positive = Some tbl'
       /\ frequency_in_GHz Sample.jpl_response tbl' false.
Proof.
  assert (Hr : store (Sample.holding Sample.jpl_response) !! 1%positive
               = Some Sample.jpl_response) by (vm_compute; reflexivity).
  assert (Hrun : format_JPL (H := Sample.externals) (H0 := Sample.catalogues)
                   1%positive None false None
                   (Sample.holding Sample.jpl_response)
                 = (Ok (), Sample.jpl_done)) by (vm_compute; reflexivity).
  split; [exact Hr|]. split; [exact Hrun|].
  exact (proj1 (@normalised_frequency_is_MHz_times_1e_3 Sample.externals
                  Sample.catalogues 1%positive Sample.jpl_response None None
                  false false (Sample.holding Sample.jpl_response)
                  Sample.jpl_done Hr) Hrun).
Defined.



Lemma absent_species_raises_witness :
  store (Sample.holding Sample.jpl_unlisted) !! 1%positive
  = Some Sample.jpl_unlisted
  /\ response_tag (cleaned Sample.jpl_unlisted) = Ok 99001%Z
  /\ (forall v,
        v ∈ tolist (Sample.plain (IntCells [Some 28001%Z])) ->
        value_eqb v (VInt 99001) = false)
  /\ exists st',
       format_JPL (H := Sample.externals) (H0 := Sample.catalogues)
         1%positive None false None (Sample.holding Sample.jpl_unlisted)
       = (Raise JPL_not_found, st')
       /\ self st' !! "species"%string
          = self (Sample.holding Sample.jpl_unlisted) !! "species"%string
       /\ store st'
          = <[1%positive := cleaned Sample.jpl_unlisted]>
              (store (Sample.holding Sample.jpl_unlisted)).
Proof.
  assert (Hr : store (Sample.holding Sample.jpl_unlisted) !! 1%positive
               = Some Sample.jpl_unlisted) by (vm_compute; reflexivity).
  assert (Htag : response_tag (cleaned Sample.jpl_unlisted) = Ok 99001%Z)
    by (vm_compute; reflexivity).
  assert (Habsent : forall v,
            v ∈ tolist (Sample.plain (IntCells [Some 28001%Z])) ->
            value_eqb v (VInt 99001) = false).
  { intros v Hv. vm_compute in Hv.
    apply list_elem_of_singleton in Hv as ->. reflexivity. }
  split; [exact Hr|]. split; [exact Htag|]. split; [exact Habsent|].
  exact (proj1 (@absent_species_raises Sample.externals Sample.catalogues
                  1%positive Sample.jpl_unlisted false false None
                  (Sample.holding Sample.jpl_unlisted) Hr)
           99001%Z (Sample.plain (IntCells [Some 28001%Z])) Htag
           ltac:(vm_compute; reflexivity) Habsent).
Defined.

(** ** The CDMS key *)








(** ** A CDMS file *)

(** X1: [parse_datafile] never returns for a CDMS file.  It reads the file
    with the column names of its own schema, which has no column Lab (and
    names the intensity LGINT, not LGAIJ); [format_CDMS] removes Lab, so
    that the call raises, whatever the file holds. *)
Lemma parse_datafile_CDMS_raises `{Externals} `{Catalogues}
  (species : option value) (pf : option PartitionFunction.t) (st : state) :
  is_Ok (parse_datafile (Some "CDMS"%string) species pf st).1 = false.
Proof.
  unfold parse_datafile.
  rewrite bool_decide_eq_false_2 by done.
  rewrite bool_decide_eq_true_2 by done.
  unfold mbind at 1, M_bind at 1. unfold get_filename at 1.
  destruct (self st !! "filename"%string) as [[| f | | | | | | |]|]; try done.
  unfold mbind at 1, M_bind at 1, lift at 1, ascii_read.
  destruct (read_fixed_width f CDMS_starts.*2) as [cols|e]; [|done].
  cbn [mbind result_bind].
  set (tbl := {| Table.columns := list_to_map (zip CDMS_starts.*1 cols);
                 Table.colnames := (zip CDMS_starts.*1 cols).*1;
                 Table.masked := false; Table.meta := ∅ |}).
  unfold mbind at 1, M_bind at 1, alloc at 1.
  set (r := fresh (dom (store st))).
  set (st2 := {| self := self st; store := <[r := tbl]> (store st);
                 stdout := stdout st |}).
  assert (Hr : store st2 !! r = Some tbl) by apply lookup_insert_eq.
  unfold format_CDMS.
  destruct (run_to_step_2 r tbl st2 Hr) as (st3 & Hf & ->).
  destruct (CDMS_metadata false st3) as [[[]|e] st4] eqn:Hmeta;
    [|by rewrite (bind_Raise _ _ _ _ _ Hmeta)].
  rewrite (bind_Ok _ _ _ _ _ Hmeta).
  apply (CDMS_metadata_inv _ _ _ _ _ _ _ _ _ Hf) in Hmeta
    as (w & key & sp & pf' & Hf4 & _).
  assert (Hlab : Table.columns tbl !! "Lab"%string = None).
  { apply not_elem_of_list_to_map. intros Hin.
    apply list_elem_of_fmap in Hin as ([k col] & Heq & Hin).
    cbn in Heq. subst k.
    apply elem_of_zip_l in Hin. cbn in Hin.
    repeat (apply elem_of_cons in Hin as [[=]|Hin]).
    by apply elem_of_nil in Hin. }
  assert (Hlab' : cleaned_columns tbl !! "Lab"%string = None).
  { destruct (cleaned_columns tbl !! "Lab"%string) eqn:Hc; [|done].
    apply cleaned_columns_source in Hc. congruence. }
  pose proof (remove_columns_missing
    ["DR"; "TAG"; "QNFMT"; "MOLWT"; "Lab"]%string
    (Table.set_meta "Partition Function" (MPartitionFunction pf')
       (Table.set_meta "Molecular Weight" (MValue (VInt w))
          (Table.set_meta "Species" (MValue sp) (cleaned tbl))))
    "Lab"%string ltac:(in_list)) as Hrm.
  cbn [Table.set_meta Table.columns] in Hrm.
  destruct (cleaned_fields tbl) as (Hcols & _ & _).
  rewrite Hcols in Hrm. specialize (Hrm Hlab').
  destruct (Table.remove_columns _ _) as [|e] eqn:Hop; [done|].
  by rewrite (bind_Raise _ _ _ _ _ (on_table_Raise _ _ _ _ _ _ _ _ Hf4 Hop)).
Qed.

(** * Further properties of the module *)

(** ** What a normaliser leaves alone *)

Lemma works_on_refl (names : list string) (r : ref) (st : state) :
  self st !! "table"%string = Some (ARef r) -> works_on names r st st.
Proof. intros Ht. by repeat split. Qed.

Lemma works_on_trans (names : list string) (r : ref) (st1 st2 st3 : state) :
  works_on names r st1 st2 -> works_on names r st2 st3 ->
  works_on names r st1 st3.
Proof.
  intros (_ & Ho1 & Hn1 & Hp1 & Ha1) (Ht2 & Ho2 & Hn2 & Hp2 & Ha2).
  repeat split.
  - done.
  - intros r' Hr'. by rewrite Ho2, Ho1.
  - intros Hnone. by apply Hn2, Hn1.
  - congruence.
  - intros k Hk. by rewrite Ha2, Ha1.
Qed.

Lemma frames_ret (names : list string) (r : ref) {A} (a : A) :
  frames names r (mret a).
Proof. intros st res st' Ht [= _ <-]. by apply works_on_refl. Qed.

Lemma frames_lift (names : list string) (r : ref) {A} (x : result A) :
  frames names r (lift x).
Proof. intros st res st' Ht [= _ <-]. by apply works_on_refl. Qed.

Lemma frames_get_table (names : list string) (r : ref) :
  frames names r get_table.
Proof. intros st res st' Ht [= _ <-]. by apply works_on_refl. Qed.

Lemma frames_bind (names : list string) (r : ref) {A B} (m : M A)
  (k : A -> M B) :
  frames names r m -> (forall a, frames names r (k a)) ->
  frames names r (m ≫= k).
Proof.
  intros Hm Hk st res st' Ht Hrun. unfold mbind, M_bind in Hrun.
  destruct (m st) as [[a|e] st1] eqn:Hst1.
  - pose proof (Hm _ _ _ Ht Hst1) as Hw.
    apply (works_on_trans names r st st1 st'); [done|].
    apply (Hk a st1 res st'); [|done]. by destruct Hw.
  - injection Hrun as <- <-. by apply (Hm _ _ _ Ht Hst1).
Qed.

Lemma frames_setattr (names : list string) (r : ref) (name : string)
  (a : attr) :
  name <> "table"%string -> name ∈ names -> frames names r (setattr name a).
Proof.
  intros Hne Hin st res st' Ht [= _ <-]. repeat split; cbn.
  all: try done.
  - by rewrite lookup_insert_ne.
  - intros k Hk. rewrite lookup_insert_ne; [done|]. by intros ->.
Qed.

Lemma frames_on_table (names : list string) (r : ref)
  (op : Table.t -> result Table.t) :
  frames names r (on_table op).
Proof.
  intros st res st' Ht. unfold on_table, the_table, table_ref.
  rewrite Ht. cbn.
  destruct (store st !! r) as [tbl|] eqn:Hr; cbn;
    [|intros [= _ <-]; by apply works_on_refl].
  destruct (op tbl) as [tbl'|e]; cbn; intros [= _ <-];
    [|by apply works_on_refl].
  repeat split; cbn; try done.
  - intros r' Hr'. by rewrite lookup_insert_ne.
  - rewrite Hr. done.
Qed.

Ltac frames_step :=
  first [ apply frames_ret
        | apply frames_lift
        | apply frames_get_table
        | apply frames_on_table
        | apply frames_setattr; [done | unfold assigned, prepared; in_list]
        | apply frames_bind; [|intros ?] ].

Lemma frames_remove_masked_columns (names : list string) (r : ref) :
  frames names r remove_masked_columns.
Proof.
  unfold remove_masked_columns. apply frames_bind; [frames_step|].
  intros tbl. destruct (Table.has_mask tbl); frames_step.
Qed.

Lemma frames_frequency_to_GHz (names : list string) (r : ref)
  (nofreqerr : bool) :
  frames names r (frequency_to_GHz nofreqerr).
Proof.
  unfold frequency_to_GHz. repeat frames_step.
  destruct nofreqerr; cbn [negb]; repeat frames_step.
Qed.

Lemma frames_energy_to_E_up `{Externals} (names : list string) (r : ref) :
  frames names r energy_to_E_up.
Proof. unfold energy_to_E_up. repeat frames_step. Qed.

Lemma frames__set_quantities `{Externals} (r : ref) :
  frames assigned r _set_quantities.
Proof.
  unfold _set_quantities. apply frames_bind; [frames_step|]. intros tbl.
  apply frames_bind.
  - destruct (Table.meta tbl !! "Molecular Weight"%string); frames_step.
  - intros _. repeat frames_step.
Qed.

Lemma frames_set_partition_function (names : list string) (r : ref)
  (pf : PartitionFunction.t) :
  frames names r (set_partition_function pf).
Proof. apply frames_on_table. Qed.

Lemma frames_JPL_metadata `{Externals} `{Catalogues} (r : ref)
  (species : option value) (pf : option PartitionFunction.t) :
  frames prepared r (JPL_metadata species pf).
Proof.
  unfold JPL_metadata. destruct species as [sp|].
  - apply frames_bind; [frames_step|]. intros _.
    apply frames_bind; [|intros ?; frames_step].
    destruct pf; [apply frames_set_partition_function|apply frames_lift].
  - do 4 (apply frames_bind; [frames_step|]; intros ?).
    apply frames_bind; [frames_step|]. intros _.
    apply frames_bind; [|intros ?; frames_step].
    destruct pf; [apply frames_set_partition_function|].
    apply frames_bind; [frames_step|]. intros [T Q].
    repeat (apply frames_bind; [frames_step|]; intros ?).
    apply frames_set_partition_function.
Qed.

Lemma frames_CDMS_metadata `{Externals} `{Catalogues} (r : ref)
  (use_cached : bool) : frames prepared r (CDMS_metadata use_cached).
Proof.
  unfold CDMS_metadata.
  do 10 (apply frames_bind; [frames_step|]; intros ?).
  apply frames_bind; [frames_step|]. intros [T Q].
  repeat (apply frames_bind; [frames_step|]; intros ?).
  apply frames_set_partition_function.
Qed.

Lemma works_on_mono (names names' : list string) (r : ref) (st st' : state) :
  (forall k, k ∈ names -> k ∈ names') ->
  works_on names r st st' -> works_on names' r st st'.
Proof.
  intros Hsub (Ht & Ho & Hn & Hp & Ha). repeat split; [done..|].
  intros k Hk. apply Ha. intros Hin. by apply Hk, Hsub.
Qed.

Lemma prepared_assigned (k : string) : k ∈ prepared -> k ∈ assigned.
Proof.
  unfold prepared, assigned. intros Hk.
  repeat (apply elem_of_cons in Hk as [->|Hk]); [in_list..|].
  by apply elem_of_nil in Hk.
Qed.

Lemma frames_prepared (r : ref) {A} (m : M A) :
  frames prepared r m -> frames assigned r m.
Proof.
  intros Hm st res st' Ht Hrun.
  apply (works_on_mono prepared); [apply prepared_assigned|].
  by apply (Hm st res st').
Qed.

Lemma setattr_table_works_on (r : ref) (st st' : state) u :
  setattr "table" (ARef r) st = (Ok u, st') -> works_on prepared r st st'.
Proof.
  intros [= _ <-]. repeat split; cbn; try done;
    [by rewrite lookup_insert_eq|].
  intros k Hk. rewrite lookup_insert_ne; [done|].
  intros <-. apply Hk. unfold prepared. in_list.
Qed.

(** A step that succeeded, and what it has left alone *)
Lemma bind_works_on (names : list string) (r : ref) {A B} (m : M A)
  (k : A -> M B) (st0 st st' : state) (b : B) :
  frames names r m -> works_on names r st0 st ->
  (m ≫= k) st = (Ok b, st') ->
  exists a st1, works_on names r st0 st1 /\ k a st1 = (Ok b, st').
Proof.
  intros Hm Hw Hrun. apply bind_inv in Hrun as (a & st1 & Hstep & Hrun).
  exists a, st1. split; [|done].
  apply (works_on_trans names r st0 st st1); [done|].
  apply (Hm st (Ok a) st1); [|done]. by destruct Hw.
Qed.

(** A run that ended, with or without an exception, and what it has left
    alone *)
Lemma run_works_on (names : list string) (r : ref) {A} (m : M A)
  (st0 st : state) :
  frames names r m -> works_on names r st0 st ->
  works_on names r st0 (m st).2.
Proof.
  intros Hm Hw. destruct (m st) as [res st'] eqn:Hrun. cbn.
  apply (works_on_trans names r st0 st st'); [done|].
  apply (Hm st res st'); [|done]. by destruct Hw.
Qed.

Ltac works_on_step Hrun Hw lem :=
  let Hw' := fresh "Hw" in
  apply (bind_works_on prepared _ _ _ _ _ _ _ lem Hw) in Hrun
    as (? & ? & Hw' & Hrun);
  clear Hw; rename Hw' into Hw.

Ltac works_on_table Hrun Hw r :=
  let Hstep := fresh "Hstep" in
  let Hw' := fresh "Hw" in
  apply bind_inv in Hrun as (? & ? & Hstep & Hrun);
  apply (frames_on_table prepared r) in Hstep; [|by destruct Hw];
  pose proof (works_on_trans _ _ _ _ _ Hw Hstep) as Hw';
  clear Hw Hstep; rename Hw' into Hw.

(** The steps of [format_JPL] before [_set_quantities] *)
Lemma format_JPL_ends `{Externals} `{Catalogues} (r : ref) species nofreqerr
  pf st st' :
  format_JPL r species nofreqerr pf st = (Ok (), st') ->
  exists st1, works_on prepared r st st1
              /\ _set_quantities st1 = (Ok (), st').
Proof.
  intros Hrun. unfold format_JPL in Hrun.
  apply bind_inv in Hrun as (? & st1 & Hset & Hrun).
  apply setattr_table_works_on in Hset. rename Hset into Hw.
  works_on_step Hrun Hw (frames_remove_masked_columns prepared r).
  works_on_step Hrun Hw (frames_JPL_metadata r species pf).
  works_on_table Hrun Hw r.
  works_on_table Hrun Hw r.
  assert (Herr : frames prepared r
            (if nofreqerr then on_table (Table.remove_column "ERR")
             else mret ()))
    by (destruct nofreqerr; frames_step).
  works_on_step Hrun Hw Herr.
  works_on_table Hrun Hw r.
  works_on_step Hrun Hw (frames_frequency_to_GHz prepared r nofreqerr).
  works_on_table Hrun Hw r.
  works_on_table Hrun Hw r.
  works_on_step Hrun Hw (frames_energy_to_E_up prepared r).
  eexists. split; [exact Hw|exact Hrun].
Qed.

Lemma format_CDMS_ends `{Externals} `{Catalogues} (r : ref) use_cached
  nofreqerr st st' :
  format_CDMS r use_cached nofreqerr st = (Ok (), st') ->
  exists st1, works_on prepared r st st1
              /\ _set_quantities st1 = (Ok (), st').
Proof.
  intros Hrun. unfold format_CDMS in Hrun.
  apply bind_inv in Hrun as (? & st1 & Hset & Hrun).
  apply setattr_table_works_on in Hset. rename Hset into Hw.
  works_on_step Hrun Hw (frames_remove_masked_columns prepared r).
  works_on_step Hrun Hw (frames_CDMS_metadata r use_cached).
  works_on_table Hrun Hw r.
  assert (Herr : frames prepared r
            (if nofreqerr then on_table (Table.remove_column "ERR")
             else mret ()))
    by (destruct nofreqerr; frames_step).
  works_on_step Hrun Hw Herr.
  works_on_table Hrun Hw r.
  works_on_table Hrun Hw r.
  works_on_step Hrun Hw (frames_frequency_to_GHz prepared r nofreqerr).
  works_on_table Hrun Hw r.
  works_on_table Hrun Hw r.
  works_on_step Hrun Hw (frames_energy_to_E_up prepared r).
  eexists. split; [exact Hw|exact Hrun].
Qed.

Lemma works_on_after_setattr_table (r : ref) {A} (m : M A) (st : state) :
  frames assigned r m ->
  works_on assigned r st
    ((setattr "table" (ARef r) ≫= (fun _ => m)) st).2.
Proof.
  intros Hm. unfold mbind, M_bind.
  destruct (setattr "table" (ARef r) st) as [[u|e] st1] eqn:Hset; [|done].
  pose proof (setattr_table_works_on _ _ _ _ Hset) as Hw.
  apply (works_on_mono _ _ _ _ _ prepared_assigned) in Hw.
  by apply run_works_on.
Qed.

Lemma format_JPL_works_on `{Externals} `{Catalogues}
  (r : ref) (species : option value) (nofreqerr : bool)
  (pf : option PartitionFunction.t) (st : state) :
  works_on assigned r st (format_JPL r species nofreqerr pf st).2.
Proof.
  unfold format_JPL. apply works_on_after_setattr_table.
  apply frames_bind; [apply frames_remove_masked_columns|]. intros _.
  apply frames_bind; [apply frames_prepared, frames_JPL_metadata|]. intros sp.
  do 2 (apply frames_bind; [frames_step|]; intros _).
  apply frames_bind; [destruct nofreqerr; frames_step|]. intros _.
  apply frames_bind; [frames_step|]. intros _.
  apply frames_bind; [apply frames_frequency_to_GHz|]. intros _.
  do 2 (apply frames_bind; [frames_step|]; intros _).
  apply frames_bind; [apply frames_energy_to_E_up|]. intros _.
  apply frames__set_quantities.
Qed.

Lemma format_CDMS_works_on `{Externals} `{Catalogues}
  (r : ref) (use_cached nofreqerr : bool) (st : state) :
  works_on assigned r st (format_CDMS r use_cached nofreqerr st).2.
Proof.
  unfold format_CDMS. apply works_on_after_setattr_table.
  apply frames_bind; [apply frames_remove_masked_columns|]. intros _.
  apply frames_bind; [apply frames_prepared, frames_CDMS_metadata|]. intros _.
  apply frames_bind; [frames_step|]. intros _.
  apply frames_bind; [destruct nofreqerr; frames_step|]. intros _.
  do 2 (apply frames_bind; [frames_step|]; intros _).
  apply frames_bind; [apply frames_frequency_to_GHz|]. intros _.
  do 2 (apply frames_bind; [frames_step|]; intros _).
  apply frames_bind; [apply frames_energy_to_E_up|]. intros _.
  apply frames__set_quantities.
Qed.


Lemma alloc_then_works_on (tbl : Table.t) (k : ref -> M ()) (st : state) :
  (forall r st1, works_on assigned r st1 (k r st1).2) ->
  store st ⊆ store ((alloc tbl ≫= k) st).2.
Proof.
  intros Hk. unfold mbind, M_bind, alloc.
  set (r := fresh (dom (store st))).
  assert (Hfresh : store st !! r = None)
    by apply not_elem_of_dom, is_fresh.
  set (st1 := {| self := self st; store := <[r := tbl]> (store st);
                 stdout := stdout st |}).
  pose proof (Hk r st1) as (_ & Ho & _).
  apply map_subseteq_spec. intros r' tbl' Hr'.
  assert (r' <> r) as Hne by congruence.
  rewrite Ho by done. subst st1. cbn. by rewrite lookup_insert_ne.
Qed.

Lemma query_JPL_keeps `{Externals} `{Catalogues}
  (freq_range : float * float) (species_id : Z) (nofreqerr : bool)
  (st : state) :
  store st ⊆ store (query_JPL freq_range species_id nofreqerr st).2.
Proof.
  destruct freq_range as [numin numax]. unfold query_JPL.
  destruct (JPL_query_lines numin numax species_id) as [tbl|]; [|done].
  apply alloc_then_works_on. intros r st1. apply format_JPL_works_on.
Qed.

Lemma query_CDMS_keeps `{Externals} `{Catalogues}
  (freq_range : float * float) (molecule : string)
  (use_cached nofreqerr : bool) (st : state) :
  store st ⊆ store (query_CDMS freq_range molecule use_cached nofreqerr st).2.
Proof.
  destruct freq_range as [numin numax]. unfold query_CDMS.
  destruct (CDMS_query_lines numin numax (zfill 6 molecule) 0) as [tbl|];
    [|done].
  apply alloc_then_works_on. intros r st1. apply format_CDMS_works_on.
Qed.

Lemma parse_datafile_keeps `{Externals} `{Catalogues}
  (format : option string) (species : option value)
  (pf : option PartitionFunction.t) (st : state) :
  store st ⊆ store (parse_datafile format species pf st).2.
Proof.
  unfold parse_datafile.
  case_bool_decide as HJ; [|case_bool_decide as HC; [|done]].
  - unfold mbind at 1, M_bind at 1, get_filename at 1.
    destruct (match self st !! "filename"%string with
              | Some (AStr f) => Ok f | _ => _ end) as [f|e]; [|done].
    unfold mbind at 1, M_bind at 1, lift at 1.
    destruct (ascii_read f JPL_names JPL_col_starts) as [tbl|e]; [|done].
    apply alloc_then_works_on. intros r st1. apply format_JPL_works_on.
  - unfold mbind at 1, M_bind at 1, get_filename at 1.
    destruct (match self st !! "filename"%string with
              | Some (AStr f) => Ok f | _ => _ end) as [f|e]; [|done].
    unfold mbind at 1, M_bind at 1, lift at 1.
    destruct (ascii_read f CDMS_starts.*1 CDMS_starts.*2) as [tbl|e]; [|done].
    apply alloc_then_works_on. intros r st1. apply format_CDMS_works_on.
Qed.

(** X3: the two queries, [parse_datafile] and the constructor normalise a
    table of their own making: whether they return or raise, every table
    object the caller held before is still there, unchanged. *)
Theorem entry_points_keep_the_tables_of_the_caller `{Externals} `{Catalogues}
  (freq_range : float * float) (species_id : Z) (molecule : string)
  (use_cached nofreqerr : bool) (filename format : option string)
  (species : option value) (pf : option PartitionFunction.t) (st : state) :
  store st ⊆ store (query_JPL freq_range species_id nofreqerr st).2
  /\ store st
     ⊆ store (query_CDMS freq_range molecule use_cached nofreqerr st).2
  /\ store st ⊆ store (parse_datafile format species pf st).2
  /\ store st ⊆ store (__init__ filename format species pf st).2.
Proof.
  split; [apply query_JPL_keeps|]. split; [apply query_CDMS_keeps|].
  split; [apply parse_datafile_keeps|].
  unfold __init__, mbind, M_bind, setattr.
  destruct filename as [f|]; [|done].
  apply (parse_datafile_keeps format species pf
           {| self := <["filename"%string := AStr f]> (self st);
              store := store st; stdout := stdout st |}).
Qed.

(** ** The constructor *)

(** X4: the constructor passes its [format] on to [parse_datafile], and its
    default is [None], not JPL: with a file name and a format that is neither
    JPL nor CDMS it stores the file name and raises a ValueError; no file is
    read and no table made. *)
Theorem init_without_format_raises `{Externals} `{Catalogues}
  (filename : string) (format : option string) (species : option value)
  (pf : option PartitionFunction.t) (st : state) :
  format <> Some "JPL"%string -> format <> Some "CDMS"%string ->
  exists msg,
    __init__ (Some filename) format species pf st
    = (Raise (ValueError msg),
       {| self := <["filename"%string := AStr filename]> (self st);
          store := store st; stdout := stdout st |}).
Proof.
  intros HJ HC. eexists. unfold __init__, parse_datafile.
  rewrite !bool_decide_eq_false_2 by done. reflexivity.
Qed.

Lemma init_without_format_raises_witness :
  exists msg,
    __init__ (H := Sample.externals) (H0 := Sample.catalogues)
      (Some "co.cat"%string) None None None Sample.empty_state
    = (Raise (ValueError msg),
       {| self := <["filename"%string := AStr "co.cat"]> ∅;
          store := ∅; stdout := [] |}).
Proof.
  exact (@init_without_format_raises Sample.externals Sample.catalogues
           "co.cat"%string None None None Sample.empty_state
           ltac:(done) ltac:(done)).
Defined.

(** ** What a normaliser asks of the response *)

Lemma cleaned_columns_usable (tbl : Table.t) (k : string) (col : Column) :
  cleaned_columns tbl !! k = Some col ->
  Table.columns tbl !! k = Some col /\ usable tbl k.
Proof.
  intros Hk. pose proof (cleaned_columns_source _ _ _ Hk) as Hsrc.
  split; [done|]. split; [by eexists|].
  intros Hmask Hin. by rewrite (cleaned_columns_masked _ _ Hmask Hin) in Hk.
Qed.

Lemma column_imul_float_column (tbl : Table.t) (k : string) (col col' : Column)
  (x : float) :
  Table.columns tbl !! k = Some col -> column_imul col x = Ok col' ->
  float_column tbl k.
Proof.
  intros Hk Hmul. apply column_imul_Ok in Hmul as (a & Ha & _).
  by exists col, a.
Qed.

Lemma format_JPL_needs `{Externals} `{Catalogues} (r : ref) (tbl0 : Table.t)
  species nofreqerr pf st st' :
  store st !! r = Some tbl0 ->
  format_JPL r species nofreqerr pf st = (Ok (), st') ->
  (forall k, k ∈ ["DR"; "TAG"; "QNFMT"; "FREQ"; "LGINT"; "ELO"; "GUP"]%string ->
             usable tbl0 k)
  /\ float_column tbl0 "FREQ"
  /\ (nofreqerr = false -> usable tbl0 "ERR" /\ float_column tbl0 "ERR").
Proof.
  intros Hr Hrun.
  apply (format_JPL_inv _ _ _ _ _ _ _ Hr) in Hrun
    as (tbl' & s' & sp & pf' & n & cF & cF' & cE' & cL & cG & cEl & lg & fq
        & gu & el & nA & mA & nE & mE & _ & _ & _ & _ & _ & Hreq & HcF
        & HcF' & HcE & HcL & HcG & HcEl & _).
  apply cleaned_columns_usable in HcF as [HcF HuF].
  apply cleaned_columns_usable in HcL as [_ HuL].
  apply cleaned_columns_usable in HcG as [_ HuG].
  apply cleaned_columns_usable in HcEl as [_ HuEl].
  split; [|split].
  - intros k Hk.
    repeat (apply elem_of_cons in Hk as [->|Hk]);
      [..|by apply elem_of_nil in Hk]; try done;
      match goal with
      | |- usable _ ?k =>
          destruct (Hreq k ltac:(in_list)) as [col Hcol];
          by apply cleaned_columns_usable in Hcol as [_ ?]
      end.
  - by apply (column_imul_float_column _ _ _ _ _ HcF HcF').
  - intros Hnf. destruct (HcE Hnf) as (cE & HcE1 & HcE2).
    apply cleaned_columns_usable in HcE1 as [HcE1 HuE].
    split; [done|]. by apply (column_imul_float_column _ _ _ _ _ HcE1 HcE2).
Qed.

Lemma format_CDMS_needs `{Externals} `{Catalogues} (r : ref) (tbl0 : Table.t)
  use_cached nofreqerr st st' :
  store st !! r = Some tbl0 ->
  format_CDMS r use_cached nofreqerr st = (Ok (), st') ->
  (forall k, k ∈ ["DR"; "TAG"; "QNFMT"; "MOLWT"; "Lab"; "name"; "FREQ";
                  "LGAIJ"; "ELO"; "GUP"]%string ->
             usable tbl0 k)
  /\ float_column tbl0 "FREQ"
  /\ (nofreqerr = false -> usable tbl0 "ERR" /\ float_column tbl0 "ERR").
Proof.
  intros Hr Hrun.
  apply (format_CDMS_inv _ _ _ _ _ _ Hr) in Hrun
    as (tbl' & s' & w & key & sp & pf' & cS & cF & cF' & cE' & cL & cG & cEl
        & lg & fq & el & nA & mA & nE & mE & _ & _ & _ & _ & _ & Hreq & HcS
        & HcF & HcF' & HcE & HcL & HcG & HcEl & _).
  apply cleaned_columns_usable in HcS as [_ HuS].
  apply cleaned_columns_usable in HcF as [HcF HuF].
  apply cleaned_columns_usable in HcL as [_ HuL].
  apply cleaned_columns_usable in HcG as [_ HuG].
  apply cleaned_columns_usable in HcEl as [_ HuEl].
  split; [|split].
  - intros k Hk.
    repeat (apply elem_of_cons in Hk as [->|Hk]);
      [..|by apply elem_of_nil in Hk]; try done;
      match goal with
      | |- usable _ ?k =>
          destruct (Hreq k ltac:(in_list)) as [col Hcol];
          by apply cleaned_columns_usable in Hcol as [_ ?]
      end.
  - by apply (column_imul_float_column _ _ _ _ _ HcF HcF').
  - intros Hnf. destruct (HcE Hnf) as (cE & HcE1 & HcE2).
    apply cleaned_columns_usable in HcE1 as [HcE1 HuE].
    split; [done|]. by apply (column_imul_float_column _ _ _ _ _ HcE1 HcE2).
Qed.

(** X5: a normaliser returns only for a response that has the columns it
    removes and converts (DR, TAG, QNFMT, FREQ, the intensity, ELO and GUP;
    for CDMS also MOLWT, Lab and name), none of them missing in every row of a
    table that carries a mask, with floats in FREQ and, unless [nofreqerr] is
    set, in ERR. *)
Theorem normalisers_need_their_columns `{Externals} `{Catalogues}
  (r : ref) (tbl0 : Table.t) (species : option value)
  (pf : option PartitionFunction.t) (use_cached nofreqerr : bool)
  (st st' : state) :
  store st !! r = Some tbl0 ->
  (format_JPL r species nofreqerr pf st = (Ok (), st') ->
   (forall k, k ∈ ["DR"; "TAG"; "QNFMT"; "FREQ"; "LGINT"; "ELO"; "GUP"]%string ->
              usable tbl0 k)
   /\ float_column tbl0 "FREQ"
   /\ (nofreqerr = false -> usable tbl0 "ERR" /\ float_column tbl0 "ERR"))
  /\ (format_CDMS r use_cached nofreqerr st = (Ok (), st') ->
      (forall k, k ∈ ["DR"; "TAG"; "QNFMT"; "MOLWT"; "Lab"; "name"; "FREQ";
                      "LGAIJ"; "ELO"; "GUP"]%string ->
                 usable tbl0 k)
      /\ float_column tbl0 "FREQ"
      /\ (nofreqerr = false -> usable tbl0 "ERR" /\ float_column tbl0 "ERR")).
Proof.
  intros Hr. split; intros Hrun.
  - by apply (format_JPL_needs r tbl0 species nofreqerr pf st st').
  - by apply (format_CDMS_needs r tbl0 use_cached nofreqerr st st').
Qed.

(** ** Normalising twice *)

Lemma format_JPL_without_DR `{Externals} `{Catalogues} (r : ref)
  (tbl : Table.t) species nofreqerr pf st :
  store st !! r = Some tbl -> Table.columns tbl !! "DR"%string = None ->
  is_Ok (format_JPL r species nofreqerr pf st).1 = false.
Proof.
  intros Hr Hnone.
  destruct (format_JPL r species nofreqerr pf st) as [[[]|e] st'] eqn:Hrun;
    [|done].
  apply (format_JPL_needs _ _ _ _ _ _ _ Hr) in Hrun as (Hreq & _).
  destruct (Hreq "DR"%string ltac:(in_list)) as [[col Hcol] _]. congruence.
Qed.

Lemma format_CDMS_without_DR `{Externals} `{Catalogues} (r : ref)
  (tbl : Table.t) use_cached nofreqerr st :
  store st !! r = Some tbl -> Table.columns tbl !! "DR"%string = None ->
  is_Ok (format_CDMS r use_cached nofreqerr st).1 = false.
Proof.
  intros Hr Hnone.
  destruct (format_CDMS r use_cached nofreqerr st) as [[[]|e] st'] eqn:Hrun;
    [|done].
  apply (format_CDMS_needs _ _ _ _ _ _ Hr) in Hrun as (Hreq & _).
  destruct (Hreq "DR"%string ltac:(in_list)) as [[col Hcol] _]. congruence.
Qed.

(** X6: a normaliser works in place and removes columns it needs: after either
    normaliser has returned, a second call of either of them on the same table
    object raises. *)
Theorem normalising_twice_raises `{Externals} `{Catalogues}
  (r : ref) (tbl0 : Table.t) (species : option value)
  (pf : option PartitionFunction.t) (use_cached nofreqerr : bool)
  (st st' : state) :
  store st !! r = Some tbl0 ->
  format_JPL r species nofreqerr pf st = (Ok (), st')
  \/ format_CDMS r use_cached nofreqerr st = (Ok (), st') ->
  forall species2 pf2 use_cached2 nofreqerr2,
    is_Ok (format_JPL r species2 nofreqerr2 pf2 st').1 = false
    /\ is_Ok (format_CDMS r use_cached2 nofreqerr2 st').1 = false.
Proof.
  intros Hr Hrun species2 pf2 use_cached2 nofreqerr2.
  assert (exists tbl', store st' !! r = Some tbl'
                       /\ Table.columns tbl' !! "DR"%string = None)
    as (tbl' & Hr' & Hnone).
  { destruct Hrun as [Hrun|Hrun].
    - apply (format_JPL_in_place _ _ _ _ _ _ _ Hr) in Hrun
        as (tbl' & _ & Hstore & Hrem & _).
      exists tbl'. split; [by rewrite Hstore, lookup_insert_eq|].
      apply Hrem. in_list.
    - apply (format_CDMS_in_place _ _ _ _ _ _ Hr) in Hrun
        as (tbl' & _ & Hstore & Hrem & _).
      exists tbl'. split; [by rewrite Hstore, lookup_insert_eq|].
      apply Hrem. in_list. }
  split.
  - by apply (format_JPL_without_DR r tbl').
  - by apply (format_CDMS_without_DR r tbl').
Qed.

Lemma normalising_twice_raises_witness :
  store (Sample.holding Sample.jpl_response) !! 1%positive
  = Some Sample.jpl_response
  /\ format_JPL (H := Sample.externals) (H0 := Sample.catalogues)
       1%positive None false None (Sample.holding Sample.jpl_response)
     = (Ok (), Sample.jpl_done)
  /\ is_Ok (format_JPL (H := Sample.externals) (H0 := Sample.catalogues)
              1%positive None false None Sample.jpl_done).1 = false
  /\ is_Ok (format_CDMS (H := Sample.externals) (H0 := Sample.catalogues)
              1%positive false false Sample.jpl_done).1 = false.
Proof.
  assert (Hr : store (Sample.holding Sample.jpl_response) !! 1%positive
               = Some Sample.jpl_response) by (vm_compute; reflexivity).
  assert (Hrun : format_JPL (H := Sample.externals) (H0 := Sample.catalogues)
                   1%positive None false None
                   (Sample.holding Sample.jpl_response)
                 = (Ok (), Sample.jpl_done)) by (vm_compute; reflexivity).
  split; [exact Hr|]. split; [exact Hrun|].
  exact (@normalising_twice_raises Sample.externals Sample.catalogues
           1%positive Sample.jpl_response None None false false
           (Sample.holding Sample.jpl_response) Sample.jpl_done Hr
           (or_introl Hrun) None None false false).
Defined.

Lemma _set_quantities_attrs `{Externals} (st : state) u (st' : state) :
  _set_quantities st = (Ok u, st') ->
  exists tbl,
    the_table st = Ok tbl /\ the_table st' = Ok tbl
    /\ quantities_of tbl (self st')
    /\ self st' !! "mu"%string
       = match Table.meta tbl !! "Molecular Weight"%string with
         | Some m => Some (AMeta m)
         | None => self st !! "mu"%string
         end.
Proof.
  intros Hrun.
  unfold _set_quantities, get_table, mbind, M_bind, lift, setattr in Hrun.
  destruct (the_table st) as [tbl|] eqn:Ht; [|done].
  exists tbl. split; [done|].
  unfold Table.get_meta, Table.getitem in Hrun.
  destruct (Table.meta tbl !! "Molecular Weight"%string) as [m|] eqn:Hm;
    cbn in Hrun;
    (destruct (Table.meta tbl !! "Partition Function"%string) as [Q|] eqn:HQ;
      [|done]); cbn in Hrun;
    (destruct (Table.columns tbl !! "Frequency"%string) as [cF|] eqn:HcF;
      [|done]); cbn in Hrun;
    (destruct (as_operand cF) as [fq|] eqn:Hfq; [|done]); cbn in Hrun;
    (destruct (Table.columns tbl !! "A_ul"%string) as [cA|] eqn:HcA;
      [|done]); cbn in Hrun;
    (destruct (Table.columns tbl !! "g_up"%string) as [cG|] eqn:HcG;
      [|done]); cbn in Hrun;
    (destruct (Table.columns tbl !! "E_up"%string) as [cE|] eqn:HcE;
      [|done]); cbn in Hrun;
    injection Hrun as _ <-; cbn;
    (split; [|split; [|by rewrite ?lookup_insert_ne, ?lookup_insert_eq by done]]).
  all: try (revert Ht; unfold the_table, table_ref; cbn;
            by rewrite !lookup_insert_ne by done).
  all: unfold quantities_of;
    (split; [exists Q; by simplify_map_eq|]);
    (split; [exists cF, fq; by simplify_map_eq|]);
    (split; [exists cA; by simplify_map_eq|]);
    (split; [exists cG; by simplify_map_eq|]);
    exists cE; by simplify_map_eq.
Qed.

Lemma quantities_after `{Externals} (r : ref) (tbl' : Table.t)
  (st st1 st' : state) :
  works_on prepared r st st1 ->
  _set_quantities st1 = (Ok (), st') ->
  store st' !! r = Some tbl' ->
  self st' !! "table"%string = Some (ARef r) ->
  quantities_of tbl' (self st')
  /\ self st' !! "mu"%string
     = match Table.meta tbl' !! "Molecular Weight"%string with
       | Some m => Some (AMeta m)
       | None => self st !! "mu"%string
       end.
Proof.
  intros (_ & _ & _ & _ & Ha) Hset Hr Ht.
  apply _set_quantities_attrs in Hset as (tbl & _ & Htbl & Hq & Hmu).
  assert (tbl = tbl') as ->.
  { revert Htbl. unfold the_table, table_ref. rewrite Ht. cbn.
    rewrite Hr. congruence. }
  split; [done|]. rewrite Hmu.
  destruct (Table.meta tbl' !! "Molecular Weight"%string); [done|].
  apply Ha. unfold prepared. intros Hin.
  repeat (apply elem_of_cons in Hin as [[=]|Hin]). by apply elem_of_nil in Hin.
Qed.

(** X7: when a normaliser returns, [_set_quantities] has copied the table into
    [self]: [self.Q] is the partition function of the metadata, [self.nu0] the
    Frequency column times 1e9, and [self.Aul], [self.gup] and [self.Eup] are
    the cells of the columns A_ul, g_up and E_up.  [format_CDMS] sets
    [self.mu] to the molecular weight; [format_JPL] sets it only when the
    response came with a molecular weight in its metadata, and leaves it as it
    was otherwise. *)
Theorem normalisers_set_the_quantities `{Externals} `{Catalogues}
  (r : ref) (tbl0 : Table.t) (species : option value)
  (pf : option PartitionFunction.t) (use_cached nofreqerr : bool)
  (st st' : state) :
  store st !! r = Some tbl0 ->
  (format_JPL r species nofreqerr pf st = (Ok (), st') ->
   exists tbl',
     store st' !! r = Some tbl'
     /\ quantities_of tbl' (self st')
     /\ self st' !! "mu"%string
        = match Table.meta tbl0 !! "Molecular Weight"%string with
          | Some m => Some (AMeta m)
          | None => self st !! "mu"%string
          end)
  /\ (format_CDMS r use_cached nofreqerr st = (Ok (), st') ->
      exists tbl' w,
        store st' !! r = Some tbl'
        /\ quantities_of tbl' (self st')
        /\ self st' !! "molweight"%string = Some (AInt w)
        /\ self st' !! "mu"%string = Some (AMeta (MValue (VInt w)))).
Proof.
  intros Hr. split; intros Hrun.
  - destruct (format_JPL_ends _ _ _ _ _ _ Hrun) as (st1 & Hw & Hset).
    apply (format_JPL_inv _ _ _ _ _ _ _ Hr) in Hrun
      as (tbl' & s' & sp & pf' & n & cF & cF' & cE' & cL & cG & cEl & lg & fq
          & gu & el & nA & mA & nE & mE & _ & Hf & _ & Hmeta & _).
    destruct Hf as (Hself & Htable & Hstore & _).
    assert (Hr' : store st' !! r = Some tbl')
      by (by rewrite Hstore, lookup_insert_eq).
    assert (Ht' : self st' !! "table"%string = Some (ARef r))
      by (by rewrite Hself).
    destruct (quantities_after r tbl' st st1 st' Hw Hset Hr' Ht') as [Hq Hmu].
    exists tbl'. split; [done|]. split; [done|].
    rewrite Hmu, Hmeta. by rewrite !lookup_insert_ne.
  - destruct (format_CDMS_ends _ _ _ _ _ Hrun) as (st1 & Hw & Hset).
    apply (format_CDMS_inv _ _ _ _ _ _ Hr) in Hrun
      as (tbl' & s' & w & key & sp & pf' & cS & cF & cF' & cE' & cL & cG & cEl
          & lg & fq & el & nA & mA & nE & mE & _ & Hf & Hs' & Hmeta & _).
    destruct Hf as (Hself & Htable & Hstore & _).
    assert (Hr' : store st' !! r = Some tbl')
      by (by rewrite Hstore, lookup_insert_eq).
    assert (Ht' : self st' !! "table"%string = Some (ARef r))
      by (by rewrite Hself).
    destruct (quantities_after r tbl' st st1 st' Hw Hset Hr' Ht') as [Hq Hmu].
    exists tbl', w. split; [done|]. split; [done|]. split.
    + rewrite Hself, Hs'; [by simplify_map_eq|].
      intros Hin. repeat (apply elem_of_cons in Hin as [[=]|Hin]).
      by apply elem_of_nil in Hin.
    + rewrite Hmu, Hmeta. by simplify_map_eq.
Qed.

(** ** The metadata of the normalised table *)

(** X8: the metadata of a normalised table are those of the response with the
    entries Species and Partition Function (for CDMS also Molecular Weight)
    set; the species is the one stored in [self.species], and a species or a
    partition function given by the caller is stored as given. *)
Theorem normalisers_set_the_metadata `{Externals} `{Catalogues}
  (r : ref) (tbl0 : Table.t) (species : option value)
  (pf : option PartitionFunction.t) (use_cached nofreqerr : bool)
  (st st' : state) :
  store st !! r = Some tbl0 ->
  (format_JPL r species nofreqerr pf st = (Ok (), st') ->
   exists tbl' sp pf',
     store st' !! r = Some tbl'
     /\ Table.meta tbl'
        = <["Species"%string := MValue sp]>
            (<["Partition Function"%string := MPartitionFunction pf']>
               (Table.meta tbl0))
     /\ self st' !! "species"%string = Some (AValue sp)
     /\ (forall s, species = Some s -> sp = s)
     /\ (forall p, pf = Some p -> pf' = p))
  /\ (format_CDMS r use_cached nofreqerr st = (Ok (), st') ->
      exists tbl' sp w pf',
        store st' !! r = Some tbl'
        /\ Table.meta tbl'
           = <["Partition Function"%string := MPartitionFunction pf']>
               (<["Molecular Weight"%string := MValue (VInt w)]>
                  (<["Species"%string := MValue sp]> (Table.meta tbl0)))
        /\ self st' !! "species"%string = Some (AValue sp)
        /\ self st' !! "molweight"%string = Some (AInt w)).
Proof.
  intros Hr. split; intros Hrun.
  - apply (format_JPL_inv _ _ _ _ _ _ _ Hr) in Hrun
      as (tbl' & s' & sp & pf' & n & cF & cF' & cE' & cL & cG & cEl & lg & fq
          & gu & el & nA & mA & nE & mE & Hres & Hf & Hs' & Hmeta & _).
    destruct Hf as (Hself & Htable & Hstore & _).
    exists tbl', sp, pf'.
    split; [by rewrite Hstore, lookup_insert_eq|]. split; [done|].
    split; [|split].
    + rewrite Hself, Hs'; [by simplify_map_eq|].
      intros Hin. repeat (apply elem_of_cons in Hin as [[=]|Hin]).
      by apply elem_of_nil in Hin.
    + intros s ->. by destruct Hres as [-> _].
    + intros p ->. destruct species as [s|].
      * destruct Hres as [_ [= ->]]. done.
      * by destruct Hres as (tag & tags & idx & names & _ & _ & _ & _ & _ & ->).
  - apply (format_CDMS_inv _ _ _ _ _ _ Hr) in Hrun
      as (tbl' & s' & w & key & sp & pf' & cS & cF & cF' & cE' & cL & cG & cEl
          & lg & fq & el & nA & mA & nE & mE & _ & Hf & Hs' & Hmeta & _).
    destruct Hf as (Hself & Htable & Hstore & _).
    exists tbl', sp, w, pf'.
    split; [by rewrite Hstore, lookup_insert_eq|]. split; [done|].
    split; (rewrite Hself, Hs'; [by simplify_map_eq|];
            intros Hin; repeat (apply elem_of_cons in Hin as [[=]|Hin]);
            by apply elem_of_nil in Hin).
Qed.

(** ** An exception leaves the work done so far *)

(** X9: the error for a species without a partition function is raised after
    step 1 has run: when it is raised, [self.table] is the response, the
    response has lost the columns that were missing in every row, and
    [self.species] is the species of the caller. *)
Theorem missing_partition_function_is_raised_late `{Externals} `{Catalogues}
  (r : ref) (tbl0 : Table.t) (species : value) (nofreqerr : bool)
  (st : state) :
  store st !! r = Some tbl0 ->
  format_JPL r (Some species) nofreqerr None st
  = (Raise missing_partition_function,
     {| self := <["species"%string := AValue species]>
                  (<["table"%string := ARef r]> (self st));
        store := <[r := cleaned tbl0]> (store st);
        stdout := stdout st |}).
Proof.
  intros Hr. unfold format_JPL.
  destruct (run_to_step_2 r tbl0 st Hr) as (st2 & Hf & ->).
  destruct Hf as (Hself & _ & Hstore & Hout).
  apply bind_Raise. unfold JPL_metadata.
  erewrite bind_Ok by reflexivity.
  unfold mbind, M_bind, raise, lift, setattr. cbn.
  by rewrite Hself, Hstore, Hout.
Qed.

Lemma renames_ret {A} (a : A) : renames id (mret a).
Proof. intros st a' st' tbl Ht [= _ <-]. by exists tbl. Qed.

Lemma renames_lift {A} (x : result A) : renames id (lift x).
Proof. intros st a' st' tbl Ht [= _ <-]. by exists tbl. Qed.

Lemma renames_get_table : renames id get_table.
Proof. intros st a' st' tbl Ht [= _ <-]. by exists tbl. Qed.

Lemma renames_setattr (name : string) (a : attr) :
  name <> "table"%string -> renames id (setattr name a).
Proof.
  intros Hne st a' st' tbl Ht [= _ <-]. exists tbl. split; [|done].
  revert Ht. unfold the_table, table_ref. cbn.
  by rewrite lookup_insert_ne.
Qed.

Lemma renames_bind (f g : list string -> list string) {A B} (m : M A)
  (k : A -> M B) :
  renames f m -> (forall a, renames g (k a)) ->
  renames (fun names => g (f names)) (m ≫= k).
Proof.
  intros Hm Hk st b st' tbl Ht Hrun.
  apply bind_inv in Hrun as (a & st1 & Hstep & Hrun).
  destruct (Hm _ _ _ _ Ht Hstep) as (tbl1 & Ht1 & Hn1).
  destruct (Hk a _ _ _ _ Ht1 Hrun) as (tbl' & Ht' & Hn').
  exists tbl'. split; [done|]. by rewrite Hn', Hn1.
Qed.

Lemma renames_ext (f g : list string -> list string) {A} (m : M A) :
  (forall names, f names = g names) -> renames f m -> renames g m.
Proof.
  intros Hfg Hm st a st' tbl Ht Hrun.
  destruct (Hm _ _ _ _ Ht Hrun) as (tbl' & Ht' & Hn').
  exists tbl'. split; [done|]. by rewrite <- Hfg.
Qed.

Lemma renames_on_table (f : list string -> list string)
  (op : Table.t -> result Table.t) :
  (forall tbl tbl', op tbl = Ok tbl' ->
                    Table.colnames tbl' = f (Table.colnames tbl)) ->
  renames f (on_table op).
Proof.
  intros Hop st a st' tbl Ht. unfold on_table. rewrite Ht.
  revert Ht. unfold the_table.
  destruct (table_ref st) as [r|] eqn:Hr; [|done]. cbn.
  destruct (store st !! r) as [t|] eqn:Hst; [|done]. intros [= ->].
  destruct (op tbl) as [tbl'|] eqn:Hop'; cbn; [|done].
  intros [= _ <-]. exists tbl'. split; [|by apply Hop].
  revert Hr. unfold table_ref. cbn.
  destruct (self st !! "table"%string) as [[]|]; try done.
  intros [= ->]. cbn. by rewrite lookup_insert_eq.
Qed.

Lemma remove_columns_colnames (names : list string) (tbl tbl' : Table.t) :
  Table.remove_columns names tbl = Ok tbl' ->
  Table.colnames tbl' = without names (Table.colnames tbl).
Proof.
  unfold Table.remove_columns. destruct (List.find _ _); [done|].
  by intros [= <-].
Qed.

Lemma rename_column_colnames (name new_name : string) (tbl tbl' : Table.t) :
  name <> new_name ->
  Table.rename_column name new_name tbl = Ok tbl' ->
  Table.colnames tbl' = renamed name new_name (Table.colnames tbl).
Proof.
  intros Hne. unfold Table.rename_column.
  destruct (Table.columns tbl !! name); [|done].
  rewrite bool_decide_eq_false_2 by done.
  case_bool_decide; [done|]. by intros [= <-].
Qed.

Lemma add_column_colnames (col : Column) (name : string) (tbl tbl' : Table.t) :
  Table.add_column col name tbl = Ok tbl' ->
  Table.colnames tbl' = name :: Table.colnames tbl.
Proof.
  unfold Table.add_column. case_bool_decide; [done|].
  destruct (_ && _); [done|]. by intros [= <-].
Qed.

Lemma setitem_colnames (name : string) (x : operand) (tbl tbl' : Table.t) :
  Table.setitem name x tbl = Ok tbl' ->
  Table.colnames tbl' = Table.colnames tbl.
Proof.
  unfold Table.setitem. destruct (Table.columns tbl !! name); [|done].
  destruct (_ =? _)%nat; [|done]. by intros [= <-].
Qed.

Lemma imul_colnames (name : string) (k : float) (tbl tbl' : Table.t) :
  Table.imul name k tbl = Ok tbl' ->
  Table.colnames tbl' = Table.colnames tbl.
Proof.
  unfold Table.imul, Table.getitem.
  destruct (Table.columns tbl !! name); [|done]. cbn.
  destruct (column_imul _ _); [|done]. cbn. by intros [= <-].
Qed.

Lemma renames_rename_column (name new_name : string) :
  name <> new_name ->
  renames (renamed name new_name) (on_table (Table.rename_column name new_name)).
Proof.
  intros Hne. apply renames_on_table. intros tbl tbl'.
  by apply rename_column_colnames.
Qed.

Lemma renames_remove_columns (names : list string) :
  renames (without names) (on_table (Table.remove_columns names)).
Proof.
  apply renames_on_table. intros tbl tbl'. apply remove_columns_colnames.
Qed.

Lemma renames_imul (name : string) (k : float) :
  renames id (on_table (Table.imul name k)).
Proof. apply renames_on_table. intros tbl tbl'. apply imul_colnames. Qed.

Lemma renames_set_meta (key : string) (v : meta_value) :
  renames id (on_table (fun tbl => Ok (Table.set_meta key v tbl))).
Proof. apply renames_on_table. by intros tbl tbl' [= <-]. Qed.

Lemma renames_frequency_to_GHz (nofreqerr : bool) :
  renames (fun names =>
             (if nofreqerr then id else renamed "ERR" "Frequency Error")
               (renamed "FREQ" "Frequency" names))
    (frequency_to_GHz nofreqerr).
Proof.
  unfold frequency_to_GHz.
  pose proof (renames_rename_column "FREQ" "Frequency" ltac:(done)) as H1.
  pose proof (renames_imul "Frequency" 1e-3) as H2.
  pose proof (renames_rename_column "ERR" "Frequency Error" ltac:(done)) as H3.
  pose proof (renames_imul "Frequency Error" 1e-3) as H4.
  destruct nofreqerr; cbn [negb].
  - exact (renames_bind _ _ _ _ H1 (fun _ =>
             renames_bind _ _ _ _ H2 (fun _ => renames_ret ()))).
  - exact (renames_bind _ _ _ _ H1 (fun _ =>
             renames_bind _ _ _ _ H2 (fun _ =>
               renames_bind _ _ _ _ H3 (fun _ => H4)))).
Qed.

Lemma result_bind_inv {A B} (x : result A) (k : A -> result B) (b : B) :
  x ≫= k = Ok b -> exists a, x = Ok a /\ k a = Ok b.
Proof. destruct x as [a|e]; [by exists a|done]. Qed.

Lemma renames_energy_to_E_up `{Externals} :
  renames (fun names => renamed "GUP" "g_up" (renamed "ELO" "E_up" names))
    energy_to_E_up.
Proof.
  unfold energy_to_E_up.
  pose proof (renames_rename_column "ELO" "E_up" ltac:(done)) as H1.
  pose proof (renames_rename_column "GUP" "g_up" ltac:(done)) as H3.
  refine (renames_bind _ _ _ _ H1 (fun _ =>
            renames_bind id _ _ _ _ (fun _ => H3))).
  apply renames_on_table. intros tbl tbl' Hop.
  apply result_bind_inv in Hop as (E_up & _ & Hop).
  apply result_bind_inv in Hop as (Elow & _ & Hop).
  apply result_bind_inv in Hop as (Fq & _ & Hop).
  apply result_bind_inv in Hop as (fq & _ & Hop).
  by apply setitem_colnames in Hop.
Qed.

Ltac renames_id_step :=
  first [ apply renames_ret
        | apply renames_lift
        | apply renames_get_table
        | apply renames_set_meta
        | apply renames_setattr; done
        | apply (renames_bind id id); [|intros ?] ].

Lemma renames__set_quantities `{Externals} : renames id _set_quantities.
Proof.
  unfold _set_quantities.
  apply (renames_bind id id); [renames_id_step|]. intros tbl.
  apply (renames_bind id id).
  - destruct (Table.meta tbl !! "Molecular Weight"%string); renames_id_step.
  - intros _. repeat renames_id_step.
Qed.

Lemma renames_set_partition_function (pf : PartitionFunction.t) :
  renames id (set_partition_function pf).
Proof. apply renames_set_meta. Qed.

Lemma renames_JPL_metadata `{Externals} `{Catalogues}
  (species : option value) (pf : option PartitionFunction.t) :
  renames id (JPL_metadata species pf).
Proof.
  unfold JPL_metadata. destruct species as [sp|].
  - apply (renames_bind id id); [renames_id_step|]. intros _.
    apply (renames_bind id id); [|intros ?; renames_id_step].
    destruct pf; [apply renames_set_partition_function|apply renames_lift].
  - do 4 (apply (renames_bind id id); [renames_id_step|]; intros ?).
    apply (renames_bind id id); [renames_id_step|]. intros _.
    apply (renames_bind id id); [|intros ?; renames_id_step].
    destruct pf; [apply renames_set_partition_function|].
    apply (renames_bind id id); [renames_id_step|]. intros [T Q].
    repeat (apply (renames_bind id id); [renames_id_step|]; intros ?).
    apply renames_set_partition_function.
Qed.

Lemma renames_CDMS_metadata `{Externals} `{Catalogues} (use_cached : bool) :
  renames id (CDMS_metadata use_cached).
Proof.
  unfold CDMS_metadata.
  do 10 (apply (renames_bind id id); [renames_id_step|]; intros ?).
  apply (renames_bind id id); [renames_id_step|]. intros [T Q].
  repeat (apply (renames_bind id id); [renames_id_step|]; intros ?).
  apply renames_set_partition_function.
Qed.

Lemma renames_remove_ERR (nofreqerr : bool) :
  renames (if nofreqerr then without ["ERR"%string] else id)
    (if nofreqerr then on_table (Table.remove_column "ERR") else mret ()).
Proof.
  destruct nofreqerr; [apply renames_remove_columns|apply renames_ret].
Qed.

Lemma renames_JPL_steps `{Externals} `{Catalogues}
  (species : option value) (nofreqerr : bool)
  (pf : option PartitionFunction.t) (k : M ()) :
  k = (species ← JPL_metadata species pf;
       on_table (fun tbl => Ok (Table.set_meta "Species" (MValue species) tbl));;
       on_table (Table.remove_columns ["DR"; "TAG"; "QNFMT"]%string);;
       (if nofreqerr then on_table (Table.remove_column "ERR") else mret ());;
       on_table (fun tbl =>
         Table.add_column (column_of_repeat species (Table.len tbl))
           "Species" tbl);;
       frequency_to_GHz nofreqerr;;
       on_table (Table.rename_column "LGINT" "A_ul");;
       on_table (fun tbl =>
         A_ul ← Table.getitem "A_ul" tbl;
         Frequency ← Table.getitem "Frequency" tbl;
         Frequency ← as_operand Frequency;
         let nu0 := (Frequency * lit 1e3)%arith in
         GUP ← Table.getitem "GUP" tbl;
         ELO ← Table.getitem "ELO" tbl;
         Q_300 ← partition_function_at_300 tbl;
         Elow ← as_operand ELO;
         logint_300 ← as_exponent A_ul;
         gup ← as_operand GUP;
         Table.setitem "A_ul"
           (logint_to_EinsteinA logint_300 nu0 gup Elow (lit Q_300)) tbl);;
       energy_to_E_up;;
       _set_quantities) ->
  renames (JPL_colnames nofreqerr) k.
Proof.
  intros ->.
  eapply renames_ext;
    [|eapply renames_bind; [apply (renames_JPL_metadata species pf)|];
      intros sp;
      eapply renames_bind; [apply renames_set_meta|]; intros _;
      eapply renames_bind; [apply renames_remove_columns|]; intros _;
      eapply renames_bind; [apply renames_remove_ERR|]; intros _;
      eapply renames_bind;
        [apply (renames_on_table (cons "Species"%string));
         intros tbl tbl' Hop; by apply add_column_colnames in Hop|];
      intros _;
      eapply renames_bind; [apply renames_frequency_to_GHz|]; intros _;
      eapply renames_bind;
        [by apply (renames_rename_column "LGINT" "A_ul")|]; intros _;
      eapply renames_bind;
        [apply (renames_on_table id); intros tbl tbl' Hop;
         repeat (apply result_bind_inv in Hop as (? & _ & Hop));
         by apply setitem_colnames in Hop|];
      intros _;
      eapply renames_bind; [apply renames_energy_to_E_up|]; intros _;
      apply renames__set_quantities].
  intros names. unfold JPL_colnames, canonical_names, renamed.
  by destruct nofreqerr.
Qed.

Lemma renames_CDMS_steps `{Externals} `{Catalogues}
  (use_cached nofreqerr : bool) (k : M ()) :
  k = (CDMS_metadata use_cached;;
       on_table (Table.remove_columns
                   ["DR"; "TAG"; "QNFMT"; "MOLWT"; "Lab"]%string);;
       (if nofreqerr then on_table (Table.remove_column "ERR") else mret ());;
       on_table (fun tbl =>
         name ← Table.getitem "name" tbl;
         Table.add_column name "Species" tbl);;
       on_table (Table.remove_column "name");;
       frequency_to_GHz nofreqerr;;
       on_table (Table.rename_column "LGAIJ" "A_ul");;
       on_table (fun tbl =>
         A_ul ← Table.getitem "A_ul" tbl;
         logA ← as_exponent A_ul;
         Table.setitem "A_ul" (lit 10 ** logA)%arith tbl);;
       energy_to_E_up;;
       _set_quantities) ->
  renames (CDMS_colnames nofreqerr) k.
Proof.
  intros ->.
  eapply renames_ext;
    [|eapply renames_bind; [apply (renames_CDMS_metadata use_cached)|];
      intros _;
      eapply renames_bind; [apply renames_remove_columns|]; intros _;
      eapply renames_bind; [apply renames_remove_ERR|]; intros _;
      eapply renames_bind;
        [apply (renames_on_table (cons "Species"%string));
         intros tbl tbl' Hop;
         apply result_bind_inv in Hop as (? & _ & Hop);
         by apply add_column_colnames in Hop|];
      intros _;
      eapply renames_bind; [apply (renames_remove_columns ["name"%string])|];
      intros _;
      eapply renames_bind; [apply renames_frequency_to_GHz|]; intros _;
      eapply renames_bind;
        [by apply (renames_rename_column "LGAIJ" "A_ul")|]; intros _;
      eapply renames_bind;
        [apply (renames_on_table id); intros tbl tbl' Hop;
         repeat (apply result_bind_inv in Hop as (? & _ & Hop));
         by apply setitem_colnames in Hop|];
      intros _;
      eapply renames_bind; [apply renames_energy_to_E_up|]; intros _;
      apply renames__set_quantities].
  intros names. unfold CDMS_colnames, canonical_names, renamed, without.
  by destruct nofreqerr.
Qed.

Lemma the_table_at (r : ref) (tbl : Table.t) (st : state) :
  self st !! "table"%string = Some (ARef r) ->
  the_table st = Ok tbl -> store st !! r = Some tbl.
Proof.
  intros Ht. unfold the_table, table_ref. rewrite Ht. cbn.
  by destruct (store st !! r) as [t|]; intros [= ->].
Qed.

(** X10: the columns of a normalised table, in order: Species first, then the
    columns the response has after step 1 without DR, TAG and QNFMT (for CDMS
    also without MOLWT, Lab and name; without ERR when [nofreqerr] is set), in
    the order of the response and with FREQ, ERR, the intensity, ELO and GUP
    under their canonical names. *)
Theorem normalised_column_order `{Externals} `{Catalogues}
  (r : ref) (tbl0 : Table.t) (species : option value)
  (pf : option PartitionFunction.t) (use_cached nofreqerr : bool)
  (st st' : state) :
  store st !! r = Some tbl0 ->
  (format_JPL r species nofreqerr pf st = (Ok (), st') ->
   exists tbl',
     store st' !! r = Some tbl'
     /\ Table.colnames tbl'
        = JPL_colnames nofreqerr (Table.colnames (cleaned tbl0)))
  /\ (format_CDMS r use_cached nofreqerr st = (Ok (), st') ->
      exists tbl',
        store st' !! r = Some tbl'
        /\ Table.colnames tbl'
           = CDMS_colnames nofreqerr (Table.colnames (cleaned tbl0))).
Proof.
  intros Hr. split; intros Hrun.
  - pose proof (format_JPL_works_on r species nofreqerr pf st) as (Ht & _).
    rewrite Hrun in Ht. cbn in Ht.
    unfold format_JPL in Hrun.
    destruct (run_to_step_2 r tbl0 st Hr) as (st2 & Hf & Heq).
    rewrite Heq in Hrun.
    destruct (focused_table _ _ _ _ _ _ Hf) as [_ Ht2].
    destruct (renames_JPL_steps species nofreqerr pf _ eq_refl
                _ _ _ _ Ht2 Hrun) as (tbl' & Ht' & Hnames).
    exists tbl'. split; [|done]. by apply the_table_at.
  - pose proof (format_CDMS_works_on r use_cached nofreqerr st) as (Ht & _).
    rewrite Hrun in Ht. cbn in Ht.
    unfold format_CDMS in Hrun.
    destruct (run_to_step_2 r tbl0 st Hr) as (st2 & Hf & Heq).
    rewrite Heq in Hrun.
    destruct (focused_table _ _ _ _ _ _ Hf) as [_ Ht2].
    destruct (renames_CDMS_steps use_cached nofreqerr _ eq_refl
                _ _ _ _ Ht2 Hrun) as (tbl' & Ht' & Hnames).
    exists tbl'. split; [|done]. by apply the_table_at.
Qed.

(** ** Reading a partition function from a species table *)

Lemma mapM_Ok {A B} (f : A -> result B) (l : list A) (ys : list B) :
  mapM f l = Ok ys -> Forall2 (fun x y => f x = Ok y) l ys.
Proof.
  revert ys. induction l as [|x l IH]; intros ys; cbn.
  - intros [= <-]. constructor.
  - destruct (f x) as [y|e] eqn:Hy; [|done]. cbn.
    destruct (mapM f l) as [k|e]; [|done]. cbn. intros [= <-].
    constructor; [done|]. by apply IH.
Qed.

Lemma select_colnames (m : list bool) (tbl : Table.t) :
  Table.colnames (Table.select m tbl) = Table.colnames tbl.
Proof. done. Qed.

(** X11: [read_CDMS_partition_function] returns as many temperatures as
    values, one for each column whose name contains lg; so the partition
    function made of them is fitted through the pairs whose value is not NaN
    and never fails for arrays of different lengths. *)
Theorem read_CDMS_partition_function_lengths `{Externals} `{Catalogues}
  (species_table : Table.t) (tag : Z) (T Q : list float) :
  read_CDMS_partition_function species_table tag = Ok (T, Q) ->
  length T = length (CDMS_keys species_table)
  /\ length Q = length (CDMS_keys species_table)
  /\ PartitionFunction._get_function T Q
     = interp1d_cubic (valid_pairs T Q).*1 (valid_pairs T Q).*2.
Proof.
  unfold read_CDMS_partition_function. intros Hread.
  apply result_bind_inv in Hread as (tags & _ & Hread).
  apply result_bind_inv in Hread as (T' & HT & Hread).
  apply result_bind_inv in Hread as (Q' & HQ & Hread).
  injection Hread as <- <-.
  apply mapM_Ok, Forall2_length in HT. apply mapM_Ok, Forall2_length in HQ.
  assert (length T' = length (pow10 Q')) as Hlen.
  { unfold pow10. rewrite length_fmap. congruence. }
  split; [done|]. split; [by rewrite <- Hlen|].
  by apply _get_function_valid_pairs.
Qed.

(** X12: [read_JPL_partition_function] returns the temperatures of the
    metadata of the species table in reverse order, whatever the tag, and one
    value for each column whose name contains QLOG; when the two numbers
    differ no partition function can be made of the result: the constructor
    raises an IndexError. *)
Theorem read_JPL_partition_function_lengths `{Externals} `{Catalogues}
  (species_table : Table.t) (tag : Z) (T Q : list float) :
  read_JPL_partition_function species_table tag = Ok (T, Q) ->
  exists temperatures,
    Table.meta species_table !! "Temperature (K)"%string
    = Some (MFloats temperatures)
    /\ T = reverse temperatures
    /\ length Q = length (JPL_keys species_table)
    /\ (length temperatures <> length (JPL_keys species_table) ->
        forall species database ntrans,
          exists msg,
            PartitionFunction.__init__ species T Q database ntrans
            = Raise (IndexError msg)).
Proof.
  unfold read_JPL_partition_function. intros Hread.
  apply result_bind_inv in Hread as (tags & _ & Hread).
  apply result_bind_inv in Hread as (T' & HT & Hread).
  apply result_bind_inv in Hread as (Q' & HQ & Hread).
  injection Hread as <- <-.
  destruct (Table.meta species_table !! "Temperature (K)"%string)
    as [[v|temperatures|p]|]; try done.
  injection HT as <-. exists temperatures.
  apply mapM_Ok, Forall2_length in HQ.
  assert (length (pow10 (reverse Q')) = length (JPL_keys species_table))
    as Hlen.
  { unfold pow10. by rewrite length_fmap, length_reverse, <- HQ. }
  split; [done|]. split; [done|]. split; [done|].
  intros Hne species database ntrans. eexists.
  unfold PartitionFunction.__init__.
  rewrite _get_function_length_mismatch; [done|].
  rewrite length_reverse. congruence.
Qed.

Lemma filter_zip_none {A} (a : list A) (m : list bool) :
  (forall b, b ∈ m -> b = false) ->
  List.filter snd (zip a m) = [].
Proof.
  revert m. induction a as [|x a IH]; intros [|b m] Hm; cbn; try done.
  rewrite (Hm b) by left. cbn. apply IH. intros b' Hb'. apply Hm. by right.
Qed.

Lemma tolist_column_select_none (m : list bool) (col : Column) :
  (forall b, b ∈ m -> b = false) -> tolist (column_select m col) = [].
Proof.
  intros Hm. unfold tolist, column_select. cbn.
  destruct (data col) as [a|a|a]; by rewrite filter_zip_none.
Qed.

Lemma no_row_select (name : string) (tag : Z) (tbl : Table.t)
  (tags col : Column) (k : string) :
  no_row name tag tbl ->
  Table.getitem name tbl = Ok tags ->
  Table.getitem k (Table.select (value_eqb (VInt tag) <$> tolist tags) tbl)
  = Ok col ->
  tolist col = [].
Proof.
  intros Hno Htags%getitem_Ok Hcol%getitem_Ok.
  cbn in Hcol. rewrite lookup_fmap in Hcol.
  destruct (Table.columns tbl !! k) as [col0|]; [|done].
  injection Hcol as <-. apply tolist_column_select_none.
  intros b Hb. apply list_elem_of_fmap in Hb as (v & -> & Hv).
  by apply (Hno tags v).
Qed.

Lemma Forall2_elem_of_l {A B} (P : A -> B -> Prop) (l : list A) (k : list B)
  (x : A) :
  Forall2 P l k -> x ∈ l -> exists y, P x y.
Proof.
  intros HF Hx. apply list_elem_of_lookup in Hx as [i Hi].
  destruct (Forall2_lookup_l _ _ _ _ _ HF Hi) as (y & _ & Hy). eauto.
Qed.

(** X13: for a tag that no row of the species table has, and a table with a
    partition function column, both readers raise (the [float] of an empty
    column in one, item 0 of an empty column in the other): neither returns
    empty arrays or a default. *)
Theorem partition_function_of_an_absent_tag `{Externals} `{Catalogues}
  (species_table : Table.t) (tag : Z) (k : string) :
  (no_row "TAG" tag species_table -> k ∈ JPL_keys species_table ->
   is_Ok (read_JPL_partition_function species_table tag) = false)
  /\ (no_row "tag" tag species_table -> k ∈ CDMS_keys species_table ->
      is_Ok (read_CDMS_partition_function species_table tag) = false).
Proof.
  split; intros Hno Hk.
  - destruct (read_JPL_partition_function species_table tag) as [[T Q]|e]
      eqn:Hread; [|done]. exfalso.
    unfold read_JPL_partition_function in Hread.
    apply result_bind_inv in Hread as (tags & Htags & Hread).
    apply result_bind_inv in Hread as (T' & _ & Hread).
    apply result_bind_inv in Hread as (Q' & HQ & _).
    apply mapM_Ok in HQ.
    destruct (Forall2_elem_of_l _ _ _ k HQ Hk) as (y & Hy).
    apply result_bind_inv in Hy as (col & Hcol & Hy).
    apply result_bind_inv in Hy as (x & Hx & _).
    unfold column_float in Hx.
    by rewrite (no_row_select _ _ _ _ _ _ Hno Htags Hcol) in Hx.
  - destruct (read_CDMS_partition_function species_table tag) as [[T Q]|e]
      eqn:Hread; [|done]. exfalso.
    unfold read_CDMS_partition_function in Hread.
    apply result_bind_inv in Hread as (tags & Htags & Hread).
    apply result_bind_inv in Hread as (T' & _ & Hread).
    apply result_bind_inv in Hread as (Q' & HQ & _).
    apply mapM_Ok in HQ.
    destruct (Forall2_elem_of_l _ _ _ k HQ Hk) as (y & Hy).
    apply result_bind_inv in Hy as (col & Hcol & Hy).
    apply result_bind_inv in Hy as (v & Hv & _).
    unfold column_item in Hv.
    by rewrite (no_row_select _ _ _ _ _ _ Hno Htags Hcol) in Hv.
Qed.

(** ** The tag of a response *)

Lemma list_min_least (x : Z) (l : list Z) :
  list_min Z.ltb x l ∈ x :: l
  /\ forall z, z ∈ x :: l -> (list_min Z.ltb x l <= z)%Z.
Proof.
  unfold list_min. induction l as [|y l [IHin IHle]]; cbn.
  - split; [left|]. intros z Hz%list_elem_of_singleton. lia.
  - set (m := foldr (fun y m => if (y <? m)%Z then y else m) x l) in *.
    destruct (Z.ltb_spec y m) as [Hlt|Hge].
    + split; [right; left|]. intros z Hz.
      apply elem_of_cons in Hz as [Hz|Hz].
      * subst z. specialize (IHle x ltac:(left)). lia.
      * apply elem_of_cons in Hz as [Hz|Hz]; [subst z; lia|].
        specialize (IHle z ltac:(by right)). lia.
    + split.
      * apply elem_of_cons in IHin as [Heq|Hin]; [rewrite Heq; left|].
        right. by right.
      * intros z Hz. apply elem_of_cons in Hz as [Hz|Hz].
        -- subst z. apply IHle. left.
        -- apply elem_of_cons in Hz as [Hz|Hz]; [by subst z|].
           apply IHle. by right.
Qed.

Lemma omap_id_Some {A} (l : list A) : omap id (Some <$> l) = l.
Proof. induction l as [|x l IH]; cbn; [done|]. by rewrite IH. Qed.

(** X14: the species of a JPL response is looked up under the absolute value
    of the least cell of its TAG column; the tags of the other rows play no
    part. *)
Theorem response_tag_is_the_least_tag (tbl : Table.t) (col : Column)
  (tags : list Z) :
  Table.columns tbl !! "TAG"%string = Some col ->
  data col = IntCells (Some <$> tags) ->
  tags <> [] ->
  exists t,
    t ∈ tags /\ (forall z, z ∈ tags -> (t <= z)%Z)
    /\ response_tag tbl = Ok (Z.abs t).
Proof.
  intros Hcol Hdata Hne. unfold response_tag, Table.getitem.
  rewrite Hcol. cbn. unfold np_unique_first. rewrite Hdata.
  destruct tags as [|x l]; [done|]. cbn [fmap list_fmap].
  change (omap id (Some x :: (Some <$> l))) with (x :: omap id (Some <$> l)).
  rewrite omap_id_Some. cbn.
  destruct (list_min_least x l) as [Hin Hle].
  exists (list_min Z.ltb x l). done.
Qed.

(** ** A species and a partition function from the caller *)

(** X15: with a species from the caller [format_JPL] does not consult the
    species catalogue: its outcome is the same whatever the catalogue services
    answer. *)
Theorem format_JPL_without_the_catalogue `{Externals}
  (C1 C2 : Catalogues) (r : ref) (species : value) (nofreqerr : bool)
  (pf : option PartitionFunction.t) (st : state) :
  format_JPL (H0 := C1) r (Some species) nofreqerr pf st
  = format_JPL (H0 := C2) r (Some species) nofreqerr pf st.
Proof. reflexivity. Qed.

(** ** What a query prints *)

Lemma alloc_then_prints (tbl : Table.t) (k : ref -> M ()) (st : state) :
  (forall r st1, works_on assigned r st1 (k r st1).2) ->
  stdout ((alloc tbl ≫= k) st).2 = stdout st.
Proof.
  intros Hk. unfold mbind, M_bind, alloc.
  set (st1 := {| self := self st; store := _; stdout := stdout st |}).
  by pose proof (Hk (fresh (dom (store st))) st1) as (_ & _ & _ & -> & _).
Qed.

(** X16: a query prints the notice about no lines exactly when its service has
    no response; when the service has one nothing is printed, whether the
    normaliser returns or raises. *)
Theorem queries_print_the_notice_only `{Externals} `{Catalogues}
  (numin numax : float) (species_id : Z) (molecule : string)
  (use_cached nofreqerr : bool) (st : state) :
  stdout (query_JPL (numin, numax) species_id nofreqerr st).2
  = stdout st ++ notice (JPL_query_lines numin numax species_id)
  /\ stdout (query_CDMS (numin, numax) molecule use_cached nofreqerr st).2
     = stdout st
       ++ notice (CDMS_query_lines numin numax (zfill 6 molecule) 0).
Proof.
  split.
  - unfold query_JPL.
    destruct (JPL_query_lines numin numax species_id) as [tbl|]; [|done].
    cbn [notice]. rewrite app_nil_r. apply alloc_then_prints.
    intros r st1. apply format_JPL_works_on.
  - unfold query_CDMS.
    destruct (CDMS_query_lines numin numax (zfill 6 molecule) 0) as [tbl|];
      [|done].
    cbn [notice]. rewrite app_nil_r. apply alloc_then_prints.
    intros r st1. apply format_CDMS_works_on.
Qed.

(** ** A masked response without rows *)

Lemma empty_column_is_masked (tbl : Table.t) (k : string) (col : Column) :
  k ∈ Table.colnames tbl -> Table.columns tbl !! k = Some col ->
  column_len col = 0 -> k ∈ Table.masked_columns tbl.
Proof.
  intros Hin Hcol Hlen. unfold Table.masked_columns.
  apply list_elem_of_In, List.filter_In. split; [by apply list_elem_of_In|].
  rewrite Hcol. unfold column_len in Hlen.
  by destruct (column_mask col).
Qed.

(** X17: in a table that carries a mask and has no rows every column counts as
    missing in every row, so that step 1 removes all columns: both normalisers
    raise on it, also when the caller supplies species and partition function. *)
Theorem masked_response_without_rows_raises `{Externals} `{Catalogues}
  (r : ref) (tbl0 : Table.t) (species : option value)
  (pf : option PartitionFunction.t) (use_cached nofreqerr : bool)
  (st : state) :
  store st !! r = Some tbl0 ->
  Table.has_mask tbl0 = true ->
  (forall k col, Table.columns tbl0 !! k = Some col ->
                 k ∈ Table.colnames tbl0 /\ column_len col = 0) ->
  is_Ok (format_JPL r species nofreqerr pf st).1 = false
  /\ is_Ok (format_CDMS r use_cached nofreqerr st).1 = false.
Proof.
  intros Hr Hmask Hzero. split.
  - destruct (format_JPL r species nofreqerr pf st) as [[[]|e] st'] eqn:Hrun;
      [|done]. exfalso.
    apply (format_JPL_needs _ _ _ _ _ _ _ Hr) in Hrun as (Hreq & _).
    destruct (Hreq "DR"%string ltac:(in_list)) as [[col Hcol] Hnot].
    destruct (Hzero _ _ Hcol) as [Hin Hlen].
    by apply (Hnot Hmask), (empty_column_is_masked _ _ col).
  - destruct (format_CDMS r use_cached nofreqerr st) as [[[]|e] st'] eqn:Hrun;
      [|done]. exfalso.
    apply (format_CDMS_needs _ _ _ _ _ _ Hr) in Hrun as (Hreq & _).
    destruct (Hreq "DR"%string ltac:(in_list)) as [[col Hcol] Hnot].
    destruct (Hzero _ _ Hcol) as [Hin Hlen].
    by apply (Hnot Hmask), (empty_column_is_masked _ _ col).
Qed.

Lemma normalisers_need_their_columns_witness :
  store (Sample.holding Sample.jpl_response) !! 1%positive
  = Some Sample.jpl_response
  /\ format_JPL (H := Sample.externals) (H0 := Sample.catalogues)
       1%positive None false None (Sample.holding Sample.jpl_response)
     = (Ok (), Sample.jpl_done)
  /\ (forall k, k ∈ ["DR"; "TAG"; "QNFMT"; "FREQ"; "LGINT"; "ELO"; "GUP"]%string ->
                usable Sample.jpl_response k)
  /\ float_column Sample.jpl_response "FREQ".
Proof.
  assert (Hr : store (Sample.holding Sample.jpl_response) !! 1%positive
               = Some Sample.jpl_response) by (vm_compute; reflexivity).
  assert (Hrun : format_JPL (H := Sample.externals) (H0 := Sample.catalogues)
                   1%positive None false None
                   (Sample.holding Sample.jpl_response)
                 = (Ok (), Sample.jpl_done)) by (vm_compute; reflexivity).
  split; [exact Hr|]. split; [exact Hrun|].
  pose proof (proj1 (@normalisers_need_their_columns Sample.externals
                       Sample.catalogues 1%positive Sample.jpl_response
                       None None false false
                       (Sample.holding Sample.jpl_response) Sample.jpl_done
                       Hr) Hrun) as (Hreq & Hfloat & _).
  exact (conj Hreq Hfloat).
Defined.

Lemma normalisers_set_the_quantities_witness :
  store (Sample.holding Sample.cdms_response) !! 1%positive
  = Some Sample.cdms_response
  /\ format_CDMS (H := Sample.externals) (H0 := Sample.catalogues)
       1%positive false false (Sample.holding Sample.cdms_response)
     = (Ok (), Sample.cdms_done)
  /\ exists tbl' w,
       store Sample.cdms_done !! 1%positive = Some tbl'
       /\ quantities_of (H := Sample.externals) tbl' (self Sample.cdms_done)
       /\ self Sample.cdms_done !! "molweight"%string = Some (AInt w)
       /\ self Sample.cdms_done !! "mu"%string
          = Some (AMeta (MValue (VInt w))).
Proof.
  assert (Hr : store (Sample.holding Sample.cdms_response) !! 1%positive
               = Some Sample.cdms_response) by (vm_compute; reflexivity).
  assert (Hrun : format_CDMS (H := Sample.externals) (H0 := Sample.catalogues)
                   1%positive false false
                   (Sample.holding Sample.cdms_response)
                 = (Ok (), Sample.cdms_done)) by (vm_compute; reflexivity).
  split; [exact Hr|]. split; [exact Hrun|].
  exact (proj2 (@normalisers_set_the_quantities Sample.externals
                  Sample.catalogues 1%positive Sample.cdms_response
                  None None false false
                  (Sample.holding Sample.cdms_response) Sample.cdms_done
                  Hr) Hrun).
Defined.

Lemma normalisers_set_the_metadata_witness :
  store (Sample.holding Sample.jpl_response) !! 1%positive
  = Some Sample.jpl_response
  /\ format_JPL (H := Sample.externals) (H0 := Sample.catalogues)
       1%positive None false None (Sample.holding Sample.jpl_response)
     = (Ok (), Sample.jpl_done)
  /\ exists tbl' sp pf',
       store Sample.jpl_done !! 1%positive = Some tbl'
       /\ Table.meta tbl'
          = <["Species"%string := MValue sp]>
              (<["Partition Function"%string := MPartitionFunction pf']>
                 (Table.meta Sample.jpl_response))
       /\ self Sample.jpl_done !! "species"%string = Some (AValue sp)
       /\ (forall s, None = Some s -> sp = s)
       /\ (forall p, None = Some p -> pf' = p).
Proof.
  assert (Hr : store (Sample.holding Sample.jpl_response) !! 1%positive
               = Some Sample.jpl_response) by (vm_compute; reflexivity).
  assert (Hrun : format_JPL (H := Sample.externals) (H0 := Sample.catalogues)
                   1%positive None false None
                   (Sample.holding Sample.jpl_response)
                 = (Ok (), Sample.jpl_done)) by (vm_compute; reflexivity).
  split; [exact Hr|]. split; [exact Hrun|].
  exact (proj1 (@normalisers_set_the_metadata Sample.externals
                  Sample.catalogues 1%positive Sample.jpl_response
                  None None false false
                  (Sample.holding Sample.jpl_response) Sample.jpl_done
                  Hr) Hrun).
Defined.

Lemma normalised_column_order_witness :
  store (Sample.holding Sample.jpl_response) !! 1%positive
  = Some Sample.jpl_response
  /\ format_JPL (H := Sample.externals) (H0 := Sample.catalogues)
       1%positive None false None (Sample.holding Sample.jpl_response)
     = (Ok (), Sample.jpl_done)
  /\ JPL_colnames false (Table.colnames (cleaned Sample.jpl_response))
     = ["Species"; "Frequency"; "Frequency Error"; "A_ul"; "E_up"; "g_up";
        "QN'"]%string
  /\ exists tbl',
       store Sample.jpl_done !! 1%positive = Some tbl'
       /\ Table.colnames tbl'
          = JPL_colnames false (Table.colnames (cleaned Sample.jpl_response)).
Proof.
  assert (Hr : store (Sample.holding Sample.jpl_response) !! 1%positive
               = Some Sample.jpl_response) by (vm_compute; reflexivity).
  assert (Hrun : format_JPL (H := Sample.externals) (H0 := Sample.catalogues)
                   1%positive None false None
                   (Sample.holding Sample.jpl_response)
                 = (Ok (), Sample.jpl_done)) by (vm_compute; reflexivity).
  split; [exact Hr|]. split; [exact Hrun|].
  split; [vm_compute; reflexivity|].
  exact (proj1 (@normalised_column_order Sample.externals
                  Sample.catalogues 1%positive Sample.jpl_response
                  None None false false
                  (Sample.holding Sample.jpl_response) Sample.jpl_done
                  Hr) Hrun).
Defined.

Lemma missing_partition_function_is_raised_late_witness :
  store (Sample.holding Sample.jpl_response) !! 1%positive
  = Some Sample.jpl_response
  /\ format_JPL (H := Sample.externals) (H0 := Sample.catalogues)
       1%positive (Some (VStr "CO")) false None
       (Sample.holding Sample.jpl_response)
     = (Raise missing_partition_function,
        {| self := <["species"%string := AValue (VStr "CO")]>
                     (<["table"%string := ARef 1%positive]>
                        (self (Sample.holding Sample.jpl_response)));
           store := <[1%positive := cleaned Sample.jpl_response]>
                      (store (Sample.holding Sample.jpl_response));
           stdout := stdout (Sample.holding Sample.jpl_response) |}).
Proof.
  assert (Hr : store (Sample.holding Sample.jpl_response) !! 1%positive
               = Some Sample.jpl_response) by (vm_compute; reflexivity).
  split; [exact Hr|].
  exact (@missing_partition_function_is_raised_late Sample.externals
           Sample.catalogues 1%positive Sample.jpl_response (VStr "CO")
           false (Sample.holding Sample.jpl_response) Hr).
Defined.

Lemma read_CDMS_partition_function_lengths_witness :
  exists T Q,
    read_CDMS_partition_function (H := Sample.externals)
      Sample.cdms_species 28503 = Ok (T, Q)
    /\ length T = 4 /\ length Q = 4
    /\ length T = length (CDMS_keys Sample.cdms_species)
    /\ length Q = length (CDMS_keys Sample.cdms_species).
Proof.
  assert (Hread : { TQ | read_CDMS_partition_function (H := Sample.externals)
                           Sample.cdms_species 28503 = Ok TQ })
    by (eexists; vm_compute; reflexivity).
  destruct Hread as [[T Q] Hread]. exists T, Q. split; [exact Hread|].
  pose proof (@read_CDMS_partition_function_lengths Sample.externals
                Sample.catalogues Sample.cdms_species 28503%Z T Q Hread)
    as (HT & HQ & _).
  split; [rewrite HT; vm_compute; reflexivity|].
  split; [rewrite HQ; vm_compute; reflexivity|].
  exact (conj HT HQ).
Defined.

Lemma read_JPL_partition_function_lengths_witness :
  exists T Q temperatures,
    read_JPL_partition_function (H := Sample.externals)
      Sample.jpl_species 28001 = Ok (T, Q)
    /\ Table.meta Sample.jpl_species !! "Temperature (K)"%string
       = Some (MFloats temperatures)
    /\ T = reverse temperatures
    /\ length Q = length (JPL_keys Sample.jpl_species).
Proof.
  assert (Hread : { TQ | read_JPL_partition_function (H := Sample.externals)
                           Sample.jpl_species 28001 = Ok TQ })
    by (eexists; vm_compute; reflexivity).
  destruct Hread as [[T Q] Hread].
  destruct (@read_JPL_partition_function_lengths Sample.externals
              Sample.catalogues Sample.jpl_species 28001%Z T Q Hread)
    as (temperatures & Hmeta & HT & HQ & _).
  exists T, Q, temperatures. done.
Defined.

Lemma partition_function_of_an_absent_tag_witness :
  no_row "TAG" 99001 Sample.jpl_species
  /\ "QLOG1"%string ∈ JPL_keys Sample.jpl_species
  /\ is_Ok (read_JPL_partition_function (H := Sample.externals)
              Sample.jpl_species 99001) = false.
Proof.
  assert (Hno : no_row "TAG" 99001 Sample.jpl_species).
  { intros tags v Htags Hv. vm_compute in Htags. injection Htags as <-.
    vm_compute in Hv. apply list_elem_of_singleton in Hv as ->. reflexivity. }
  assert (Hk : "QLOG1"%string ∈ JPL_keys Sample.jpl_species)
    by (vm_compute; apply list_elem_of_here).
  split; [exact Hno|]. split; [exact Hk|].
  exact (proj1 (@partition_function_of_an_absent_tag Sample.externals
                  Sample.catalogues Sample.jpl_species 99001%Z
                  "QLOG1"%string) Hno Hk).
Defined.

Lemma response_tag_is_the_least_tag_witness :
  Table.columns two_species_response !! "TAG"%string
  = Some (Sample.plain (IntCells [Some 30001%Z; Some (-28001)%Z]))
  /\ response_tag two_species_response = Ok 28001%Z
  /\ exists t,
       t ∈ [30001; -28001]%Z /\ (forall z, z ∈ [30001; -28001]%Z -> (t <= z)%Z)
       /\ response_tag two_species_response = Ok (Z.abs t).
Proof.
  assert (Hcol : Table.columns two_species_response !! "TAG"%string
                 = Some (Sample.plain
                           (IntCells [Some 30001%Z; Some (-28001)%Z])))
    by (vm_compute; reflexivity).
  split; [exact Hcol|]. split; [vm_compute; reflexivity|].
  exact (response_tag_is_the_least_tag two_species_response
           (Sample.plain (IntCells [Some 30001%Z; Some (-28001)%Z]))
           [30001; -28001]%Z Hcol eq_refl ltac:(done)).
Defined.

Lemma masked_response_without_rows_raises_witness :
  store (Sample.holding masked_empty_response) !! 1%positive
  = Some masked_empty_response
  /\ Table.has_mask masked_empty_response = true
  /\ is_Ok (format_JPL (H := Sample.externals) (H0 := Sample.catalogues)
              1%positive (Some (VStr "CO")) false (Some Sample.co_pf)
              (Sample.holding masked_empty_response)).1 = false.
Proof.
  assert (Hr : store (Sample.holding masked_empty_response) !! 1%positive
               = Some masked_empty_response) by (vm_compute; reflexivity).
  assert (Hmask : Table.has_mask masked_empty_response = true)
    by reflexivity.
  assert (Hzero : forall k col,
            Table.columns masked_empty_response !! k = Some col ->
            k ∈ Table.colnames masked_empty_response /\ column_len col = 0).
  { intros k col Hcol.
    assert ((k, col) ∈ map_to_list (Table.columns masked_empty_response))
      as Hin by (by apply elem_of_map_to_list).
    vm_compute in Hin.
    repeat (apply elem_of_cons in Hin as [[= -> ->]|Hin];
            [split; [vm_compute; in_list|reflexivity]|]).
    by apply elem_of_nil in Hin. }
  split; [exact Hr|]. split; [exact Hmask|].
  exact (proj1 (@masked_response_without_rows_raises Sample.externals
                  Sample.catalogues 1%positive masked_empty_response
                  (Some (VStr "CO")) (Some Sample.co_pf) false false
                  (Sample.holding masked_empty_response) Hr Hmask Hzero)).
Defined.

(** ** A temperature that is not a number *)

Lemma is_nan_Prim2SF (x : float) :
  PrimFloat.is_nan x = true -> Prim2SF x = S754_nan.
Proof.
  unfold PrimFloat.is_nan. rewrite FloatAxioms.eqb_spec. unfold SFeqb, SFcompare.
  destruct (Prim2SF x) as [s|s| |s m e]; [by destruct s|by destruct s|done|].
  rewrite Z.compare_refl, Pos.compare_cont_refl. by destruct s.
Qed.

Lemma ltb_nan (x y : float) :
  PrimFloat.is_nan x = true ->
  PrimFloat.ltb x y = false /\ PrimFloat.ltb y x = false.
Proof.
  intros Hx%is_nan_Prim2SF. rewrite !FloatAxioms.ltb_spec, Hx. unfold SFltb, SFcompare.
  split; [done|]. by destruct (Prim2SF y).
Qed.

(** X18: a temperature that is NaN is neither below nor above the sampled
    range: called with [verbose] the partition function prints no warning and
    returns the value of the interpolant at NaN. *)
Theorem PartitionFunction_call_nan `{Externals}
  (species : value) (T Q : list float) (database : option string)
  (ntrans : option Column) (pf : PartitionFunction.t) (T_ : float) :
  PartitionFunction.__init__ species T Q database ntrans = Ok pf ->
  PrimFloat.is_nan T_ = true ->
  PartitionFunction.__call__ pf T_ true
  = ([], Ok (PartitionFunction.function pf T_)).
Proof.
  intros Hinit Hnan.
  apply PartitionFunction_init_Ok in Hinit as (HT & _ & _ & Hfour & _).
  pose proof (valid_pairs_length T Q) as Hle.
  unfold PartitionFunction.__call__. rewrite HT.
  destruct T as [|t0 T']; [cbn in Hle, Hfour; lia|].
  cbn [np_nanmin np_nanmax mbind result_bind].
  destruct (ltb_nan T_ (nan_fold PrimFloat.ltb (t0 :: T')) Hnan) as [-> _].
  by destruct (ltb_nan T_ (nan_fold (fun x m => PrimFloat.ltb m x) (t0 :: T'))
                 Hnan) as [_ ->].
Qed.

Lemma PartitionFunction_call_nan_witness :
  PartitionFunction.__init__ (H := Sample.externals) (VStr "CO")
    [37.5; 75; 150; 300]%float [1; 10; 100; 1000]%float None None
  = Ok Sample.co_pf
  /\ PrimFloat.is_nan PrimFloat.nan = true
  /\ PartitionFunction.__call__ Sample.co_pf PrimFloat.nan true
     = ([], Ok (PartitionFunction.function Sample.co_pf PrimFloat.nan)).
Proof.
  assert (Hbuilt : PartitionFunction.__init__ (H := Sample.externals)
    (VStr "CO") [37.5; 75; 150; 300]%float [1; 10; 100; 1000]%float None None
    = Ok Sample.co_pf) by (vm_compute; reflexivity).
  split; [exact Hbuilt|]. split; [reflexivity|].
  exact (PartitionFunction_call_nan (H := Sample.externals)
    (VStr "CO") [37.5; 75; 150; 300]%float [1; 10; 100; 1000]%float None None
    Sample.co_pf PrimFloat.nan Hbuilt eq_refl).
Defined.

(** ** The table of a query and of a file *)



